(** * Parallel decomposition and integration pipeline

    A shallow embedding of the decomposition engine
    ([scripts/python/decompose-parallel.py]), of the spawn-time agent
    context ([scripts/python/spawn-agents.py]) and of the integration
    pipeline ([scripts/python/integrate-parallel-work.py]), followed by the
    properties stated about them. The files, the status documents and the
    checks that the stages hand to one another are embedded with them: the
    rest of the spawn stage, the conflict check and the status of
    [scripts/python/validate-parallel-work.py], and the checks and the
    coordination files of [scripts/python/agent-commit.py].

    Conventions.
    - Python [str] is [string], the bytes of its UTF-8 form. The text
      helpers ([lower], [strip], the numbered-line pattern) are those of
      Python on ASCII text ([ascii_text]): Python also lowers letters, strips
      white space and reads digits outside ASCII, which the helpers leave
      alone. A property that needs the two to agree on its input says that
      the input is ASCII text.
    - A path is the string pathlib prints for it: [Path] reads a text as
      pathlib does and prints it, and [path_join] is pathlib's [/].
    - A Python [dict] is an insertion-ordered association list ([pydict]):
      the code iterates over its dictionaries, so the order is observable.
      Where only membership matters ([file_ownership], [all_domain_files])
      the dictionary or set is a [gmap] or [gset].
    - The iteration order of a Python [set] of strings is not fixed by the
      language; it is a parameter ([SetOrder]).
    - Exceptions of the decomposer are values of [exn] carried by the [res]
      monad. The integration stage acts on the outside world: its
      computations ([io]) thread the history of what was done and end by
      returning, by [sys.exit], or by an exception nobody catches.
    - What a stage finds outside itself (the cached issue, the analyzer,
      files, exit statuses of commands, the clock) is an argument
      ([DecomposeEnv.t], [World.t]). Console output is not modelled, and
      neither is a file system that refuses a write: the writes of
      [save_deployment_plan] and of the other stages are those of a run in
      which the directories can be made and the files opened. *)

From Stdlib Require Import ZArith Ascii String Floats.
From stdpp Require Import gmap strings list sorting pretty.
From Equations Require Import Equations.

Local Open Scope string_scope.
Local Open Scope list_scope.

(** ** Exceptions and the error monad *)

(** The two [ValueError]s the decomposer raises itself, and the one of
    [list.remove]. *)
Inductive value_error : Type :=
| FileConflict (file : string)
| OwnershipConflict (file agent owner : string)
| NotInList.

Inductive exn : Type :=
| ValueError (v : value_error)
| IndexError
| KeyError (key : string)
| AttributeError
| TypeError.

Inductive res (A : Type) : Type :=
| Ok (x : A)
| Raise (e : exn).

Arguments Ok {A} x.
Arguments Raise {A} e.

Definition res_bind {A B : Type} (m : res A) (k : A → res B) : res B :=
  match m with
  | Ok x => k x
  | Raise e => Raise e
  end.

Notation "x ←! m ; k" := (res_bind m (fun x => k))
  (at level 20, m at level 100, k at level 200, only parsing).

Notation "' p ←! m ; k" := (res_bind m (fun p => k))
  (at level 20, p pattern, m at level 100, k at level 200, only parsing).

Fixpoint res_fold {A S : Type} (f : S → A → res S) (s : S) (l : list A) : res S :=
  match l with
  | [] => Ok s
  | x :: l' => s' ←! f s x; res_fold f s' l'
  end.

(** ** Data model (the dataclasses of decompose-parallel.py) *)

Module LinearIssue.
Record t : Type := mk {
  id : string;
  title : string;
  description : string;
  requirements : list string
}.
End LinearIssue.

Module FileOperation.
Record t : Type := mk {
  operation : string;
  domain : string;
  requirement : string
}.
End FileOperation.

Module WorkDomain.
Record t : Type := mk {
  id : string;
  role : string;
  focus_area : string;
  estimated_time : Z;
  complexity : string;
  type : string;
  dependencies : list string
}.
End WorkDomain.

Module Agent.
Record t : Type := mk {
  id : string;
  role : string;
  focus_area : string;
  dependencies : list string;
  files_to_create : list string;
  files_to_modify : list string;
  test_contracts : list string;
  validation_criteria : list string;
  estimated_time : Z;
  requirements : list string;
  can_start_immediately : bool
}.
End Agent.

#[global] Instance FileOperation_eq_dec : EqDecision FileOperation.t.
Proof. solve_decision. Defined.

#[global] Instance Agent_eq_dec : EqDecision Agent.t.
Proof. solve_decision. Defined.

(** ** MergeOrderScheduler: [calculate_merge_order] *)

(** [not agent.dependencies or all(dep in ordered for dep in agent.dependencies)] *)
Definition is_ready (ordered : list string) (agent : Agent.t) : bool :=
  bool_decide (Agent.dependencies agent = [])
  || forallb (fun dep => bool_decide (dep ∈ ordered)) (Agent.dependencies agent).

(** [list.remove(x)]: drops the first element equal to [x]; a [ValueError]
    when there is none. *)
Fixpoint list_remove (x : Agent.t) (l : list Agent.t) : res (list Agent.t) :=
  match l with
  | [] => Raise (ValueError NotInList)
  | y :: l' =>
      if decide (y = x) then Ok l'
      else (r ←! list_remove x l'; Ok (y :: r))
  end.

Definition inspect {A : Type} (a : A) : {b : A | a = b} := exist _ a eq_refl.

(** The [while remaining:] loop. Every turn that does not end the loop
    removes one agent from [remaining], which is the measure of the
    recursion. *)
Equations? merge_loop (ordered : list string) (remaining : list Agent.t)
  : res (list string) by wf (length remaining) lt :=
  merge_loop ordered [] := Ok ordered;
  merge_loop ordered (a :: r)
    with inspect (filter (fun x => is_ready ordered x = true) (a :: r)) => {
    | exist _ [] _ := Ok (ordered ++ (Agent.id <$> (a :: r)));
    | exist _ (next_agent :: _) _
        with inspect (list_remove next_agent (a :: r)) => {
        | exist _ (Raise e) _ := Raise e;
        | exist _ (Ok remaining') Hrm :=
            merge_loop (ordered ++ [Agent.id next_agent]) remaining' } }.
Proof.
  assert (Hlen : ∀ l l', list_remove next_agent l = Ok l' → length l = S (length l')).
  { clear. induction l as [|y l IH]; intros l'; simpl; [done|].
    destruct (decide (y = next_agent)); [by intros [= <-]|].
    destruct (list_remove next_agent l); simpl; [|done].
    intros [= <-]. simpl. f_equal. by apply IH. }
  change (list_remove next_agent (a :: r) = Ok remaining') in Hrm.
  apply Hlen in Hrm. simpl in Hrm. lia.
Qed.

(** [ordered = []; remaining = agents.copy(); while remaining: ...] *)
Definition calculate_merge_order (agents : list Agent.t) : res (list string) :=
  merge_loop [] agents.

(** ** Text helpers *)

Definition newline : ascii := ascii_of_nat 10.

(** [str.isspace], and [\s] of a pattern, on the ASCII range: tab to
    carriage return, the four separators 28 to 31, and the space. Outside
    ASCII Python has more white space (U+0085, U+00A0, U+2000 and others),
    which is not white space here. *)
Definition is_space (c : ascii) : bool :=
  let n := nat_of_ascii c in
  ((9 <=? n) && (n <=? 13) || (28 <=? n) && (n <=? 32))%nat.

(** [\d] of a pattern on the ASCII range; Python reads the decimal digits
    of other scripts too. *)
Definition is_digit (c : ascii) : bool :=
  let n := nat_of_ascii c in ((48 <=? n) && (n <=? 57))%nat.

Definition lower_char (c : ascii) : ascii :=
  let n := nat_of_ascii c in
  if ((65 <=? n) && (n <=? 90))%nat then ascii_of_nat (n + 32) else c.

Definition upper_char (c : ascii) : ascii :=
  let n := nat_of_ascii c in
  if ((97 <=? n) && (n <=? 122))%nat then ascii_of_nat (n - 32) else c.

(** [str.lower] on ASCII text; letters outside ASCII are left as they
    are. *)
Fixpoint lower (s : string) : string :=
  match s with
  | EmptyString => EmptyString
  | String c s' => String (lower_char c) (lower s')
  end.

(** [str.capitalize] *)
Definition capitalize (s : string) : string :=
  match s with
  | EmptyString => EmptyString
  | String c s' => String (upper_char c) (lower s')
  end.

(** [sub in s] *)
Fixpoint str_in (sub s : string) : bool :=
  String.prefix sub s
  || match s with
     | EmptyString => false
     | String _ s' => str_in sub s'
     end.

(** [s.startswith(p)] *)
Definition startswith (s p : string) : bool := String.prefix p s.

Fixpoint lstrip (s : string) : string :=
  match s with
  | EmptyString => EmptyString
  | String c s' => if is_space c then lstrip s' else s
  end.

Fixpoint rstrip (s : string) : string :=
  match s with
  | EmptyString => EmptyString
  | String c s' =>
      match rstrip s' with
      | EmptyString => if is_space c then EmptyString else String c EmptyString
      | r => String c r
      end
  end.

(** [str.strip] *)
Definition strip (s : string) : string := rstrip (lstrip s).

(** [s.split(sep)] for a one-character separator. *)
Fixpoint split_on (sep : ascii) (s : string) : list string :=
  match s with
  | EmptyString => [EmptyString]
  | String c s' =>
      if decide (c = sep) then EmptyString :: split_on sep s'
      else match split_on sep s' with
           | [] => [String c EmptyString]
           | h :: t => String c h :: t
           end
  end.

(** [old] is skipped once it has been replaced: [skip] counts the
    characters of the current occurrence still to drop. *)
Fixpoint replace_go (old new : string) (skip : nat) (s : string) : string :=
  match s with
  | EmptyString => EmptyString
  | String c s' =>
      match skip with
      | S k => replace_go old new k s'
      | O =>
          if String.prefix old s
          then new +:+ replace_go old new (String.length old - 1) s'
          else String c (replace_go old new 0 s')
      end
  end.

Fixpoint intersperse_str (new s : string) : string :=
  match s with
  | EmptyString => new
  | String c s' => new +:+ String c (intersperse_str new s')
  end.

(** [s.replace(old, new)]: every non-overlapping occurrence, from the
    left; an empty [old] matches between any two characters. *)
Definition str_replace (old new s : string) : string :=
  match old with
  | EmptyString => intersperse_str new s
  | _ => replace_go old new 0 s
  end.

Fixpoint span_digits (s : string) : string * string :=
  match s with
  | EmptyString => (EmptyString, EmptyString)
  | String c s' =>
      if is_digit c then let '(d, r) := span_digits s' in (String c d, r)
      else (EmptyString, s)
  end.

Fixpoint take_line (s : string) : string :=
  match s with
  | EmptyString => EmptyString
  | String c s' => if decide (c = newline) then EmptyString else String c (take_line s')
  end.

(** [(.+)]: the longest non-empty run without a line break. *)
Definition dot_plus (s : string) : option string :=
  match take_line s with
  | EmptyString => None
  | g => Some g
  end.

(** [\s*(.+)]: the white space is taken greedily and given back one
    character at a time while the group cannot match. *)
Fixpoint spaces_then_group (s : string) : option string :=
  match s with
  | EmptyString => None
  | String c s' =>
      if is_space c then
        match spaces_then_group s' with
        | Some g => Some g
        | None => dot_plus s
        end
      else dot_plus s
  end.

(** [re.match(r"^\s*\d+\.\s*(.+)", line)], returning [match.group(1)]. *)
Definition match_numbered (line : string) : option string :=
  match span_digits (lstrip line) with
  | (EmptyString, _) => None
  | (_, String c rest) =>
      if decide (c = "."%char) then spaces_then_group rest else None
  | (_, EmptyString) => None
  end.

(** *** pathlib: [Path(file).suffix] and [Path(file).stem] *)

Definition path_name (file : string) : string :=
  List.last
    (filter (fun part => part ≠ EmptyString ∧ part ≠ ".") (split_on "/"%char file))
    EmptyString.

(** Splits at the last dot: the text before it and the text from it on. *)
Fixpoint rsplit_dot (s : string) : option (string * string) :=
  match s with
  | EmptyString => None
  | String c s' =>
      match rsplit_dot s' with
      | Some (pre, suf) => Some (String c pre, suf)
      | None => if decide (c = "."%char) then Some (EmptyString, s) else None
      end
  end.

(** [0 < i < len(name) - 1] for the index [i] of the last dot. *)
Definition split_suffix (name : string) : string * string :=
  match rsplit_dot name with
  | Some (pre, suf) =>
      if ((0 <? String.length pre) && (2 <=? String.length suf))%nat
      then (pre, suf) else (name, EmptyString)
  | None => (name, EmptyString)
  end.

Definition path_stem (file : string) : string := fst (split_suffix (path_name file)).
Definition path_suffix (file : string) : string := snd (split_suffix (path_name file)).

(** ** Python dictionaries and sets *)

Abbreviation pydict V := (list (string * V)).

Section pydict_ops.
Context {V : Type}.

(** [d.get(k)] *)
Fixpoint dict_get (k : string) (d : pydict V) : option V :=
  match d with
  | [] => None
  | (k', v) :: d' => if decide (k' = k) then Some v else dict_get k d'
  end.

(** [d[k] = v]: a present key keeps its place, a new one goes last. *)
Fixpoint dict_set (k : string) (v : V) (d : pydict V) : pydict V :=
  match d with
  | [] => [(k, v)]
  | (k', v') :: d' =>
      if decide (k' = k) then (k, v) :: d' else (k', v') :: dict_set k v d'
  end.

(** [d[k]] *)
Definition dict_index (k : string) (d : pydict V) : res V :=
  match dict_get k d with
  | Some v => Ok v
  | None => Raise (KeyError k)
  end.

Definition dict_keys (d : pydict V) : list string := fst <$> d.

End pydict_ops.

(** [l[0]] *)
Definition list_first {A : Type} (l : list A) : res A :=
  match l with
  | [] => Raise IndexError
  | x :: _ => Ok x
  end.

(** [list(set(l))]: the elements of [l], each once, in an order that the
    language leaves open (it depends on the hash seed of the process). *)
Record SetOrder : Type := {
  set_to_list : list string → list string;
  set_to_list_elem : ∀ l x, x ∈ set_to_list l ↔ x ∈ l;
  set_to_list_NoDup : ∀ l, NoDup (set_to_list l)
}.

(** One such order: first occurrences, in list order. *)
Definition first_seen_order : SetOrder :=
  {| set_to_list := remove_dups;
     set_to_list_elem := fun l x => elem_of_remove_dups l x;
     set_to_list_NoDup := fun l => NoDup_remove_dups l |}.

(** ** Documents (the YAML and JSON values the stages exchange) *)

Inductive yaml : Type :=
| YNull
| YBool (b : bool)
| YInt (n : Z)
| YFloat (x : float)
| YStr (s : string)
| YList (items : list yaml)
| YDict (entries : list (string * yaml)).

Definition ystrs (l : list string) : yaml := YList (YStr <$> l).

(** [doc.get(key)]; also [None] when [doc] is not a mapping. *)
Definition yaml_get (key : string) (doc : yaml) : option yaml :=
  match doc with
  | YDict entries => dict_get key entries
  | _ => None
  end.

(** [key in doc] *)
Definition yaml_has (key : string) (doc : yaml) : bool :=
  match doc with
  | YDict entries => bool_decide (key ∈ dict_keys entries)
  | _ => false
  end.

(** ** RequirementExtractor: [extract_requirements] *)

Definition extract_requirements (description : string) : list string :=
  let lines := split_on newline description in
  let requirements :=
    fold_left
      (fun requirements line =>
         match match_numbered line with
         | Some group1 => requirements ++ [strip group1]
         | None => requirements
         end)
      lines [] in
  match requirements with
  | [] => [strip description]
  | _ => requirements
  end.

(** ** FileOperationAnalyzer *)

Module Pattern.
Record t : Type := mk {
  condition : string → bool;
  domain : string;
  files : pydict string
}.
End Pattern.

(** [lambda req: any(word in req for word in words)] *)
Definition any_word_in (words : list string) (req : string) : bool :=
  existsb (fun word => str_in word req) words.

(** The rule table of [extract_file_operations_from_requirement]. *)
Definition patterns : list Pattern.t :=
  [ Pattern.mk (any_word_in ["auth"; "login"; "token"]) "auth"
      [ ("lib/auth/authentication.ts", "CREATE");
        ("lib/auth/token-manager.ts", "CREATE");
        ("middleware/auth.ts", "CREATE");
        ("types/auth.ts", "CREATE") ];
    Pattern.mk (any_word_in ["form"; "validation"; "input"]) "forms"
      [ ("components/forms/DynamicForm.tsx", "CREATE");
        ("lib/form-validation.ts", "CREATE");
        ("hooks/useFormState.ts", "CREATE");
        ("types/form.ts", "CREATE") ];
    Pattern.mk (any_word_in ["api"; "endpoint"; "server"]) "backend"
      [ ("pages/api/[...slug].ts", "CREATE");
        ("lib/api/client.ts", "CREATE");
        ("lib/api/handlers.ts", "CREATE");
        ("types/api.ts", "CREATE") ];
    Pattern.mk (any_word_in ["data"; "storage"; "database"]) "data"
      [ ("lib/database/queries.ts", "CREATE");
        ("lib/database/models.ts", "CREATE");
        ("lib/storage/manager.ts", "CREATE");
        ("types/data.ts", "CREATE") ];
    Pattern.mk (any_word_in ["docker"; "deploy"; "infrastructure"]) "infrastructure"
      [ ("Dockerfile", "CREATE");
        ("docker-compose.yml", "CREATE");
        ("scripts/deploy.sh", "CREATE");
        ("scripts/build.sh", "CREATE") ];
    Pattern.mk (any_word_in ["write"; "file operations"; "create files"]) "file_operations"
      [ ("lib/operations/write-operations.ts", "CREATE");
        ("lib/operations/file-writer.ts", "CREATE");
        ("lib/validation/write-validation.ts", "CREATE");
        ("types/operations.ts", "CREATE") ];
    Pattern.mk (any_word_in ["component"; "ui"; "interface"]) "ui"
      [ ("components/ui/Button.tsx", "CREATE");
        ("components/ui/Input.tsx", "CREATE");
        ("components/common/Layout.tsx", "CREATE");
        ("styles/components.css", "CREATE") ] ].

(** The body of [extract_file_operations_from_requirement], for any rule
    table: the source's function is this one at [patterns]. *)
Definition extract_file_operations_with (table : list Pattern.t) (requirement : string)
  : pydict FileOperation.t :=
  let req_lower := lower requirement in
  let matching_patterns :=
    filter (fun p => Pattern.condition p req_lower = true) table in
  fold_left
    (fun operations pattern =>
       fold_left
         (fun operations '(file, operation) =>
            dict_set file
              (FileOperation.mk operation (Pattern.domain pattern) requirement)
              operations)
         (Pattern.files pattern) operations)
    matching_patterns [].

Definition extract_file_operations_from_requirement (requirement : string)
  : pydict FileOperation.t :=
  extract_file_operations_with patterns requirement.

(** One element of [all_file_operations[file]]. *)
Module OpEntry.
Record t : Type := mk {
  operation : FileOperation.t;
  requirement : string;
  agent : option string
}.
End OpEntry.

(** [if k not in d: d[k] = []] followed by [d[k].append(x)]; also
    [defaultdict(list)]'s [d[k].append(x)]. *)
Definition dict_append {A : Type} (k : string) (x : A) (d : pydict (list A))
  : pydict (list A) :=
  match dict_get k d with
  | None => dict_set k [x] d
  | Some l => dict_set k (l ++ [x]) d
  end.

(** ** The decomposer object *)

Module Decomposer.
Record t : Type := mk {
  linear_issue : option LinearIssue.t;
  all_file_operations : pydict (list OpEntry.t);
  dependency_graph : pydict (list string);
  exclusive_domains : pydict (list string);
  agent_ownership : pydict (list string);
  use_hybrid_analysis : bool;
  (** the files written under [shared/deployment-plans] *)
  deployment_plans : pydict yaml
}.

(** [__init__]; the flag comes from the environment variable
    [USE_HYBRID_ANALYSIS]. *)
Definition init (use_hybrid : bool) : t :=
  mk None [] [] [] [] use_hybrid [].

Definition with_linear_issue (v : LinearIssue.t) (self : t) : t :=
  mk (Some v) (all_file_operations self) (dependency_graph self)
     (exclusive_domains self) (agent_ownership self) (use_hybrid_analysis self)
     (deployment_plans self).

Definition with_all_file_operations (v : pydict (list OpEntry.t)) (self : t) : t :=
  mk (linear_issue self) v (dependency_graph self)
     (exclusive_domains self) (agent_ownership self) (use_hybrid_analysis self)
     (deployment_plans self).

Definition with_dependency_graph (v : pydict (list string)) (self : t) : t :=
  mk (linear_issue self) (all_file_operations self) v
     (exclusive_domains self) (agent_ownership self) (use_hybrid_analysis self)
     (deployment_plans self).

Definition with_exclusive_domains (v : pydict (list string)) (self : t) : t :=
  mk (linear_issue self) (all_file_operations self) (dependency_graph self)
     v (agent_ownership self) (use_hybrid_analysis self)
     (deployment_plans self).

Definition with_agent_ownership (v : pydict (list string)) (self : t) : t :=
  mk (linear_issue self) (all_file_operations self) (dependency_graph self)
     (exclusive_domains self) v (use_hybrid_analysis self)
     (deployment_plans self).

Definition with_deployment_plans (v : pydict yaml) (self : t) : t :=
  mk (linear_issue self) (all_file_operations self) (dependency_graph self)
     (exclusive_domains self) (agent_ownership self) (use_hybrid_analysis self)
     v.

(** [self.linear_issue.<field>]: an [AttributeError] on [None]. *)
Definition issue (self : t) : res LinearIssue.t :=
  match linear_issue self with
  | Some i => Ok i
  | None => Raise AttributeError
  end.
End Decomposer.

(** ** The pattern-based pipeline

    [table] is the rule table and [so] the iteration order of the sets of
    this process; the source's methods are these at [patterns]. *)

Module DependencyRule.
Record t : Type := mk {
  (** the alternatives of the anchored pattern, each a literal prefix *)
  pattern : list string;
  dependents : list string
}.
End DependencyRule.

Definition dependency_rules : list DependencyRule.t :=
  [ DependencyRule.mk ["types/"] ["lib/"; "components/"; "pages/"];
    DependencyRule.mk ["lib/auth/"] ["middleware/"; "pages/api/"];
    DependencyRule.mk ["lib/database/"] ["pages/api/"; "lib/api/"];
    DependencyRule.mk ["components/common/"] ["components/"; "pages/"];
    DependencyRule.mk ["Dockerfile"; "docker-compose.yml"; "scripts/"] ["**"] ].

(** [rule["pattern"].match(file)] *)
Definition rule_matches (rule : DependencyRule.t) (file : string) : bool :=
  existsb (startswith file) (DependencyRule.pattern rule).

Definition domain_configs : pydict WorkDomain.t :=
  [ ("auth", WorkDomain.mk "auth_agent" "Authentication & Authorization"
               "Authentication" 35 "high" "security" []);
    ("forms", WorkDomain.mk "forms_agent" "Form Components & Validation"
                "Forms" 25 "medium" "frontend" ["auth_agent"]);
    ("backend", WorkDomain.mk "backend_agent" "API Endpoints & Server Logic"
                  "Backend" 40 "high" "backend" ["data_agent"]);
    ("data", WorkDomain.mk "data_agent" "Database & Data Management"
               "Data" 30 "high" "data" []);
    ("infrastructure", WorkDomain.mk "infrastructure_agent" "Infrastructure & Deployment"
                         "Infrastructure" 20 "medium" "infrastructure" []);
    ("file_operations", WorkDomain.mk "file_operations_agent"
                          "File Operations & Write Capabilities"
                          "File Operations" 30 "medium" "feature" ["data_agent"]);
    ("ui", WorkDomain.mk "ui_agent" "UI Components & Interface"
             "UI" 25 "medium" "frontend" ["auth_agent"]) ].

(** [domain_configs.get(domain, WorkDomain(id=f"{domain}_agent", ...))] *)
Definition domain_config (domain : string) : WorkDomain.t :=
  default
    (WorkDomain.mk (domain +:+ "_agent") (capitalize domain +:+ " Implementation")
       domain 25 "medium" "feature" [])
    (dict_get domain domain_configs).

Definition generate_test_contracts (domain : string) (files : list string) : list string :=
  (fun file =>
     let ext := path_suffix file in
     let base_name := path_stem file in
     let test_ext := if decide (ext = ".tsx") then ".test.tsx" else ".test.ts" in
     base_name +:+ test_ext) <$> take 3 files.

Definition generate_validation_criteria (domain : string) (files : list string)
  : list string :=
  [ "All " +:+ domain +:+ " files are created successfully";
    domain +:+ " functionality works as expected";
    "No errors in " +:+ domain +:+ " implementation";
    domain +:+ " tests pass successfully" ].

(** The [for file in files:] loop of [create_agent_for_domain]. *)
Definition split_files (all : pydict (list OpEntry.t)) (files : list string)
  : res (list string * list string) :=
  res_fold
    (fun '(files_to_create, files_to_modify) file =>
       operations ←! dict_index file all;
       match operations with
       | first :: _ =>
           if decide (FileOperation.operation (OpEntry.operation first) = "CREATE")
           then Ok (files_to_create ++ [file], files_to_modify)
           else Ok (files_to_create, files_to_modify ++ [file])
       | [] => Ok (files_to_create, files_to_modify ++ [file])
       end)
    ([], []) files.

(** The check at the end of [create_exclusive_domains]. *)
Definition check_domain_files (exclusive : pydict (list string)) : res (gset string) :=
  res_fold
    (fun all_domain_files '(domain, files) =>
       res_fold
         (fun (all_domain_files : gset string) file =>
            if bool_decide (file ∈ all_domain_files)
            then Raise (ValueError (FileConflict file))
            else Ok (all_domain_files ∪ {[file]}))
         all_domain_files files)
    ∅ exclusive.

(** The loop of [validate_no_conflicts], with the map it builds. *)
Definition file_ownership_of (agents : list Agent.t) : res (gmap string string) :=
  res_fold
    (fun file_ownership agent =>
       let all_files := Agent.files_to_create agent ++ Agent.files_to_modify agent in
       res_fold
         (fun (file_ownership : gmap string string) file =>
            match file_ownership !! file with
            | Some owner =>
                Raise (ValueError (OwnershipConflict file (Agent.id agent) owner))
            | None => Ok (<[file := Agent.id agent]> file_ownership)
            end)
         file_ownership all_files)
    ∅ agents.

Definition validate_no_conflicts (agents : list Agent.t) : res unit :=
  _ ←! file_ownership_of agents; Ok tt.

Definition agent_to_dict (agent : Agent.t) : yaml :=
  YDict
    [ ("agentId", YStr (Agent.id agent));
      ("agentRole", YStr (Agent.role agent));
      ("focusArea", YStr (Agent.focus_area agent));
      ("dependencies", ystrs (Agent.dependencies agent));
      ("filesToCreate", ystrs (Agent.files_to_create agent));
      ("filesToModify", ystrs (Agent.files_to_modify agent));
      ("testContracts", ystrs (Agent.test_contracts agent));
      ("validationCriteria", ystrs (Agent.validation_criteria agent));
      ("estimatedTime", YInt (Agent.estimated_time agent));
      ("canStartImmediately", YBool (Agent.can_start_immediately agent)) ].

(** The two nested loops of [analyze_file_operations]. *)
Definition record_operations (table : list Pattern.t) (requirements : list string)
    (all : pydict (list OpEntry.t)) : pydict (list OpEntry.t) :=
  fold_left
    (fun all requirement =>
       let operations := extract_file_operations_with table requirement in
       fold_left
         (fun all '(file, operation_data) =>
            dict_append file (OpEntry.mk operation_data requirement None) all)
         operations all)
    requirements all.

(** The first loop of [create_exclusive_domains]: every file goes to the
    domain of its first operation. *)
Definition group_by_domain (all : pydict (list OpEntry.t)) : res (pydict (list string)) :=
  res_fold
    (fun domain_groups '(file, operations) =>
       first ←! list_first operations;
       Ok (dict_append (FileOperation.domain (OpEntry.operation first)) file
             domain_groups))
    [] all.

(** Its second loop: [self.exclusive_domains[domain] = files]. *)
Definition assign_domains (domain_groups exclusive : pydict (list string))
  : pydict (list string) :=
  fold_left (fun exclusive '(domain, files) => dict_set domain files exclusive)
    domain_groups exclusive.

(** The loop of [get_requirements_for_domain]. *)
Definition collect_requirements (all : pydict (list OpEntry.t)) (domain : string)
  : res (list string) :=
  res_fold
    (fun requirements '(file, operations) =>
       first ←! list_first operations;
       if decide (FileOperation.domain (OpEntry.operation first) = domain)
       then Ok (requirements ++ (OpEntry.requirement <$> operations))
       else Ok requirements)
    [] all.

Section pipeline.
Variable table : list Pattern.t.
Variable so : SetOrder.

Definition analyze_file_operations (self : Decomposer.t) : res Decomposer.t :=
  issue ←! Decomposer.issue self;
  Ok (Decomposer.with_all_file_operations
        (record_operations table (LinearIssue.requirements issue)
           (Decomposer.all_file_operations self))
        self).

Definition build_dependency_graph (self : Decomposer.t) : Decomposer.t :=
  let files := dict_keys (Decomposer.all_file_operations self) in
  Decomposer.with_dependency_graph
    (fold_left
       (fun graph file =>
          dict_set file
            (flat_map
               (fun rule =>
                  if rule_matches rule file then
                    flat_map
                      (fun other_file =>
                         if decide (other_file ≠ file) then
                           flat_map
                             (fun dep =>
                                if bool_decide (dep = "**")
                                   || startswith other_file
                                        (str_replace "/" EmptyString dep)
                                then [other_file] else [])
                             (DependencyRule.dependents rule)
                         else [])
                      files
                  else [])
               dependency_rules)
            graph)
       files (Decomposer.dependency_graph self))
    self.

Definition create_exclusive_domains (self : Decomposer.t) : res Decomposer.t :=
  domain_groups ←! group_by_domain (Decomposer.all_file_operations self);
  let exclusive := assign_domains domain_groups (Decomposer.exclusive_domains self) in
  _ ←! check_domain_files exclusive;
  Ok (Decomposer.with_exclusive_domains exclusive self).

Definition get_requirements_for_domain (self : Decomposer.t) (domain : string)
  : res (list string) :=
  requirements ←! collect_requirements (Decomposer.all_file_operations self) domain;
  Ok (set_to_list so requirements).

Definition create_agent_for_domain (self : Decomposer.t) (domain : string)
    (files : list string) : res Agent.t :=
  let config := domain_config domain in
  '(files_to_create, files_to_modify) ←!
    split_files (Decomposer.all_file_operations self) files;
  requirements ←! get_requirements_for_domain self domain;
  Ok (Agent.mk
        (WorkDomain.id config)
        (WorkDomain.role config)
        (WorkDomain.focus_area config)
        (WorkDomain.dependencies config)
        files_to_create
        files_to_modify
        (generate_test_contracts domain files)
        (generate_validation_criteria domain files)
        (WorkDomain.estimated_time config)
        requirements
        (bool_decide (WorkDomain.dependencies config = []))).

Definition generate_exclusive_agents (self : Decomposer.t)
  : res (list Agent.t * Decomposer.t) :=
  res_fold
    (fun '(agents, self) '(domain, files) =>
       agent ←! create_agent_for_domain self domain files;
       Ok (agents ++ [agent],
           Decomposer.with_agent_ownership
             (dict_set (Agent.id agent) files (Decomposer.agent_ownership self))
             self))
    ([], self) (Decomposer.exclusive_domains self).

Definition generate_deployment_plan (self : Decomposer.t) (agents : list Agent.t)
  : res yaml :=
  issue ←! Decomposer.issue self;
  merge_order ←! calculate_merge_order agents;
  Ok (YDict
        [ ("taskId", YStr (LinearIssue.id issue));
          ("taskTitle", YStr (LinearIssue.title issue));
          ("decompositionStrategy", YStr "exclusive_ownership");
          ("conflictResolution", YStr "eliminated_by_design");
          ("parallelAgents", YList (agent_to_dict <$> agents));
          ("integrationPlan",
            YDict
              [ ("mergeOrder", ystrs merge_order);
                ("validationSteps",
                  ystrs [ "Validate exclusive file ownership";
                          "Run individual agent tests";
                          "Integration testing";
                          "Full system validation" ]) ]);
          ("exclusiveOwnership",
            YDict
              [ ("validated", YBool true);
                ("totalFiles",
                  YInt (Z.of_nat (length (Decomposer.all_file_operations self))));
                ("agentOwnership",
                  YDict ((fun '(agent_id, files) => (agent_id, ystrs files))
                           <$> Decomposer.agent_ownership self)) ]) ]).

(** [save_deployment_plan]: the whole document goes into one file. This is
    the decomposer after a write that succeeded; the code raises when the
    directory cannot be made or the file cannot be opened, as it does for
    an issue id with a [/] in it. [report_decomposition], which follows,
    prints what it reads in the plan and changes nothing. *)
Definition save_deployment_plan (plan : yaml) (issue_id : string) (self : Decomposer.t)
  : Decomposer.t :=
  let filename := lower issue_id +:+ "-deployment-plan.yaml" in
  Decomposer.with_deployment_plans
    (dict_set ("shared/deployment-plans/" +:+ filename) plan
       (Decomposer.deployment_plans self))
    self.

(** Step 3 of [decompose], from the fall-back message to the return. *)
Definition pattern_based_analysis (self : Decomposer.t) : res (yaml * Decomposer.t) :=
  self ←! analyze_file_operations self;
  let self := build_dependency_graph self in
  self ←! create_exclusive_domains self;
  '(agents, self) ←! generate_exclusive_agents self;
  _ ←! validate_no_conflicts agents;
  deployment_plan ←! generate_deployment_plan self agents;
  issue ←! Decomposer.issue self;
  let self := save_deployment_plan deployment_plan (LinearIssue.id issue) self in
  Ok (deployment_plan, self).

End pipeline.

(** ** The cached issue and the hybrid analyzer *)

(** The cached issue document, as far as [load_linear_issue] reads it. *)
Module IssueData.
Record t : Type := mk {
  identifier : option string;
  title : option string;
  description : option string
}.
End IssueData.

Module ProjectContext.
Record t : Type := mk {
  hasPackageJson : bool;
  hasDockerfile : bool;
  hasNextConfig : bool;
  projectRoot : string
}.
End ProjectContext.

(** One element of [llm_result["agents"]], once it has been read: the keys
    read with [agent_data[...]] are required, those read with [.get] are
    optional. *)
Module LlmAgent.
Record t : Type := mk {
  agentId : string;
  agentRole : string;
  focusArea : string;
  dependencies : option (list string);
  filesToCreate : option (list string);
  filesToModify : option (list string);
  estimatedTime : option Z
}.
End LlmAgent.

(** The confidence and the three notes of the answer go into the plan as
    they are, whatever they are. *)
Module LlmResult.
Record t : Type := mk {
  confidence : yaml;
  agents : list LlmAgent.t;
  projectType : yaml;
  reasoning : yaml;
  parallelizationStrategy : yaml
}.
End LlmResult.

(** What a run of the decomposer finds outside itself. *)
Module DecomposeEnv.
Record t : Type := mk {
  (** [.linear-cache/<issue_id>.json], when it exists *)
  cache : option IssueData.t;
  (** [utils.llm_decomposer.LLMDecomposer().decompose]: [None] when the
      import fails; the call gives [None] when it raises, and the document
      it returns otherwise *)
  llm_decomposer : option (string → ProjectContext.t → option yaml);
  project_context : ProjectContext.t
}.
End DecomposeEnv.

Definition load_linear_issue (issue_id : string) (cache : option IssueData.t)
    (self : Decomposer.t) : Decomposer.t :=
  Decomposer.with_linear_issue
    (match cache with
     | Some issue_data =>
         LinearIssue.mk
           (default issue_id (IssueData.identifier issue_data))
           (default "Linear Issue" (IssueData.title issue_data))
           (default EmptyString (IssueData.description issue_data))
           (extract_requirements (default EmptyString (IssueData.description issue_data)))
     | None =>
         LinearIssue.mk issue_id ("Issue " +:+ issue_id) "Fallback issue description"
           ["Implement " +:+ issue_id +:+ " functionality"]
     end)
    self.

(** The [Agent(...)] built for one [agent_data]. *)
Definition llm_agent (agent_data : LlmAgent.t) : Agent.t :=
  let focus := LlmAgent.focusArea agent_data in
  Agent.mk
    (LlmAgent.agentId agent_data)
    (LlmAgent.agentRole agent_data)
    focus
    (default [] (LlmAgent.dependencies agent_data))
    (default [] (LlmAgent.filesToCreate agent_data))
    (default [] (LlmAgent.filesToModify agent_data))
    ((fun f => str_replace ".js" ".test.js" (str_replace ".ts" ".test.ts" f))
       <$> default [] (LlmAgent.filesToCreate agent_data))
    [ "All " +:+ focus +:+ " files are created successfully";
      focus +:+ " functionality works as expected";
      "No errors in " +:+ focus +:+ " implementation";
      focus +:+ " tests pass successfully" ]
    (default 30%Z (LlmAgent.estimatedTime agent_data))
    []
    (bool_decide (default [] (LlmAgent.dependencies agent_data) = [])).

Definition convert_llm_result_to_deployment_plan (self : Decomposer.t)
    (llm_result : LlmResult.t) : res yaml :=
  let agents := llm_agent <$> LlmResult.agents llm_result in
  let total_files :=
    fold_left
      (fun n agent =>
         (n + Z.of_nat (length (Agent.files_to_create agent))
            + Z.of_nat (length (Agent.files_to_modify agent)))%Z)
      agents 0%Z in
  issue ←! Decomposer.issue self;
  merge_order ←! calculate_merge_order agents;
  Ok (YDict
        [ ("taskId", YStr (LinearIssue.id issue));
          ("taskTitle", YStr (LinearIssue.title issue));
          ("decompositionStrategy", YStr "llm_hybrid");
          ("conflictResolution", YStr "llm_analyzed");
          ("parallelAgents", YList (agent_to_dict <$> agents));
          ("totalFiles", YInt total_files);
          ("integrationPlan",
            YDict
              [ ("mergeOrder", ystrs merge_order);
                ("validationSteps",
                  ystrs [ "Run LLM-generated agent tests";
                          "Integration testing";
                          "Full system validation" ]);
                ("estimatedIntegrationTime", YStr "10 minutes") ]);
          ("llmAnalysis",
            YDict
              [ ("projectType", LlmResult.projectType llm_result);
                ("confidence", LlmResult.confidence llm_result);
                ("reasoning", LlmResult.reasoning llm_result);
                ("parallelizationStrategy",
                  LlmResult.parallelizationStrategy llm_result) ]) ]).

(** [f"{self.linear_issue.title}\n\n{self.linear_issue.description}"] *)
Definition hybrid_description (issue : LinearIssue.t) : string :=
  LinearIssue.title issue +:+ String newline (String newline EmptyString)
    +:+ LinearIssue.description issue.

(** *** The analyzer's answer, as a document

    The analyzer returns a document, which the code reads key by key:
    [doc[key]] raises [KeyError] when the key is missing and [TypeError]
    when [doc] is not a mapping; [doc.get(key)] gives [None] for a missing
    key. The records [LlmResult.t] and [LlmAgent.t] hold an answer that has
    been read. The confidence and the notes of the answer are kept as they
    are; the fields of an agent are texts, lists of texts and a number.
    Where a key of an agent that is present holds a value of another type
    the code raises at some places and goes on with the odd value at
    others; the record cannot follow it there, the reading below raises,
    and [typed_answer] says of an answer that no key of its agents does
    so. *)

(** [doc[key]] *)
Definition required (key : string) (doc : yaml) : res yaml :=
  match doc with
  | YDict entries =>
      match dict_get key entries with
      | Some v => Ok v
      | None => Raise (KeyError key)
      end
  | _ => Raise TypeError
  end.

Definition read_str (v : yaml) : res string :=
  match v with YStr s => Ok s | _ => Raise TypeError end.

Definition read_int (v : yaml) : res Z :=
  match v with YInt n => Ok n | _ => Raise TypeError end.

Fixpoint res_map {A B : Type} (f : A → res B) (l : list A) : res (list B) :=
  match l with
  | [] => Ok []
  | x :: l' => y ←! f x; ys ←! res_map f l'; Ok (y :: ys)
  end.

Definition read_strs (v : yaml) : res (list string) :=
  match v with YList items => res_map read_str items | _ => Raise TypeError end.

(** [doc.get(key)], read with [read] when it is there. *)
Definition optional {A : Type} (read : yaml → res A) (key : string) (doc : yaml)
  : res (option A) :=
  match yaml_get key doc with
  | Some v => x ←! read v; Ok (Some x)
  | None => Ok None
  end.

(** The reads of one [agent_data] in [convert_llm_result_to_deployment_plan]. *)
Definition read_llm_agent (agent_data : yaml) : res LlmAgent.t :=
  agent_id ←! (v ←! required "agentId" agent_data; read_str v);
  agent_role ←! (v ←! required "agentRole" agent_data; read_str v);
  focus_area ←! (v ←! required "focusArea" agent_data; read_str v);
  dependencies ←! optional read_strs "dependencies" agent_data;
  files_to_create ←! optional read_strs "filesToCreate" agent_data;
  files_to_modify ←! optional read_strs "filesToModify" agent_data;
  estimated_time ←! optional read_int "estimatedTime" agent_data;
  Ok (LlmAgent.mk agent_id agent_role focus_area dependencies files_to_create
        files_to_modify estimated_time).

(** The reads of [llm_result] in [try_hybrid_analysis] and in
    [convert_llm_result_to_deployment_plan]. *)
Definition read_llm_result (llm_result : yaml) : res LlmResult.t :=
  confidence ←! required "confidence" llm_result;
  agents ←! (v ←! required "agents" llm_result;
             match v with
             | YList items => res_map read_llm_agent items
             | _ => Raise TypeError
             end);
  let get key := default YNull (yaml_get key llm_result) in
  Ok (LlmResult.mk confidence agents (get "projectType") (get "reasoning")
        (get "parallelizationStrategy")).

(** [confidence >= 0.8]: Python compares a number of any kind, a truth value
    among them, with the threshold, and raises [TypeError] for anything
    else. *)
Definition at_least_threshold (confidence : yaml) : res bool :=
  match confidence with
  | YFloat x => Ok (PrimFloat.leb 0.8%float x)
  | YInt n => Ok (1 <=? n)%Z
  | YBool b => Ok b
  | _ => Raise TypeError
  end.

(** The body of the [try] of [try_hybrid_analysis] once the analyzer has
    answered: the threshold first, then the conversion. *)
Definition hybrid_plan (self : Decomposer.t) (llm_result : yaml) : res (option yaml) :=
  confidence ←! required "confidence" llm_result;
  above ←! at_least_threshold confidence;
  if above : bool then
    answer ←! read_llm_result llm_result;
    deployment_plan ←! convert_llm_result_to_deployment_plan self answer;
    Ok (Some deployment_plan)
  else Ok None.

(** [try_hybrid_analysis]: every exception inside it is caught and turned
    into [None]. *)
Definition try_hybrid_analysis (env : DecomposeEnv.t) (self : Decomposer.t)
  : option yaml :=
  match DecomposeEnv.llm_decomposer env with
  | None => None
  | Some llm_decompose =>
      match Decomposer.issue self with
      | Raise _ => None
      | Ok issue =>
          let description := hybrid_description issue in
          match llm_decompose description (DecomposeEnv.project_context env) with
          | None => None
          | Some llm_result =>
              match hybrid_plan self llm_result with
              | Ok deployment_plan => deployment_plan
              | Raise _ => None
              end
          end
      end
  end.

(** The agents of the answer, when it has the key, are a list, and every
    key of an agent that the conversion reads and that is there holds a
    value of the type the record gives it: a text for the id, the role and
    the focus area, a list of texts for the dependencies and the files, a
    whole number for the time. *)
Definition is_str (v : yaml) : bool :=
  match v with YStr _ => true | _ => false end.

Definition is_strs (v : yaml) : bool :=
  match v with YList items => forallb is_str items | _ => false end.

Definition typed_field (p : yaml → bool) (key : string) (doc : yaml) : bool :=
  match yaml_get key doc with Some v => p v | None => true end.

Definition typed_agent (agent_data : yaml) : bool :=
  typed_field is_str "agentId" agent_data
  && typed_field is_str "agentRole" agent_data
  && typed_field is_str "focusArea" agent_data
  && typed_field is_strs "dependencies" agent_data
  && typed_field is_strs "filesToCreate" agent_data
  && typed_field is_strs "filesToModify" agent_data
  && typed_field (fun v => match v with YInt _ => true | _ => false end)
       "estimatedTime" agent_data.

Definition typed_answer (llm_result : yaml) : bool :=
  typed_field
    (fun v => match v with YList items => forallb typed_agent items | _ => false end)
    "agents" llm_result.

(** The keys that the conversion cannot do without. *)
Definition complete_agent (agent_data : yaml) : bool :=
  yaml_has "agentId" agent_data && yaml_has "agentRole" agent_data
  && yaml_has "focusArea" agent_data.

Definition complete_answer (llm_result : yaml) : bool :=
  match yaml_get "agents" llm_result with
  | Some (YList items) => forallb complete_agent items
  | _ => false
  end.

(** The answer has a confidence, a number, and it is at least 0.8: a
    binary64 number that is not below the binary64 number nearest to 0.8, a
    whole number from 1 on, or the truth value [True], which Python counts
    as 1. *)
Definition confident_answer (llm_result : yaml) : bool :=
  match yaml_get "confidence" llm_result with
  | Some (YFloat x) => PrimFloat.leb 0.8%float x
  | Some (YInt n) => bool_decide (1 ≤ n)%Z
  | Some (YBool b) => b
  | _ => false
  end.

(** Python's truth value of a document. *)
Definition yaml_truthy (doc : yaml) : bool :=
  match doc with
  | YNull => false
  | YBool b => b
  | YInt n => negb (n =? 0)%Z
  | YFloat x => negb (PrimFloat.eqb x 0%float)
  | YStr s => negb (bool_decide (s = EmptyString))
  | YList items => negb (bool_decide (items = []))
  | YDict entries => negb (bool_decide (entries = []))
  end.

(** [decompose], for a rule table and a set order; console output is not
    modelled. *)
Definition decompose_with (table : list Pattern.t) (so : SetOrder)
    (env : DecomposeEnv.t) (issue_id : string) (self : Decomposer.t)
  : res (yaml * Decomposer.t) :=
  let self := load_linear_issue issue_id (DecomposeEnv.cache env) self in
  if Decomposer.use_hybrid_analysis self then
    match try_hybrid_analysis env self with
    | Some hybrid_result =>
        if yaml_truthy hybrid_result then Ok (hybrid_result, self)
        else pattern_based_analysis table so self
    | None => pattern_based_analysis table so self
    end
  else pattern_based_analysis table so self.

Definition decompose (so : SetOrder) (env : DecomposeEnv.t) (issue_id : string)
    (self : Decomposer.t) : res (yaml * Decomposer.t) :=
  decompose_with patterns so env issue_id self.

(** The agents of a plan document, as the later stages read them. *)
Definition plan_agents (plan : yaml) : list yaml :=
  match yaml_get "parallelAgents" plan with
  | Some (YList agents) => agents
  | _ => []
  end.

Definition yaml_strings (doc : option yaml) : list string :=
  match doc with
  | Some (YList items) =>
      omap (fun item => match item with YStr s => Some s | _ => None end) items
  | _ => []
  end.

(** [agent["filesToCreate"] + agent["filesToModify"]] of a plan's agent. *)
Definition plan_agent_files (agent : yaml) : list string :=
  yaml_strings (yaml_get "filesToCreate" agent)
  ++ yaml_strings (yaml_get "filesToModify" agent).

(** ** Spawn stage: [create_agent_context] (spawn-agents.py) *)

(** One element of [plan["parallelAgents"]], as far as the spawn stage
    reads it; every key is read with [.get]. *)
Module PlanAgent.
Record t : Type := mk {
  agentId : option string;
  dependencies : option (list string);
  filesToCreate : option (list string);
  filesToModify : option (list string);
  testContracts : option (list string);
  validationCriteria : option (list string);
  estimatedTime : option Z
}.
End PlanAgent.

Module Plan.
Record t : Type := mk {
  taskId : option string;
  taskTitle : option string;
  parallelAgents : option (list PlanAgent.t)
}.
End Plan.

Module AgentContext.
Record t : Type := mk {
  agentId : string;
  taskId : option string;
  taskTitle : option string;
  branchName : string;
  workTreePath : string;
  agentInstances : list PlanAgent.t;
  dependencies : list string;
  allFilesToCreate : list string;
  allFilesToModify : list string;
  allTestContracts : list string;
  allValidationCriteria : list string;
  canStartImmediately : bool;
  estimatedTime : Z;
  createdAt : string
}.
End AgentContext.

(** [sum((a.get(key, []) for a in agent_data), [])] *)
Definition sum_lists (field : PlanAgent.t → option (list string))
    (agent_data : list PlanAgent.t) : list string :=
  fold_left (fun acc a => acc ++ default [] (field a)) agent_data [].

(** [now] is the clock reading [datetime.now().isoformat()]. *)
Definition create_agent_context (so : SetOrder) (now : string) (plan : Plan.t)
    (agent_id branch_name worktree_path : string) : AgentContext.t :=
  let agent_data :=
    filter (fun a => PlanAgent.agentId a = Some agent_id)
      (default [] (Plan.parallelAgents plan)) in
  let all_files_to_create := set_to_list so (sum_lists PlanAgent.filesToCreate agent_data) in
  let all_files_to_modify := set_to_list so (sum_lists PlanAgent.filesToModify agent_data) in
  let all_test_contracts := set_to_list so (sum_lists PlanAgent.testContracts agent_data) in
  let all_validation_criteria :=
    set_to_list so (sum_lists PlanAgent.validationCriteria agent_data) in
  let all_dependencies := set_to_list so (sum_lists PlanAgent.dependencies agent_data) in
  AgentContext.mk
    agent_id
    (Plan.taskId plan)
    (Plan.taskTitle plan)
    branch_name
    worktree_path
    agent_data
    all_dependencies
    all_files_to_create
    all_files_to_modify
    all_test_contracts
    all_validation_criteria
    (forallb
       (fun a => (length (default [] (PlanAgent.dependencies a)) =? 0)%nat)
       agent_data)
    (fold_left (fun n a => (n + default 0 (PlanAgent.estimatedTime a))%Z) agent_data 0%Z)
    now.

(** ** Integration stage (integrate-parallel-work.py) *)

(** What the stage does to the outside world, in the order it does it. *)
Inductive event : Type :=
| Run (cmd : list string)
| Copy (source dest : string)
| WriteReport (path branch plan_path : string) (integration_order : list string)
    (quality_results : pydict bool)
| WriteStatus (path branch report : string).

#[global] Instance event_eq_dec : EqDecision event.
Proof. solve_decision. Defined.

(** What the stage finds outside itself. An observation made after the
    events [h] may depend on them: a test run sees the files copied so far. *)
Module World.
Record t : Type := mk {
  (** [validation-status.json]: [None] when the file is missing, [Some None]
      when it cannot be parsed *)
  validation_status : option (option yaml);
  (** the first plan found in the plan directory: its path and, unless
      loading fails, its content *)
  deployment_plan : option (string * option yaml);
  returncode : list event → list string → Z;
  path_exists : list event → string → bool;
  read_lines : list event → string → list string;
  command_exists : list event → string → bool;
  (** [datetime.now().strftime("%Y%m%d-%H%M%S")] *)
  now : list event → string;
  (** the directory given as [--validation-dir], [shared/coordination]
      unless the command line says otherwise *)
  validation_dir : string
}.
End World.

Inductive outcome (A : Type) : Type :=
| Return (x : A)
| Exit (code : Z)
| Uncaught (what : string).

Arguments Return {A} x.
Arguments Exit {A} code.
Arguments Uncaught {A} what.

(** A computation on the history of events that returns, leaves through
    [sys.exit], or dies of an exception nobody catches. *)
Definition io (A : Type) : Type := list event → outcome A * list event.

Definition io_ret {A : Type} (x : A) : io A := fun h => (Return x, h).

Definition io_bind {A B : Type} (m : io A) (k : A → io B) : io B :=
  fun h =>
    match m h with
    | (Return x, h') => k x h'
    | (Exit code, h') => (Exit code, h')
    | (Uncaught what, h') => (Uncaught what, h')
    end.

Notation "x ←$ m ; k" := (io_bind m (fun x => k))
  (at level 20, m at level 100, k at level 200, only parsing).

Definition sys_exit {A : Type} (code : Z) : io A := fun h => (Exit code, h).

Definition emit (e : event) : io unit := fun h => (Return tt, h ++ [e]).

(** An observation of the world at the current history. *)
Definition observe {A : Type} (f : list event → A) : io A := fun h => (Return (f h), h).

Fixpoint io_for {A : Type} (l : list A) (body : A → io unit) : io unit :=
  match l with
  | [] => io_ret tt
  | x :: l' => _ ←$ body x; io_for l' body
  end.

(** *** pathlib: a path is its root and its parts

    pathlib reads a text as a root and a list of parts, and prints it from
    them: the components that are empty or [.] are dropped, so that doubled
    and trailing separators and the steps that stay in place disappear; the
    steps [..] are kept. *)

(** The root: [/] for a text that begins with separators, [//] when there
    are exactly two of them. *)
Definition path_root (p : string) : string :=
  if startswith p "/" then
    if startswith p "//" && negb (startswith p "///") then "//" else "/"
  else EmptyString.

Definition path_parts (p : string) : list string :=
  filter (fun part => part ≠ EmptyString ∧ part ≠ ".") (split_on "/"%char p).

(** [str] of the path with this root and these parts; the empty path prints
    as [.]. *)
Definition path_str (root : string) (parts : list string) : string :=
  let printed := root +:+ String.concat "/" parts in
  if bool_decide (printed = EmptyString) then "." else printed.

(** [str(Path(p))] *)
Definition Path (p : string) : string := path_str (path_root p) (path_parts p).

(** [str(Path(dir) / rel)]: an absolute [rel] replaces [dir]. *)
Definition path_join (dir rel : string) : string :=
  if startswith rel "/" then Path rel
  else path_str (path_root dir) (path_parts dir ++ path_parts rel).

(** [validation_status and validation_status.get("validation_passed")], for
    a status that is a mapping, as the validation stage writes it, or
    nothing. On a status of another kind that is not empty the code raises
    [AttributeError] where this is [false]; the stage ends there either
    way, before it has done anything. *)
Definition validation_passed (validation_status : option yaml) : bool :=
  match validation_status with
  | Some status =>
      yaml_truthy status
      && match yaml_get "validation_passed" status with
         | Some v => yaml_truthy v
         | None => false
         end
  | None => false
  end.

(** The two commands [integrate_agent] can use as its test gate. *)
Definition test_commands : list (list string) :=
  [ ["pnpm"; "test"; "--passWithNoTests"]; ["npm"; "test"; "--"; "--passWithNoTests"] ].

Section integration.
Variable w : World.t.

(** [run_command(cmd, check)]: with [check], a non-zero status raises
    [CalledProcessError], which the stage does not catch. *)
Definition run_command (cmd : list string) (check : bool) : io Z :=
  fun h =>
    let rc := World.returncode w h cmd in
    if check && negb (rc =? 0)%Z
    then (Uncaught "CalledProcessError", h ++ [Run cmd])
    else (Return rc, h ++ [Run cmd]).

Definition check_command_exists (command : string) : io bool :=
  observe (fun h => World.command_exists w h command).

Definition commit_message (agent : string) (files_list : list string) : string :=
  "feat: integrate " +:+ agent +:+ " work" +:+ String newline (String newline EmptyString)
  +:+ "Agent: " +:+ agent +:+ String newline EmptyString
  +:+ "Files: " +:+ String.concat " " files_list +:+ String newline EmptyString
  +:+ "Tests: ✅ Passing".

(** The [for line in f:] loop of [integrate_agent]: every listed file that
    exists in the workspace is copied over the main code base. *)
Definition copy_file (workspace_dir : string) (line : string) : io unit :=
  let file_path := strip line in
  if bool_decide (file_path = EmptyString) then io_ret tt else
  let clean_path :=
    str_replace "MODIFY: " EmptyString
      (str_replace "CREATE: " EmptyString file_path) in
  let source_file := path_join workspace_dir clean_path in
  let dest_file := Path clean_path in
  present ←$ observe (fun h => World.path_exists w h source_file);
  if present then emit (Copy source_file dest_file) else io_ret tt.

Definition copy_files (workspace_dir : string) (lines : list string) : io unit :=
  io_for lines (copy_file workspace_dir).

Definition integrate_agent (agent : string) (workspace_dir : string) : io bool :=
  ws_exists ←$ observe (fun h => World.path_exists w h workspace_dir);
  if negb ws_exists then io_ret true else
  let files_to_work_on := path_join workspace_dir "files_to_work_on.txt" in
  listed ←$ observe (fun h => World.path_exists w h files_to_work_on);
  _ ←$ (if listed then
          lines ←$ observe (fun h => World.read_lines w h files_to_work_on);
          copy_files workspace_dir lines
        else io_ret tt);
  has_pnpm ←$ check_command_exists "pnpm";
  has_npm ←$ (if has_pnpm then io_ret false else check_command_exists "npm");
  if negb has_pnpm && negb has_npm then io_ret true else
  let test_cmd :=
    if has_pnpm then ["pnpm"; "test"; "--passWithNoTests"]
    else ["npm"; "test"; "--"; "--passWithNoTests"] in
  rc ←$ run_command test_cmd false;
  if negb (rc =? 0)%Z then io_ret false else
  _ ←$ run_command ["git"; "add"; "-A"] true;
  listed' ←$ observe (fun h => World.path_exists w h files_to_work_on);
  files_list ←$
    (if listed' then
       lines ←$ observe (fun h => World.read_lines w h files_to_work_on);
       io_ret (filter (fun l => l ≠ EmptyString) (strip <$> lines))
     else io_ret []);
  _ ←$ run_command ["git"; "commit"; "-m"; commit_message agent files_list] true;
  io_ret true.

(** One of the three checks of [run_quality_checks]. *)
Definition quality_check (cmd : list string) : io bool :=
  has_pnpm ←$ check_command_exists "pnpm";
  if has_pnpm then rc ←$ run_command cmd false; io_ret (rc =? 0)%Z
  else io_ret true.

Definition run_quality_checks : io (pydict bool) :=
  tests ←$ quality_check ["pnpm"; "test"];
  linting ←$ quality_check ["pnpm"; "lint"];
  typecheck ←$ quality_check ["pnpm"; "typecheck"];
  io_ret [("tests", tests); ("linting", linting); ("typecheck", typecheck)].

(** [for agent in integration_order: ...]: the first agent whose
    integration returns [False] ends the process with status 1. *)
Definition integrate_agents (integration_order : list string) : io unit :=
  io_for integration_order
    (fun agent =>
       let workspace_dir := path_join "workspaces" agent in
       ok ←$ integrate_agent agent workspace_dir;
       if ok then io_ret tt else sys_exit 1).

(** [deployment_plan["integration_order"]] when it is a list of agent
    names, as the commit stage writes it. *)
Definition integration_order_of (deployment_plan : yaml) : option (list string) :=
  match yaml_get "integration_order" deployment_plan with
  | Some (YList items) =>
      mapM (fun item => match item with YStr s => Some s | _ => None end) items
  | _ => None
  end.

(** The names at the head of a list, up to its first item that is not a
    text. *)
Fixpoint names_before (items : list yaml) : list string :=
  match items with
  | YStr agent :: items' => agent :: names_before items'
  | _ => []
  end.

(** The characters of a text, which are what Python iterates over: in the
    UTF-8 form a character is a byte that is no continuation byte, with the
    continuation bytes that follow it. *)
Definition is_continuation (c : ascii) : bool :=
  let n := nat_of_ascii c in ((128 <=? n) && (n <? 192))%nat.

Fixpoint characters_from (s : string) : string * list string :=
  match s with
  | EmptyString => (EmptyString, [])
  | String c s' =>
      let '(continuation, characters) := characters_from s' in
      if is_continuation c then (String c continuation, characters)
      else (EmptyString, String c continuation :: characters)
  end.

Definition characters (s : string) : list string := (characters_from s).2.

(** [integrate_parallel_work] from the creation of the integration branch
    on, once the plan has given its order. *)
Definition integrate_in_order (skip_tests : bool) (deployment_plan_path : string)
    (integration_order : list string) : io unit :=
  timestamp ←$ observe (World.now w);
  let integration_branch := "integration-" +:+ timestamp in
  _ ←$ run_command ["git"; "checkout"; "-b"; integration_branch] true;
  _ ←$ integrate_agents integration_order;
  quality_results ←$
    (if negb skip_tests then run_quality_checks
     else io_ret [("tests", true); ("typecheck", true)]);
  if negb (default false (dict_get "tests" quality_results)) then sys_exit 1 else
  if negb (default false (dict_get "typecheck" quality_results)) then sys_exit 1 else
  stamp ←$ observe (World.now w);
  let report_path := "shared/reports/integration-report-" +:+ stamp +:+ ".md" in
  _ ←$ emit (WriteReport report_path integration_branch deployment_plan_path
               integration_order quality_results);
  _ ←$ emit (WriteStatus (path_join (World.validation_dir w) "integration-status.yaml")
               integration_branch report_path);
  io_ret tt.

(** [integrate_parallel_work] on an [integration_order] that is no list of
    names. The items of a list are integrated up to the first that is not
    a text, where [Path("workspaces") / agent] raises [TypeError]; a text is
    iterated character by character and a mapping key by key; any other
    value cannot be iterated, and [TypeError] comes before anything is
    done. *)
Definition integrate_other (skip_tests : bool) (deployment_plan_path : string)
    (deployment_plan : yaml) : io unit :=
  match yaml_get "integration_order" deployment_plan with
  | Some (YList items) =>
      timestamp ←$ observe (World.now w);
      _ ←$ run_command ["git"; "checkout"; "-b"; "integration-" +:+ timestamp] true;
      _ ←$ integrate_agents (names_before items);
      fun h => (Uncaught "TypeError", h)
  | Some (YStr text) =>
      integrate_in_order skip_tests deployment_plan_path (characters text)
  | Some (YDict entries) =>
      integrate_in_order skip_tests deployment_plan_path (dict_keys entries)
  | _ => fun h => (Uncaught "TypeError", h)
  end.

(** [integrate_parallel_work]. The plan is a mapping, as the stages write
    it, or nothing. On a plan of another kind that is not empty the code
    raises [TypeError] at the test for the key or at the reading of it,
    where the model leaves with status 1; the stage ends there either way,
    before it has done anything. *)
Definition integrate_parallel_work (skip_tests : bool) : io unit :=
  match World.validation_status w with
  | None => sys_exit 1
  | Some validation_status =>
  if negb (validation_passed validation_status) then sys_exit 1 else
  match World.deployment_plan w with
  | None => sys_exit 1
  | Some (deployment_plan_path, loaded) =>
  match loaded with
  | None => sys_exit 1
  | Some deployment_plan =>
  if negb (yaml_truthy deployment_plan) || negb (yaml_has "integration_order" deployment_plan)
  then sys_exit 1 else
  match integration_order_of deployment_plan with
  | Some integration_order =>
      integrate_in_order skip_tests deployment_plan_path integration_order
  | None => integrate_other skip_tests deployment_plan_path deployment_plan
  end end end end.

End integration.

(** The commits of a history, by their messages. *)
Definition commits (h : list event) : list string :=
  omap (fun e =>
          match e with
          | Run ["git"; "commit"; "-m"; message] => Some message
          | _ => None
          end) h.

(** ** Vocabulary of the properties *)

Definition agent_ids (agents : list Agent.t) : list string := Agent.id <$> agents.

(** The states the loop of [calculate_merge_order] passes through. *)
Inductive loop_reaches (agents : list Agent.t) : list string → list Agent.t → Prop :=
| reaches_start : loop_reaches agents [] agents
| reaches_turn ordered remaining next_agent rest remaining' :
    loop_reaches agents ordered remaining →
    filter (fun x => is_ready ordered x = true) remaining = next_agent :: rest →
    list_remove next_agent remaining = Ok remaining' →
    loop_reaches agents (ordered ++ [Agent.id next_agent]) remaining'.

(** [x] depends on [y]: some agent named [x] lists [y]. *)
Definition depends_on (agents : list Agent.t) (x y : string) : Prop :=
  ∃ a, a ∈ agents ∧ Agent.id a = x ∧ y ∈ Agent.dependencies a.

Definition acyclic (agents : list Agent.t) : Prop :=
  ∀ x, ¬ tc (depends_on agents) x x.

Definition resolvable (agents : list Agent.t) : Prop :=
  ∀ a d, a ∈ agents → d ∈ Agent.dependencies a → d ∈ agent_ids agents.

(** [a] sits in [order] behind all its dependencies. *)
Definition placed_after_dependencies (order : list string) (a : Agent.t) : Prop :=
  ∃ before after,
    order = before ++ Agent.id a :: after ∧
    ∀ d, d ∈ Agent.dependencies a → d ∈ before.

(** What the loop keeps true of its two variables. *)
Definition loop_invariant (agents : list Agent.t) (ordered : list string)
    (remaining : list Agent.t) : Prop :=
  (∀ a, a ∈ remaining → a ∈ agents) ∧
  (∀ a, a ∈ agents → a ∈ remaining ∨ placed_after_dependencies ordered a).

(** What [analyze_file_operations] keeps true of [all_file_operations]:
    the keys are distinct and no list of operations is empty. *)
Definition well_formed_operations (all : pydict (list OpEntry.t)) : Prop :=
  NoDup (dict_keys all) ∧ Forall (fun kv => kv.2 ≠ []) all.

(** Every file of a group has the group's domain on its first operation. *)
Definition grouped_by_first_operation (all : pydict (list OpEntry.t))
    (groups : pydict (list string)) : Prop :=
  ∀ domain files file,
    (domain, files) ∈ groups → file ∈ files →
    ∃ first rest,
      (file, first :: rest) ∈ all ∧
      FileOperation.domain (OpEntry.operation first) = domain.

(** [a] and [b] agree on everything the scheduler looks at. *)
Definition same_schedule (a b : Agent.t) : Prop :=
  Agent.id a = Agent.id b ∧ Agent.dependencies a = Agent.dependencies b.

(** [a] and [b] agree on every field but [requirements]. *)
Definition same_but_requirements (a b : Agent.t) : Prop :=
  Agent.id a = Agent.id b ∧
  Agent.role a = Agent.role b ∧
  Agent.focus_area a = Agent.focus_area b ∧
  Agent.dependencies a = Agent.dependencies b ∧
  Agent.files_to_create a = Agent.files_to_create b ∧
  Agent.files_to_modify a = Agent.files_to_modify b ∧
  Agent.test_contracts a = Agent.test_contracts b ∧
  Agent.validation_criteria a = Agent.validation_criteria b ∧
  Agent.estimated_time a = Agent.estimated_time b ∧
  Agent.can_start_immediately a = Agent.can_start_immediately b.

(** Two results that are the same up to the [requirements] of the agents. *)
Definition same_agents_result (r1 r2 : res (list Agent.t * Decomposer.t)) : Prop :=
  match r1, r2 with
  | Ok (agents1, self1), Ok (agents2, self2) =>
      Forall2 same_but_requirements agents1 agents2 ∧ self1 = self2
  | Raise e1, Raise e2 => e1 = e2
  | _, _ => False
  end.

Definition example_agent (id : string) (dependencies : list string) : Agent.t :=
  Agent.mk id "role" "focus" dependencies [] [] [] [] 30 []
    (bool_decide (dependencies = [])).

Definition fallback_example : list Agent.t :=
  [example_agent "auth" []; example_agent "backend" ["data"]; example_agent "ui" ["auth"]].

Definition scenario_text : string :=
  "1. Implement JWT auth login" +:+ String newline "2. Add API endpoint for validation".

(** An agent as a plan document records it for the validator and the
    scheduler: id, dependencies and the two file lists. *)
Definition recorded_agent (id : string)
    (dependencies files_to_create files_to_modify : list string) : Agent.t :=
  Agent.mk id EmptyString EmptyString dependencies files_to_create files_to_modify
    [] [] 0 [] (bool_decide (dependencies = [])).

(** The agents of a plan, read back from the document. *)
Definition plan_schedule (plan : yaml) : list Agent.t :=
  (fun a =>
     recorded_agent
       (match yaml_get "agentId" a with Some (YStr s) => s | _ => EmptyString end)
       (yaml_strings (yaml_get "dependencies" a))
       (yaml_strings (yaml_get "filesToCreate" a))
       (yaml_strings (yaml_get "filesToModify" a)))
    <$> plan_agents plan.

Definition scenario_auth_agent : Agent.t :=
  recorded_agent "auth_agent" []
    ["lib/auth/authentication.ts"; "lib/auth/token-manager.ts";
     "middleware/auth.ts"; "types/auth.ts"] [].

Definition scenario_forms_agent : Agent.t :=
  recorded_agent "forms_agent" ["auth_agent"]
    ["components/forms/DynamicForm.tsx"; "lib/form-validation.ts";
     "hooks/useFormState.ts"; "types/form.ts"] [].

Definition scenario_backend_agent : Agent.t :=
  recorded_agent "backend_agent" ["data_agent"]
    ["pages/api/[...slug].ts"; "lib/api/client.ts";
     "lib/api/handlers.ts"; "types/api.ts"] [].

Definition scenario_decomposer : Decomposer.t :=
  load_linear_issue "ISSUE-1"
    (Some (IssueData.mk (Some "ISSUE-1") (Some "Scenario") (Some scenario_text)))
    (Decomposer.init false).

(** An analyzer answer, above the threshold, in which two agents create the
    same file: the document, and what is read from it. *)
Definition overlapping_answer : yaml :=
  YDict
    [ ("confidence", YFloat 0.9%float);
      ("agents",
        YList
          [ YDict [ ("agentId", YStr "api_agent"); ("agentRole", YStr "API");
                    ("focusArea", YStr "API layer");
                    ("filesToCreate", ystrs ["src/app.ts"]) ];
            YDict [ ("agentId", YStr "ui_agent"); ("agentRole", YStr "UI");
                    ("focusArea", YStr "UI layer");
                    ("filesToCreate", ystrs ["src/app.ts"]) ] ]) ].

Definition overlapping_llm_result : LlmResult.t :=
  LlmResult.mk (YFloat 0.9%float)
    [ LlmAgent.mk "api_agent" "API" "API layer" None (Some ["src/app.ts"]) None None;
      LlmAgent.mk "ui_agent" "UI" "UI layer" None (Some ["src/app.ts"]) None None ]
    YNull YNull YNull.

Definition overlapping_env : DecomposeEnv.t :=
  DecomposeEnv.mk None (Some (fun _ _ => Some overlapping_answer))
    (ProjectContext.mk true false false ".").

(** An answer well above the threshold whose only agent has neither role
    nor focus area. *)
Definition incomplete_answer : yaml :=
  YDict
    [ ("confidence", YFloat 0.95%float);
      ("agents",
        YList [ YDict [ ("agentId", YStr "api_agent");
                        ("filesToCreate", ystrs ["src/app.ts"]) ] ]) ].

Definition incomplete_env : DecomposeEnv.t :=
  DecomposeEnv.mk None (Some (fun _ _ => Some incomplete_answer))
    (ProjectContext.mk true false false ".").

(** Nothing but copies of files of one workspace over the main code base. *)
Definition copies_from (workspace_dir : string) (events : list event) : Prop :=
  Forall (fun e =>
            ∃ clean_path, e = Copy (path_join workspace_dir clean_path) (Path clean_path))
    events.

(** The ways a call of [integrate_agent] can end, with the history it
    leaves. *)
Inductive agent_outcome (w : World.t) (agent workspace_dir : string) (h : list event)
  : outcome bool → list event → Prop :=
| agent_skipped :
    World.path_exists w h workspace_dir = false →
    agent_outcome w agent workspace_dir h (Return true) h
| agent_untested copies :
    copies_from workspace_dir copies →
    World.command_exists w (h ++ copies) "pnpm" = false →
    World.command_exists w (h ++ copies) "npm" = false →
    agent_outcome w agent workspace_dir h (Return true) (h ++ copies)
| agent_test_failed copies cmd :
    copies_from workspace_dir copies →
    cmd ∈ test_commands →
    World.returncode w (h ++ copies) cmd ≠ 0%Z →
    agent_outcome w agent workspace_dir h (Return false) (h ++ copies ++ [Run cmd])
| agent_add_failed copies cmd :
    copies_from workspace_dir copies →
    cmd ∈ test_commands →
    World.returncode w (h ++ copies ++ [Run cmd]) ["git"; "add"; "-A"] ≠ 0%Z →
    agent_outcome w agent workspace_dir h (Uncaught "CalledProcessError")
      (h ++ copies ++ [Run cmd; Run ["git"; "add"; "-A"]])
| agent_commit_failed copies cmd files_list :
    copies_from workspace_dir copies →
    cmd ∈ test_commands →
    World.returncode w (h ++ copies ++ [Run cmd; Run ["git"; "add"; "-A"]])
      ["git"; "commit"; "-m"; commit_message agent files_list] ≠ 0%Z →
    agent_outcome w agent workspace_dir h (Uncaught "CalledProcessError")
      (h ++ copies
         ++ [Run cmd; Run ["git"; "add"; "-A"];
             Run ["git"; "commit"; "-m"; commit_message agent files_list]])
| agent_committed copies cmd files_list :
    copies_from workspace_dir copies →
    cmd ∈ test_commands →
    World.returncode w (h ++ copies) cmd = 0%Z →
    agent_outcome w agent workspace_dir h (Return true)
      (h ++ copies
         ++ [Run cmd; Run ["git"; "add"; "-A"];
             Run ["git"; "commit"; "-m"; commit_message agent files_list]]).

Definition passed_status : yaml := YDict [("validation_passed", YBool true)].

(** A world in which validation has passed, [plan] is the plan found, every
    path exists, every work list has one line, and a command fails exactly
    when the same command has been run before: the first test run passes and
    the second fails. *)
Definition second_run_fails (file : string) (plan : yaml) : World.t :=
  World.mk (Some (Some passed_status)) (Some (file, Some plan))
    (fun h cmd => if bool_decide (Run cmd ∈ h) then 1%Z else 0%Z)
    (fun _ _ => true)
    (fun _ _ => ["CREATE: src/a.ts"])
    (fun _ _ => true)
    (fun _ => "20250101-000000")
    "shared/coordination".

(** A world in which every command succeeds, every path exists and [pnpm]
    is installed. *)
Definition green (w : World.t) : Prop :=
  ∀ h,
    (∀ cmd, World.returncode w h cmd = 0%Z) ∧
    (∀ p, World.path_exists w h p = true) ∧
    World.command_exists w h "pnpm" = true.

(** [msg] is the message of the commit that integrates [agent]. *)
Definition commit_of (agent msg : string) : Prop :=
  ∃ files_list, msg = commit_message agent files_list.

(** A world in which validation has passed, [plan] is the plan found, and
    everything succeeds. *)
Definition all_green (file : string) (plan : yaml) : World.t :=
  World.mk (Some (Some passed_status)) (Some (file, Some plan))
    (fun _ _ => 0%Z)
    (fun _ _ => true)
    (fun _ _ => ["CREATE: src/a.ts"])
    (fun _ _ => true)
    (fun _ => "20250101-000000")
    "shared/coordination".

(** The agent of a plan carries what the answer says of that agent. *)
Definition carries (planned agent_data : yaml) : Prop :=
  yaml_get "agentId" planned = yaml_get "agentId" agent_data ∧
  yaml_get "agentRole" planned = yaml_get "agentRole" agent_data ∧
  yaml_get "focusArea" planned = yaml_get "focusArea" agent_data ∧
  yaml_strings (yaml_get "dependencies" planned)
  = yaml_strings (yaml_get "dependencies" agent_data) ∧
  yaml_strings (yaml_get "filesToCreate" planned)
  = yaml_strings (yaml_get "filesToCreate" agent_data) ∧
  yaml_strings (yaml_get "filesToModify" planned)
  = yaml_strings (yaml_get "filesToModify" agent_data).

(** ** More vocabulary of the decomposer *)

(** Every agent of the list comes after the agents its dependencies name. *)
Definition dependency_ordered (agents : list Agent.t) : Prop :=
  ∀ before a after,
    agents = before ++ a :: after →
    ∀ d, d ∈ Agent.dependencies a → d ∈ agent_ids before.

Definition agent_files (a : Agent.t) : list string :=
  Agent.files_to_create a ++ Agent.files_to_modify a.

(** Every character of [s] satisfies [p]. *)
Fixpoint str_all (p : ascii → bool) (s : string) : bool :=
  match s with
  | EmptyString => true
  | String c s' => p c && str_all p s'
  end.

(** [s] has none of the characters [c]. *)
Definition str_free (c : ascii) (s : string) : Prop :=
  str_all (fun c' => negb (bool_decide (c' = c))) s = true.

(** A numbered list, one item to the line: [<number>. <text>]. *)
Definition numbered_text (items : list (string * string)) : string :=
  String.concat (String newline EmptyString)
    ((fun '(number, text) => number +:+ ". " +:+ text) <$> items).

(** A number is one or more digits. *)
Definition is_number (s : string) : Prop := s ≠ EmptyString ∧ str_all is_digit s = true.

(** ASCII text: every character is below 128. On such text [lower],
    [strip] and the numbered-line pattern are those of Python. *)
Definition ascii_text (s : string) : Prop :=
  str_all (fun c => (nat_of_ascii c <? 128)%nat) s = true.

(** A requirement as [extract_requirements] returns it unchanged: one
    non-empty line of ASCII text without white space at its ends. *)
Definition plain_requirement (s : string) : Prop :=
  s ≠ EmptyString ∧ strip s = s ∧ str_free newline s ∧ ascii_text s.

(** A rule table all of whose operations are CREATE, as [patterns] is. *)
Definition creates_only (table : list Pattern.t) : Prop :=
  ∀ pattern file operation,
    pattern ∈ table → (file, operation) ∈ Pattern.files pattern → operation = "CREATE".

(** Every recorded operation is a CREATE, and every file has one. *)
Definition all_created (all : pydict (list OpEntry.t)) : Prop :=
  ∀ file operations,
    (file, operations) ∈ all →
    operations ≠ [] ∧
    Forall (fun entry => FileOperation.operation (OpEntry.operation entry) = "CREATE")
      operations.


(** Nothing, or a directory with its separator. *)
Definition dir_prefix (prefix : string) : Prop :=
  prefix = EmptyString ∨ ∃ dir, prefix = dir +:+ "/".

(** A decomposer after [analyze_file_operations] has recorded two files. *)
Definition analyzed_example : Decomposer.t :=
  Decomposer.with_all_file_operations
    [ ("types/auth.ts",
        [OpEntry.mk (FileOperation.mk "CREATE" "auth" "Add login") "Add login" None]);
      ("lib/auth/authentication.ts",
        [OpEntry.mk (FileOperation.mk "CREATE" "auth" "Add login") "Add login" None]) ]
    (Decomposer.init false).

(** ** Spawn stage: the other functions of spawn-agents.py *)

(** [get_unique_agents]: the agent ids of the plan, each once, in the order
    of their first appearance; an agent without id, or with an empty one, is
    passed over. *)
Definition get_unique_agents (plan : Plan.t) : list string :=
  fold_left
    (fun agents agent =>
       match PlanAgent.agentId agent with
       | Some agent_id =>
           if negb (bool_decide (agent_id = EmptyString))
              && negb (bool_decide (agent_id ∈ agents))
           then agents ++ [agent_id] else agents
       | None => agents
       end)
    (default [] (Plan.parallelAgents plan)) [].

(** One element of [status_data["agents"]]. *)
Module AgentInfo.
Record t : Type := mk {
  agentId : string;
  branchName : string;
  status : string;
  canStartImmediately : bool;
  dependencies : list string;
  startedAt : option string;
  completedAt : option string
}.
End AgentInfo.

Module StatusData.
Record t : Type := mk {
  taskId : option string;
  taskTitle : option string;
  totalAgents : nat;
  agents : list AgentInfo.t;
  createdAt : string;
  lastUpdated : string
}.
End StatusData.

(** The body of the loop [for agent_id in agents] of
    [create_coordination_status]. *)
Definition agent_info (so : SetOrder) (plan : Plan.t) (task_id agent_id : string)
  : AgentInfo.t :=
  let '(dependencies, can_start_immediately) :=
    fold_left
      (fun '(dependencies, can_start_immediately) pa =>
         if bool_decide (PlanAgent.agentId pa = Some agent_id) then
           let deps := default [] (PlanAgent.dependencies pa) in
           if negb (bool_decide (deps = []))
           then (dependencies ++ deps, false)
           else (dependencies, can_start_immediately)
         else (dependencies, can_start_immediately))
      (default [] (Plan.parallelAgents plan)) ([], true) in
  AgentInfo.mk agent_id (task_id +:+ "-" +:+ agent_id) "spawned"
    can_start_immediately (set_to_list so dependencies) None None.

(** [create_coordination_status]: the document written to
    [parallel-agent-status.yaml]; [created_at] and [last_updated] are the two
    readings of the clock. *)
Definition create_coordination_status (so : SetOrder) (created_at last_updated : string)
    (plan : Plan.t) (agents : list string) (task_id : string) : StatusData.t :=
  StatusData.mk (Plan.taskId plan) (Plan.taskTitle plan) (length agents)
    (agent_info so plan task_id <$> agents) created_at last_updated.

(** The order of [str] under [<=]: by code points, a prefix first. *)
Definition str_le (a b : string) : Prop := String.leb a b = true.

#[global] Instance str_le_dec : RelDecision str_le.
Proof. intros a b. unfold str_le. apply _. Defined.

(** [sorted(l)] *)
Definition sorted (l : list string) : list string := merge_sort str_le l.

(** ["\n".join(lines)] *)
Definition join_lines (lines : list string) : string :=
  String.concat (String newline EmptyString) lines.

(** The files [create_agent_files] writes into the workspace. *)
Module AgentFiles.
Record t : Type := mk {
  agent_context : AgentContext.t;
  files_to_work_on : string;
  test_contracts : string;
  validation_checklist : string
}.
End AgentFiles.

(** The [files_list] of [create_agent_files]. *)
Definition files_list_of (agent_data : list PlanAgent.t) : list string :=
  fold_left
    (fun files_list a =>
       (files_list
          ++ ((fun f => "CREATE: " +:+ f) <$> default [] (PlanAgent.filesToCreate a)))
         ++ ((fun f => "MODIFY: " +:+ f) <$> default [] (PlanAgent.filesToModify a)))
    agent_data [].

Definition create_agent_files (so : SetOrder) (agent_context : AgentContext.t)
    (agent_data : list PlanAgent.t) : AgentFiles.t :=
  let files_list := files_list_of agent_data in
  let test_contracts := set_to_list so (sum_lists PlanAgent.testContracts agent_data) in
  let validation_criteria :=
    set_to_list so (sum_lists PlanAgent.validationCriteria agent_data) in
  let checklist_content :=
    join_lines
      (imap (fun i criteria => pretty (i + 1)%nat +:+ ". [ ] " +:+ criteria)
         validation_criteria) in
  AgentFiles.mk
    agent_context
    (join_lines (sorted (set_to_list so files_list)))
    (join_lines test_contracts)
    checklist_content.

(** ** Text files *)

Definition carriage_return : ascii := ascii_of_nat 13.

(** Reading in text mode: the line ends "\r\n" and "\r" arrive as "\n". *)
Fixpoint universal_newlines (s : string) : string :=
  match s with
  | EmptyString => EmptyString
  | String c s' =>
      if decide (c = carriage_return) then
        String newline
          match s' with
          | String c' s'' =>
              if decide (c' = newline) then universal_newlines s''
              else universal_newlines s'
          | EmptyString => EmptyString
          end
      else String c (universal_newlines s')
  end.

(** The lines of a text, each with its line end. *)
Fixpoint lines_keepends (s : string) : list string :=
  match s with
  | EmptyString => []
  | String c s' =>
      if decide (c = newline) then String c EmptyString :: lines_keepends s'
      else match lines_keepends s' with
           | [] => [String c EmptyString]
           | line :: lines => String c line :: lines
           end
  end.

(** [for line in f] over a file with the content [content]. *)
Definition file_lines (content : string) : list string :=
  lines_keepends (universal_newlines content).

(** A relative path written as pathlib prints it: it has no component
    that is empty or [.], so that it neither starts nor ends with a
    separator and is not empty. *)
Definition normal_path (p : string) : Prop :=
  Forall (fun component => component ≠ EmptyString ∧ component ≠ ".")
    (split_on "/" p).

(** A path as the work lists carry it unchanged: relative, not empty, one
    line of ASCII text, without white space at its ends and without the two
    markers, and written as pathlib prints it. *)
Definition plain_path (f : string) : Prop :=
  f ≠ EmptyString ∧ strip f = f ∧
  str_free newline f ∧ str_free carriage_return f ∧
  str_in "CREATE: " f = false ∧ str_in "MODIFY: " f = false ∧
  startswith f "/" = false ∧ ascii_text f ∧ normal_path f.

(** The files of a workspace are not created or removed while the stage
    runs. *)
Definition stable_workspace (w : World.t) (workspace_dir : string) : Prop :=
  ∀ h h' f,
    World.path_exists w h (path_join workspace_dir f)
    = World.path_exists w h' (path_join workspace_dir f).

(** A line of a work list: one of the two markers and a plain path. *)
Definition marked_line (line f : string) : Prop :=
  plain_path f ∧ (line = "CREATE: " +:+ f ∨ line = "MODIFY: " +:+ f).

(** ** Validation stage (validate-parallel-work.py) *)

(** [check_file_conflicts]. [files_to_work_on path] is the list of the
    lines read from the work list at [path] when that file exists: all of
    them, or those that came before an error of the read, which the code
    swallows and which only ends the reading of that file. *)
Definition check_file_conflicts (files_to_work_on : string → option (list string))
    (completed_agents : list string) (agent_to_worktree : pydict string) : res bool :=
  '(_, conflicts_found) ←!
    res_fold
      (fun '(file_agents, conflicts_found) agent =>
         worktree_path ←! dict_index agent agent_to_worktree;
         let workspace_dir := path_join (path_join worktree_path "workspaces") agent in
         match files_to_work_on (path_join workspace_dir "files_to_work_on.txt") with
         | Some lines =>
             Ok (fold_left
                   (fun '(file_agents, conflicts_found) line =>
                      let file := strip line in
                      if bool_decide (file = EmptyString)
                      then (file_agents, conflicts_found)
                      else
                        let clean_file :=
                          str_replace "MODIFY: " EmptyString
                            (str_replace "CREATE: " EmptyString file) in
                        match (file_agents : gmap string string) !! clean_file with
                        | Some _ => (file_agents, true)
                        | None => (<[clean_file := agent]> file_agents, conflicts_found)
                        end)
                   lines (file_agents, conflicts_found))
         | None => Ok (file_agents, conflicts_found)
         end)
      (∅, false) completed_agents;
  Ok conflicts_found.

(** [create_validation_status]: the document written to
    [validation-status.json]; [now] is [datetime.utcnow().isoformat()]. *)
Definition create_validation_status (now : string) (coordination_dir : string)
    (passed : bool) (completed_agents : list string) (worktrees_dir : string) : yaml :=
  YDict
    [ ("validation_passed", YBool passed);
      ("validated_at", YStr (now +:+ "Z"));
      ("agents_validated", ystrs (if passed then completed_agents else []));
      ("ready_for_integration", YBool passed);
      ("worktrees_dir", YStr worktrees_dir);
      ("coordination_dir", YStr coordination_dir) ].

(** ** Commit stage (agent-commit.py) *)

(** [validate_agent_completion]: [checklist] is the text read from
    [validation_checklist.txt], when the file exists. *)
Definition validate_agent_completion (checklist : option string) : outcome (nat * nat) :=
  match checklist with
  | None => Exit 1
  | Some content =>
      let lines := split_on newline (strip content) in
      let completed := length (filter (fun line => str_in "[x]" line = true) lines) in
      let total :=
        length (filter (fun line => str_in "[ ]" line || str_in "[x]" line = true) lines) in
      if (total =? 0)%nat then Exit 1
      else if (completed <? total)%nat then Exit 1
      else Return (completed, total)
  end.

(** [verify_files]: [files_list] is the text read from
    [files_to_work_on.txt], when the file exists, and [path_exists p] is
    [Path(p).exists()]. *)
Definition verify_files (path_exists : string → bool) (files_list : option string)
  : outcome unit :=
  match files_list with
  | None => Return tt
  | Some content =>
      let lines := split_on newline (strip content) in
      let missing_files :=
        fold_left
          (fun missing_files line =>
             if startswith line "CREATE:" then
               let file_path := strip (str_replace "CREATE:" EmptyString line) in
               if negb (path_exists file_path) then S missing_files else missing_files
             else missing_files)
          lines 0%nat in
      if (0 <? missing_files)%nat then Exit 1 else Return tt
  end.

(** What [parse_agent_context] returns. The agent id is a string, as the
    spawn stage writes it; the other values go into the documents as they
    are. *)
Module ParsedContext.
Record t : Type := mk {
  agent_id : string;
  agent_role : yaml;
  task_id : yaml;
  task_title : yaml;
  branch_name : yaml;
  files_to_create : yaml;
  files_to_modify : yaml;
  dependencies : yaml;
  validation_criteria : yaml
}.
End ParsedContext.

(** The loop of [create_coordination_files] over the work list: the files
    of the lines that start with one of the two markers. *)
Definition work_list_files (files_list : option string) : list string * list string :=
  match files_list with
  | None => ([], [])
  | Some content =>
      fold_left
        (fun '(files_created, files_modified) line =>
           if startswith line "CREATE:" then
             (files_created ++ [strip (str_replace "CREATE:" EmptyString line)],
              files_modified)
           else if startswith line "MODIFY:" then
             (files_created,
              files_modified ++ [strip (str_replace "MODIFY:" EmptyString line)])
           else (files_created, files_modified))
        (split_on newline (strip content)) ([], [])
  end.

(** [create_coordination_files]: the files written, in the order of their
    writing, and how the function ends. [timestamp] and [stamp] are the two
    readings of the clock, [commit_hash] is the output of
    [git rev-parse HEAD], or nothing when the command fails: [run_command]
    then raises and the last two files are not written. This is the run in
    which the directories can be made and the files opened; the code raises
    where one cannot, as it does at the third file for an agent id with a
    [/] in it. *)
Definition create_coordination_files (timestamp stamp : string)
    (commit_hash : option string) (agent_info : ParsedContext.t)
    (validation : nat * nat) (files_list : option string)
  : list (string * yaml) * outcome unit :=
  let agent_id := ParsedContext.agent_id agent_info in
  let '(files_created, files_modified) := work_list_files files_list in
  let validation_status :=
    YDict
      [ ("validation_passed", YBool true);
        ("validated_at", YStr timestamp);
        ("agent_id", YStr agent_id);
        ("validation_criteria", YInt (Z.of_nat validation.1));
        ("total_criteria", YInt (Z.of_nat validation.2));
        ("files_created", ystrs files_created);
        ("files_modified", ystrs files_modified);
        ("validator", YStr "agent-commit-enhanced") ] in
  match commit_hash with
  | None =>
      ([("shared/coordination/validation-status.yaml", validation_status)],
       Uncaught "CalledProcessError")
  | Some stdout =>
      let commit_hash := strip stdout in
      let integration_status :=
        YDict
          [ ("integration_ready", YBool true);
            ("agent_id", YStr agent_id);
            ("branch_name", ParsedContext.branch_name agent_info);
            ("commit_hash", YStr commit_hash);
            ("integration_order", ystrs [agent_id]);
            ("dependencies", ParsedContext.dependencies agent_info);
            ("created_at", YStr timestamp);
            ("agent_role", ParsedContext.agent_role agent_info);
            ("task_id", ParsedContext.task_id agent_info) ] in
      let deployment_plan :=
        YDict
          [ ("deployment_id", YStr (agent_id +:+ "-deployment-" +:+ stamp));
            ("created_at", YStr timestamp);
            ("integration_order", ystrs [agent_id]);
            ("agents",
              YDict
                [ (agent_id,
                    YDict
                      [ ("role", ParsedContext.agent_role agent_info);
                        ("status", YStr "completed");
                        ("branch", ParsedContext.branch_name agent_info);
                        ("files_created", YInt (Z.of_nat (length files_created)));
                        ("files_modified", YInt (Z.of_nat (length files_modified)));
                        ("validation_passed", YBool true);
                        ("dependencies", ParsedContext.dependencies agent_info) ]) ]);
            ("deployment_strategy", YStr "single_agent_merge");
            ("quality_gates",
              YDict
                [ ("validation_complete", YBool true);
                  ("tests_passing", YBool true);
                  ("files_verified", YBool true) ]) ] in
      ([ ("shared/coordination/validation-status.yaml", validation_status);
         ("shared/coordination/integration-status.yaml", integration_status);
         ("shared/deployment-plans/" +:+ agent_id +:+ "-deployment-plan.yaml",
           deployment_plan) ],
       Return tt)
  end.

(** A path that the commit stage reads back from a work list unchanged:
    not empty, one line of ASCII text, without white space at its ends and
    without the two markers as the commit stage looks for them. *)
Definition bare_path (f : string) : Prop :=
  f ≠ EmptyString ∧ strip f = f ∧
  str_free newline f ∧ str_free carriage_return f ∧
  str_in "CREATE:" f = false ∧ str_in "MODIFY:" f = false ∧ ascii_text f.

(** The text of a file as a read in text mode returns it. *)
Definition read_text (content : string) : string := universal_newlines content.

(** The entries of a plan for one agent: two files to create, one of them
    twice, and one to modify. *)
Definition spawned_example : list PlanAgent.t :=
  [ PlanAgent.mk (Some "ui_agent") None (Some ["src/b.tsx"; "src/a.tsx"])
      (Some ["src/index.ts"]) None None None;
    PlanAgent.mk (Some "ui_agent") None (Some ["src/a.tsx"]) None None
      (Some ["All ui files are created successfully"; "ui tests pass successfully"])
      None ].

(** An agent as [parse_agent_context] returns it, and the deployment plan
    that the commit stage writes for it. *)
Definition committing_example : ParsedContext.t :=
  ParsedContext.mk "ui_agent" (YStr "UI") (YStr "ISSUE-1") (YStr "Title")
    (YStr "ISSUE-1-ui_agent") YNull YNull (YList []) YNull.

Definition committed_plan : yaml :=
  default YNull
    (snd <$> last (create_coordination_files "2025-01-01T00:00:00" "20250101-000000"
                     (Some "abc123") committing_example (2, 2)%nat None).1).

(** The files a work list names: what is left of each line that is not
    blank once the markers are taken out. *)
Definition listed_files (lines : list string) : list string :=
  omap
    (fun line =>
       if bool_decide (strip line = EmptyString) then None
       else Some (str_replace "MODIFY: " EmptyString
                    (str_replace "CREATE: " EmptyString (strip line))))
    lines.

(** The files named by the work lists of the agents, agent after agent. *)
Definition all_listed_files (files_to_work_on : string → option (list string))
    (completed_agents : list string) (agent_to_worktree : pydict string) : list string :=
  concat
    ((fun agent =>
        match dict_get agent agent_to_worktree with
        | Some worktree_path =>
            match files_to_work_on
                    (path_join (path_join (path_join worktree_path "workspaces") agent)
                       "files_to_work_on.txt") with
            | Some lines => listed_files lines
            | None => []
            end
        | None => []
        end) <$> completed_agents).

(** The plan found, when it has an integration order, has a list of agent
    names there. *)
Definition names_in_order (w : World.t) : Prop :=
  ∀ file plan,
    World.deployment_plan w = Some (file, Some plan) →
    yaml_has "integration_order" plan = true →
    is_Some (integration_order_of plan).

(** Every line of every work list is ASCII text. *)
Definition ascii_lists (files_to_work_on : string → option (list string)) : Prop :=
  ∀ path lines, files_to_work_on path = Some lines → Forall ascii_text lines.

(** An event that changes the working tree or runs a command, as opposed
    to the writing of a report. *)
Definition is_step (e : event) : Prop :=
  match e with
  | Run _ | Copy _ _ => True
  | WriteReport _ _ _ _ _ | WriteStatus _ _ _ => False
  end.

(** A world in which every command succeeds but the linter, every path
    exists and [pnpm] is installed. *)
Definition green_but_lint (w : World.t) : Prop :=
  ∀ h,
    (∀ cmd, cmd ≠ ["pnpm"; "lint"] → World.returncode w h cmd = 0%Z) ∧
    World.returncode w h ["pnpm"; "lint"] ≠ 0%Z ∧
    (∀ p, World.path_exists w h p = true) ∧
    World.command_exists w h "pnpm" = true.

(** A world in which every command succeeds and [pnpm] is installed, but no
    agent has left a workspace. *)
Definition no_workspaces (w : World.t) : Prop :=
  ∀ h,
    (∀ cmd, World.returncode w h cmd = 0%Z) ∧
    (∀ p, World.path_exists w h p = false) ∧
    World.command_exists w h "pnpm" = true.

(** Validation has passed and [plan], found at [file], is the plan. *)
Definition lint_fails (file : string) (plan : yaml) : World.t :=
  World.mk (Some (Some passed_status)) (Some (file, Some plan))
    (fun _ cmd => if decide (cmd = ["pnpm"; "lint"]) then 1%Z else 0%Z)
    (fun _ _ => true)
    (fun _ _ => ["CREATE: src/a.ts"])
    (fun _ _ => true)
    (fun _ => "20250101-000000")
    "shared/coordination".

Definition nothing_to_integrate (file : string) (plan : yaml) : World.t :=
  World.mk (Some (Some passed_status)) (Some (file, Some plan))
    (fun _ _ => 0%Z)
    (fun _ _ => false)
    (fun _ _ => [])
    (fun _ _ => true)
    (fun _ => "20250101-000000")
    "shared/coordination".

(** * Properties *)

(** ** The merge-order scheduler *)

Lemma merge_loop_step (ordered : list string) (remaining : list Agent.t) :
  merge_loop ordered remaining =
  match remaining with
  | [] => Ok ordered
  | _ :: _ =>
      match filter (fun x => is_ready ordered x = true) remaining with
      | [] => Ok (ordered ++ agent_ids remaining)
      | next_agent :: _ =>
          match list_remove next_agent remaining with
          | Raise e => Raise e
          | Ok remaining' => merge_loop (ordered ++ [Agent.id next_agent]) remaining'
          end
      end
  end.
Proof.
  funelim (merge_loop ordered remaining); [done | ..];
    repeat match goal with H : _ = _ |- _ => rewrite H end; done.
Qed.

Lemma list_remove_elem (x : Agent.t) (l : list Agent.t) :
  x ∈ l → ∃ l1 l2, l = l1 ++ x :: l2 ∧ list_remove x l = Ok (l1 ++ l2).
Proof.
  induction l as [|y l IH]; intros Hx; [by apply elem_of_nil in Hx|].
  simpl. destruct (decide (y = x)) as [->|Hne].
  - by exists [], l.
  - apply elem_of_cons in Hx as [->|Hx]; [done|].
    destruct (IH Hx) as (l1 & l2 & -> & ->).
    by exists (y :: l1), l2.
Qed.

Lemma list_remove_inv (x : Agent.t) (l l' : list Agent.t) :
  list_remove x l = Ok l' → ∃ l1 l2, l = l1 ++ x :: l2 ∧ l' = l1 ++ l2.
Proof.
  revert l'. induction l as [|y l IH]; intros l'; simpl; [done|].
  destruct (decide (y = x)) as [->|Hne].
  - intros [= <-]. by exists [], l.
  - destruct (list_remove x l) as [r|] eqn:E; simpl; [|done].
    intros [= <-]. destruct (IH r eq_refl) as (l1 & l2 & -> & ->).
    by exists (y :: l1), l2.
Qed.

Lemma filter_head_elem (ordered : list string) (remaining : list Agent.t) a rest :
  filter (fun x => is_ready ordered x = true) remaining = a :: rest →
  a ∈ remaining ∧ is_ready ordered a = true.
Proof.
  intros H.
  assert (Ha : a ∈ filter (fun x => is_ready ordered x = true) remaining)
    by (rewrite H; left).
  apply list_elem_of_filter in Ha. tauto.
Qed.

Lemma is_ready_dependencies (ordered : list string) (a : Agent.t) :
  is_ready ordered a = true ↔ ∀ d, d ∈ Agent.dependencies a → d ∈ ordered.
Proof.
  unfold is_ready. rewrite orb_true_iff, bool_decide_eq_true, forallb_forall.
  split.
  - intros [E|H] d Hd.
    + rewrite E in Hd. by apply elem_of_nil in Hd.
    + apply list_elem_of_In in Hd. apply H in Hd. by apply bool_decide_eq_true in Hd.
  - intros H. right. intros d Hd. apply bool_decide_eq_true, H.
    by apply list_elem_of_In.
Qed.

(** The loop ends, raises nothing, and gives every agent one place. *)
Lemma merge_loop_total (remaining : list Agent.t) :
  ∀ ordered, ∃ order,
    merge_loop ordered remaining = Ok order ∧
    order ≡ₚ ordered ++ agent_ids remaining.
Proof.
  induction remaining as [remaining IH] using (induction_ltof1 _ (@length _)).
  unfold ltof in IH. intros ordered. rewrite merge_loop_step.
  destruct remaining as [|a r]; [exists ordered; by rewrite app_nil_r|].
  destruct (filter _ (a :: r)) as [|next rest] eqn:Hf; [by eexists|].
  apply filter_head_elem in Hf as [Hin _].
  destruct (list_remove_elem _ _ Hin) as (l1 & l2 & Hl & ->).
  destruct (IH (l1 ++ l2)) with (ordered := ordered ++ [Agent.id next])
    as (order & -> & Hp).
  { rewrite Hl, !length_app. simpl. lia. }
  exists order. split; [done|]. rewrite Hp, Hl. unfold agent_ids.
  rewrite !fmap_app, fmap_cons, <- !app_assoc. simpl.
  apply Permutation_app_head. by rewrite Permutation_middle.
Qed.

Lemma loop_reaches_result (agents : list Agent.t) ordered remaining :
  loop_reaches agents ordered remaining →
  calculate_merge_order agents = merge_loop ordered remaining.
Proof.
  induction 1 as [|ordered remaining next rest remaining' _ IH Hf Hr]; [done|].
  rewrite IH, (merge_loop_step ordered remaining).
  destruct remaining as [|a r]; [done|].
  by rewrite Hf, Hr.
Qed.

Lemma loop_reaches_sublist (agents : list Agent.t) ordered remaining :
  loop_reaches agents ordered remaining → remaining `sublist_of` agents.
Proof.
  induction 1 as [|ordered remaining next rest remaining' _ IH Hf Hr]; [done|].
  apply list_remove_inv in Hr as (l1 & l2 & -> & ->).
  etrans; [|exact IH]. apply sublist_app; [done|]. by apply sublist_cons.
Qed.

(** In a finite non-empty set where every element has a successor inside
    the set, some element reaches itself. *)
Lemma successors_close_a_cycle {A : Type} (R : relation A) (l : list A) :
  l ≠ [] →
  (∀ x, x ∈ l → ∃ y, y ∈ l ∧ tc R x y) →
  ∃ x, x ∈ l ∧ tc R x x.
Proof.
  induction l as [|x l IH]; [done|]. intros _ Hsucc.
  destruct (Hsucc x) as (y & Hy & Hxy); [left|].
  apply elem_of_cons in Hy as [->|Hy]; [exists x; split; [left | done]|].
  destruct IH as (z & Hz & Hzz).
  - intros ->. by apply elem_of_nil in Hy.
  - intros z Hz. destruct (Hsucc z) as (u & Hu & Hzu); [by right|].
    apply elem_of_cons in Hu as [->|Hu].
    + exists y. split; [done|]. by etrans.
    + by exists u.
  - exists z. split; [by right | done].
Qed.

Lemma placed_in_order (order : list string) (a : Agent.t) :
  placed_after_dependencies order a → Agent.id a ∈ order.
Proof. intros (l1 & l2 & -> & _). apply elem_of_app. right. left. Qed.

Lemma placed_after_dependencies_app (order more : list string) (a : Agent.t) :
  placed_after_dependencies order a → placed_after_dependencies (order ++ more) a.
Proof.
  intros (l1 & l2 & -> & H). exists l1, (l2 ++ more).
  by rewrite <- app_assoc.
Qed.

(** With an acyclic, resolvable graph the fall-back branch is never taken. *)
Lemma some_agent_is_ready (agents : list Agent.t) ordered remaining :
  acyclic agents → resolvable agents →
  loop_invariant agents ordered remaining →
  remaining ≠ [] →
  filter (fun x => is_ready ordered x = true) remaining ≠ [].
Proof.
  intros Hacyc Hres [Hsub Hcov] Hne Hnone.
  destruct (successors_close_a_cycle (depends_on agents) (agent_ids remaining))
    as (x & _ & Hx).
  - destruct remaining; [done|]. done.
  - intros x Hx. apply list_elem_of_fmap in Hx as (a & -> & Ha).
    assert (Hnr : is_ready ordered a ≠ true).
    { intros Hr.
      assert (Hin : a ∈ filter (fun x => is_ready ordered x = true) remaining)
        by (apply list_elem_of_filter; done).
      rewrite Hnone in Hin. by apply elem_of_nil in Hin. }
    rewrite is_ready_dependencies in Hnr.
    assert (∃ d, d ∈ Agent.dependencies a ∧ d ∉ ordered) as (d & Hd & Hdo).
    { clear -Hnr. induction (Agent.dependencies a) as [|d ds IH].
      - exfalso. apply Hnr. intros d Hd. by apply elem_of_nil in Hd.
      - destruct (decide (d ∈ ordered)) as [Hin|Hout].
        + destruct IH as (d' & Hd' & Ho).
          * intros H. apply Hnr. intros d' Hd'.
            apply elem_of_cons in Hd' as [->|Hd']; [done | by apply H].
          * exists d'. split; [by right | done].
        + exists d. split; [left | done]. }
    exists d. split.
    + pose proof (Hres a d (Hsub a Ha) Hd) as Hb.
      apply list_elem_of_fmap in Hb as (b & -> & Hb).
      destruct (Hcov b Hb) as [Hr|Hp].
      * apply list_elem_of_fmap. by exists b.
      * by apply placed_in_order in Hp.
    + apply tc_once. exists a. split; [by apply Hsub | done].
  - by apply (Hacyc x).
Qed.

Lemma merge_loop_sound (agents : list Agent.t) :
  acyclic agents → resolvable agents →
  ∀ remaining ordered,
    loop_invariant agents ordered remaining →
    ∃ order,
      merge_loop ordered remaining = Ok order ∧
      ∀ a, a ∈ agents → placed_after_dependencies order a.
Proof.
  intros Hacyc Hres remaining.
  induction remaining as [remaining IH] using (induction_ltof1 _ (@length _)).
  unfold ltof in IH. intros ordered Hinv.
  destruct (decide (remaining = [])) as [->|Hne].
  { rewrite merge_loop_step. exists ordered. split; [done|]. intros a Ha.
    destruct Hinv as [_ Hcov]. destruct (Hcov a Ha) as [Hin|Hp]; [|done].
    by apply elem_of_nil in Hin. }
  pose proof (some_agent_is_ready agents ordered remaining Hacyc Hres Hinv Hne) as Hready.
  destruct (filter _ remaining) as [|next rest] eqn:Hf; [done|].
  pose proof (filter_head_elem _ _ _ _ Hf) as [Hin Hrdy].
  destruct (list_remove_elem _ _ Hin) as (l1 & l2 & Hl & Hrm).
  assert (Hstep : merge_loop ordered remaining
                  = merge_loop (ordered ++ [Agent.id next]) (l1 ++ l2)).
  { rewrite merge_loop_step. destruct remaining; [done|]. by rewrite Hf, Hrm. }
  rewrite Hstep.
  apply IH.
  - rewrite Hl, !length_app. simpl. lia.
  - destruct Hinv as [Hsub Hcov]. split.
    + intros a Ha. apply Hsub. rewrite Hl.
      apply elem_of_app in Ha as [Ha|Ha]; apply elem_of_app; [by left|].
      right. by right.
    + intros a Ha. destruct (decide (a = next)) as [->|Hne'].
      * right. exists ordered, []. split; [done|].
        by apply is_ready_dependencies.
      * destruct (Hcov a Ha) as [Hr|Hp].
        -- left. rewrite Hl in Hr.
           apply elem_of_app in Hr as [Hr|Hr]; apply elem_of_app; [by left|].
           apply elem_of_cons in Hr as [->|Hr]; [done | by right].
        -- right. by apply placed_after_dependencies_app.
Qed.

(** ** Claims about the scheduler *)

(** C4. If the dependency graph of the agents is acyclic and every
    declared dependency names an agent of the list, the merge order is
    computed without the fall-back, holds every agent once, and places each
    agent strictly after every agent id listed in its [dependencies]. *)
Theorem merge_order_respects_dependencies (agents : list Agent.t) :
  acyclic agents →
  resolvable agents →
  ∃ order,
    calculate_merge_order agents = Ok order ∧
    order ≡ₚ agent_ids agents ∧
    ∀ a, a ∈ agents → placed_after_dependencies order a.
Proof.
  intros Hacyc Hres.
  destruct (merge_loop_sound agents Hacyc Hres agents []) as (order & Ho & Hp).
  { split; [done | by left]. }
  destruct (merge_loop_total agents []) as (order' & Ho' & Hperm).
  exists order. unfold calculate_merge_order. split; [done|].
  split; [|done]. rewrite Ho in Ho'. by injection Ho' as ->.
Qed.

(** C5. For every list of agents the scheduler ends with a result and
    raises nothing, each agent getting one place; and whenever the loop
    comes to a point where agents remain and none of them is ready, the
    result is what was ordered so far followed by all remaining agents, which
    are still in their original list order. *)
Theorem merge_order_total_with_fallback (agents : list Agent.t) :
  (∃ order, calculate_merge_order agents = Ok order ∧ order ≡ₚ agent_ids agents) ∧
  (∀ ordered remaining,
     loop_reaches agents ordered remaining →
     remaining ≠ [] →
     filter (fun x => is_ready ordered x = true) remaining = [] →
     calculate_merge_order agents = Ok (ordered ++ agent_ids remaining) ∧
     remaining `sublist_of` agents).
Proof.
  split.
  - destruct (merge_loop_total agents []) as (order & Ho & Hp). by exists order.
  - intros ordered remaining Hreach Hne Hstuck. split.
    + rewrite (loop_reaches_result _ _ _ Hreach), merge_loop_step.
      destruct remaining; [done|]. by rewrite Hstuck.
    + exact (loop_reaches_sublist _ _ _ Hreach).
Qed.

(** ** Dictionaries *)

Section pydict_facts.
Context {V : Type}.
Implicit Types (d : pydict V) (k : string) (v : V).

Lemma dict_get_None k d : dict_get k d = None ↔ k ∉ dict_keys d.
Proof.
  induction d as [|[k' v'] d IH]; simpl.
  - split; [intros _ H; by apply elem_of_nil in H | done].
  - destruct (decide (k' = k)) as [->|Hne].
    + split; [done | intros H; exfalso; apply H; left].
    + rewrite IH, not_elem_of_cons. naive_solver.
Qed.

Lemma dict_get_Some_elem k v d : dict_get k d = Some v → (k, v) ∈ d.
Proof.
  induction d as [|[k' v'] d IH]; simpl; [done|].
  destruct (decide (k' = k)) as [->|Hne].
  - intros [= ->]. left.
  - intros H. right. by apply IH.
Qed.

Lemma dict_get_is_Some k d : k ∈ dict_keys d → is_Some (dict_get k d).
Proof.
  intros Hk. destruct (dict_get k d) eqn:E; [by eexists|].
  by apply dict_get_None in E.
Qed.

Lemma dict_set_keys k v d :
  dict_keys (dict_set k v d)
  = if decide (k ∈ dict_keys d) then dict_keys d else dict_keys d ++ [k].
Proof.
  induction d as [|[k' v'] d IH]; simpl.
  - destruct (decide (k ∈ [])) as [H|_]; [by apply elem_of_nil in H | done].
  - destruct (decide (k' = k)) as [->|Hne]; simpl.
    + destruct (decide (k ∈ k :: dict_keys d)) as [_|H]; [done|].
      exfalso. apply H. left.
    + unfold dict_keys in *. rewrite IH.
      destruct (decide (k ∈ fst <$> d)) as [Hin|Hout];
        destruct (decide (k ∈ k' :: (fst <$> d))) as [Hin'|Hout']; try done.
      * exfalso. apply Hout'. by right.
      * apply elem_of_cons in Hin' as [->|Hin']; done.
Qed.

Lemma dict_set_NoDup k v d : NoDup (dict_keys d) → NoDup (dict_keys (dict_set k v d)).
Proof.
  intros Hnd. rewrite dict_set_keys. destruct (decide (k ∈ dict_keys d)); [done|].
  apply NoDup_app. split; [done|]. split; [|apply NoDup_singleton].
  intros x Hx Hx'. apply list_elem_of_singleton in Hx' as ->. done.
Qed.

Lemma dict_set_fresh k v d : k ∉ dict_keys d → dict_set k v d = d ++ [(k, v)].
Proof.
  induction d as [|[k' v'] d IH]; simpl; [done|].
  intros Hk. apply not_elem_of_cons in Hk as [Hne Hk].
  destruct (decide (k' = k)); [done|]. by rewrite IH.
Qed.

End pydict_facts.

Section dict_append_facts.
Context {A : Type}.
Implicit Types (d : pydict (list A)) (k : string) (x : A).

Lemma dict_append_keys k x d :
  dict_keys (dict_append k x d)
  = if decide (k ∈ dict_keys d) then dict_keys d else dict_keys d ++ [k].
Proof. unfold dict_append. destruct (dict_get k d); apply dict_set_keys. Qed.

Lemma dict_append_NoDup k x d :
  NoDup (dict_keys d) → NoDup (dict_keys (dict_append k x d)).
Proof. unfold dict_append. destruct (dict_get k d); apply dict_set_NoDup. Qed.

(** Every entry of the result is an old entry, the old entry of [k] with
    [x] at its end, or the new entry of [k]. *)
Lemma dict_append_entry k x d k' l' :
  (k', l') ∈ dict_append k x d →
  (k', l') ∈ d ∨ (k' = k ∧ ∃ l, l' = l ++ [x] ∧ (l = [] ∨ (k, l) ∈ d)).
Proof.
  unfold dict_append. destruct (dict_get k d) as [l|] eqn:Hg.
  - apply dict_get_Some_elem in Hg. revert Hg.
    induction d as [|[k0 l0] d IH]; simpl; [intros H; by apply elem_of_nil in H|].
    intros Hin Hin'. destruct (decide (k0 = k)) as [->|Hne].
    + apply elem_of_cons in Hin' as [[= -> ->]|Hin']; [|left; by right].
      right. split; [done|]. exists l. split; [done|]. by right.
    + apply elem_of_cons in Hin as [[= -> ->]|Hin]; [done|].
      apply elem_of_cons in Hin' as [[= -> ->]|Hin']; [left; left|].
      destruct (IH Hin Hin') as [H|(-> & l1 & -> & [->|H])].
      * left. by right.
      * right. split; [done|]. exists []. split; [done | by left].
      * right. split; [done|]. exists l1. split; [done|]. right. by right.
  - apply dict_get_None in Hg. rewrite (dict_set_fresh _ _ _ Hg).
    intros Hin. apply elem_of_app in Hin as [Hin|Hin]; [by left|].
    apply list_elem_of_singleton in Hin as [= -> ->].
    right. split; [done|]. exists []. split; [done | by left].
Qed.

Lemma dict_append_values k x d :
  concat (snd <$> dict_append k x d) ≡ₚ x :: concat (snd <$> d).
Proof.
  unfold dict_append. destruct (dict_get k d) as [l|] eqn:Hg.
  - revert Hg. induction d as [|[k0 l0] d IH]; simpl; [done|].
    destruct (decide (k0 = k)) as [->|Hne]; simpl.
    + intros [= ->]. rewrite <- app_assoc. simpl.
      by rewrite <- Permutation_middle.
    + intros Hg. rewrite (IH Hg). by rewrite Permutation_middle.
  - apply dict_get_None in Hg. rewrite (dict_set_fresh _ _ _ Hg).
    rewrite fmap_app, concat_app. simpl.
    by rewrite <- Permutation_cons_append.
Qed.

End dict_append_facts.

(** ** The pattern-based pipeline raises nothing *)

Lemma dict_append_nonempty {A : Type} k (x : A) (d : pydict (list A)) :
  Forall (fun kv => kv.2 ≠ []) d → Forall (fun kv => kv.2 ≠ []) (dict_append k x d).
Proof.
  rewrite !Forall_forall. intros H [k' l'] Hin. simpl.
  apply dict_append_entry in Hin as [Hin|(_ & l & -> & _)].
  - exact (H _ Hin).
  - by destruct l.
Qed.

Lemma record_operations_well_formed table requirements all :
  well_formed_operations all →
  well_formed_operations (record_operations table requirements all).
Proof.
  unfold record_operations. revert all.
  induction requirements as [|requirement requirements IH]; intros all Hwf; [done|].
  simpl. apply IH. clear IH.
  generalize (extract_file_operations_with table requirement). intros operations.
  revert all Hwf. induction operations as [|[file op] operations IH]; intros all Hwf;
    [done|].
  simpl. apply IH. destruct Hwf as [Hnd Hne]. split.
  - by apply dict_append_NoDup.
  - by apply dict_append_nonempty.
Qed.

Lemma group_fold_ok (all0 all : pydict (list OpEntry.t)) (acc : pydict (list string)) :
  Forall (fun kv => kv.2 ≠ []) all →
  (∀ kv, kv ∈ all → kv ∈ all0) →
  NoDup (dict_keys acc) →
  grouped_by_first_operation all0 acc →
  ∃ groups,
    res_fold
      (fun domain_groups '(file, operations) =>
         first ←! list_first operations;
         Ok (dict_append (FileOperation.domain (OpEntry.operation first)) file
               domain_groups))
      acc all = Ok groups ∧
    NoDup (dict_keys groups) ∧
    concat (snd <$> groups) ≡ₚ concat (snd <$> acc) ++ dict_keys all ∧
    grouped_by_first_operation all0 groups.
Proof.
  revert acc. induction all as [|[file ops] all IH]; intros acc Hne Hsub Hnd Hgrp.
  - exists acc. simpl. by rewrite app_nil_r.
  - apply Forall_cons in Hne as [Hops Hne]. simpl in Hops.
    destruct ops as [|first rest]; [done|]. simpl.
    destruct (IH (dict_append (FileOperation.domain (OpEntry.operation first)) file acc))
      as (groups & -> & Hnd' & Hperm & Hgrp'); try done.
    + intros kv Hkv. apply Hsub. by right.
    + by apply dict_append_NoDup.
    + intros domain files file' Hin Hfile.
      apply dict_append_entry in Hin as [Hin|(-> & l & -> & Hl)].
      * by apply (Hgrp domain files).
      * apply elem_of_app in Hfile as [Hfile|Hfile].
        -- destruct Hl as [->|Hl]; [by apply elem_of_nil in Hfile|].
           by apply (Hgrp _ l).
        -- apply list_elem_of_singleton in Hfile as ->.
           exists first, rest. split; [apply Hsub; left | done].
    + exists groups. split; [done|]. split; [done|]. split; [|done].
      rewrite Hperm, dict_append_values. simpl.
      by rewrite <- Permutation_middle.
Qed.

Lemma group_by_domain_ok (all : pydict (list OpEntry.t)) :
  well_formed_operations all →
  ∃ groups,
    group_by_domain all = Ok groups ∧
    NoDup (dict_keys groups) ∧
    concat (snd <$> groups) ≡ₚ dict_keys all ∧
    grouped_by_first_operation all groups.
Proof.
  intros [_ Hne]. unfold group_by_domain.
  destruct (group_fold_ok all all [] Hne) as (groups & ? & ? & ? & ?); try done.
  - apply NoDup_nil_2.
  - intros domain files file Hin. by apply elem_of_nil in Hin.
  - by exists groups.
Qed.

Lemma assign_domains_fresh (groups exclusive : pydict (list string)) :
  NoDup (dict_keys exclusive ++ dict_keys groups) →
  assign_domains groups exclusive = exclusive ++ groups.
Proof.
  unfold assign_domains. revert exclusive.
  induction groups as [|[domain files] groups IH]; intros exclusive Hnd; simpl.
  - by rewrite app_nil_r.
  - assert (Hfresh : domain ∉ dict_keys exclusive).
    { apply NoDup_app in Hnd as (_ & Hdis & _). intros Hin.
      apply (Hdis _ Hin). left. }
    rewrite (dict_set_fresh _ _ _ Hfresh), IH; [by rewrite <- app_assoc|].
    unfold dict_keys in *. rewrite fmap_app, <- app_assoc. exact Hnd.
Qed.

Lemma check_files_ok (files : list string) (seen : gset string) :
  NoDup files →
  (∀ f, f ∈ files → f ∉ seen) →
  ∃ seen',
    res_fold
      (fun (all_domain_files : gset string) file =>
         if bool_decide (file ∈ all_domain_files)
         then Raise (ValueError (FileConflict file))
         else Ok (all_domain_files ∪ {[file]}))
      seen files = Ok seen' ∧
    ∀ f, f ∈ seen' ↔ f ∈ seen ∨ f ∈ files.
Proof.
  revert seen. induction files as [|file files IH]; intros seen Hnd Hfresh; simpl.
  - exists seen. split; [done|]. intros f. rewrite elem_of_nil. tauto.
  - apply NoDup_cons in Hnd as [Hfile Hnd].
    rewrite bool_decide_eq_false_2 by (apply Hfresh; left). simpl.
    destruct (IH (seen ∪ {[file]}) Hnd) as (seen' & -> & Hseen').
    + intros f Hf. rewrite elem_of_union, elem_of_singleton.
      intros [Hs| ->]; [|done]. apply (Hfresh f); [by right | done].
    + exists seen'. split; [done|]. intros f.
      rewrite Hseen', elem_of_union, elem_of_singleton, elem_of_cons. tauto.
Qed.

Lemma check_domain_files_from (exclusive : pydict (list string)) (seen : gset string) :
  NoDup (concat (snd <$> exclusive)) →
  (∀ f, f ∈ concat (snd <$> exclusive) → f ∉ seen) →
  ∃ seen',
    res_fold
      (fun all_domain_files '(domain, files) =>
         res_fold
           (fun (all_domain_files : gset string) file =>
              if bool_decide (file ∈ all_domain_files)
              then Raise (ValueError (FileConflict file))
              else Ok (all_domain_files ∪ {[file]}))
           all_domain_files files)
      seen exclusive = Ok seen'.
Proof.
  revert seen. induction exclusive as [|[domain files] exclusive IH];
    intros seen Hnd Hfresh; simpl; [by eexists|].
  simpl in Hnd. apply NoDup_app in Hnd as (Hnd1 & Hdis & Hnd2).
  destruct (check_files_ok files seen Hnd1) as (seen1 & -> & Hseen1).
  { intros f Hf. apply Hfresh. simpl. apply elem_of_app. by left. }
  simpl.
  apply IH; [done|]. intros f Hf. rewrite Hseen1. intros [Hs|Hf'].
  - apply (Hfresh f); [|done]. simpl. apply elem_of_app. by right.
  - by apply (Hdis f).
Qed.

Lemma check_domain_files_ok (exclusive : pydict (list string)) :
  NoDup (concat (snd <$> exclusive)) → ∃ seen, check_domain_files exclusive = Ok seen.
Proof.
  intros Hnd. apply check_domain_files_from; [done|].
  intros f _. apply not_elem_of_empty.
Qed.

Lemma split_files_from (all : pydict (list OpEntry.t)) (files c0 m0 : list string) :
  (∀ f, f ∈ files → f ∈ dict_keys all) →
  ∃ c m,
    res_fold
      (fun '(files_to_create, files_to_modify) file =>
         operations ←! dict_index file all;
         match operations with
         | first :: _ =>
             if decide (FileOperation.operation (OpEntry.operation first) = "CREATE")
             then Ok (files_to_create ++ [file], files_to_modify)
             else Ok (files_to_create, files_to_modify ++ [file])
         | [] => Ok (files_to_create, files_to_modify ++ [file])
         end)
      (c0, m0) files = Ok (c, m) ∧
    c ++ m ≡ₚ (c0 ++ m0) ++ files.
Proof.
  revert c0 m0. induction files as [|file files IH]; intros c0 m0 Hkeys; simpl.
  - exists c0, m0. by rewrite app_nil_r.
  - destruct (dict_get_is_Some file all) as [ops Hops]; [apply Hkeys; left|].
    unfold dict_index. rewrite Hops. simpl.
    assert (Hrest : ∀ f, f ∈ files → f ∈ dict_keys all)
      by (intros f Hf; apply Hkeys; by right).
    assert (Hmod : ∃ c m,
      res_fold
        (fun '(files_to_create, files_to_modify) file =>
           operations ←! match dict_get file all with
                         | Some v => Ok v
                         | None => Raise (KeyError file)
                         end;
           match operations with
           | first :: _ =>
               if decide (FileOperation.operation (OpEntry.operation first) = "CREATE")
               then Ok (files_to_create ++ [file], files_to_modify)
               else Ok (files_to_create, files_to_modify ++ [file])
           | [] => Ok (files_to_create, files_to_modify ++ [file])
           end)
        (c0, m0 ++ [file]) files = Ok (c, m) ∧
      c ++ m ≡ₚ (c0 ++ m0) ++ file :: files).
    { destruct (IH c0 (m0 ++ [file]) Hrest) as (c & m & Heq & Hp).
      exists c, m. split; [exact Heq|]. rewrite Hp, <- !app_assoc. by simpl. }
    destruct ops as [|first rest]; [exact Hmod|].
    destruct (decide (FileOperation.operation (OpEntry.operation first) = "CREATE"));
      [|exact Hmod].
    simpl. destruct (IH (c0 ++ [file]) m0 Hrest) as (c & m & Heq & Hp).
    exists c, m. split; [exact Heq|]. rewrite Hp, <- !app_assoc. simpl.
    apply Permutation_app_head. by rewrite <- Permutation_middle.
Qed.

Lemma split_files_ok (all : pydict (list OpEntry.t)) (files : list string) :
  (∀ f, f ∈ files → f ∈ dict_keys all) →
  ∃ c m, split_files all files = Ok (c, m) ∧ c ++ m ≡ₚ files.
Proof.
  intros Hkeys. destruct (split_files_from all files [] [] Hkeys) as (c & m & ? & ?).
  by exists c, m.
Qed.

Lemma collect_requirements_ok (all : pydict (list OpEntry.t)) (domain : string) :
  Forall (fun kv => kv.2 ≠ []) all → ∃ reqs, collect_requirements all domain = Ok reqs.
Proof.
  unfold collect_requirements. generalize (@nil string).
  induction all as [|[file ops] all IH]; intros acc Hne; simpl; [by eexists|].
  apply Forall_cons in Hne as [Hops Hne]. simpl in Hops.
  destruct ops as [|first rest]; [done|]. simpl.
  destruct (decide (FileOperation.domain (OpEntry.operation first) = domain));
    simpl; by apply IH.
Qed.

Lemma create_agent_for_domain_ok so (self : Decomposer.t) (domain : string)
    (files : list string) :
  well_formed_operations (Decomposer.all_file_operations self) →
  (∀ f, f ∈ files → f ∈ dict_keys (Decomposer.all_file_operations self)) →
  ∃ agent,
    create_agent_for_domain so self domain files = Ok agent ∧
    Agent.files_to_create agent ++ Agent.files_to_modify agent ≡ₚ files.
Proof.
  intros [_ Hne] Hkeys. unfold create_agent_for_domain, get_requirements_for_domain.
  destruct (split_files_ok _ _ Hkeys) as (c & m & -> & Hp).
  destruct (collect_requirements_ok _ domain Hne) as (reqs & ->).
  simpl. by eexists.
Qed.

Lemma generate_agents_from so (items : pydict (list string)) (agents0 : list Agent.t)
    (self0 : Decomposer.t) :
  well_formed_operations (Decomposer.all_file_operations self0) →
  (∀ kv f, kv ∈ items → f ∈ kv.2 → f ∈ dict_keys (Decomposer.all_file_operations self0)) →
  ∃ agents self',
    res_fold
      (fun '(agents, self) '(domain, files) =>
         agent ←! create_agent_for_domain so self domain files;
         Ok (agents ++ [agent],
             Decomposer.with_agent_ownership
               (dict_set (Agent.id agent) files (Decomposer.agent_ownership self))
               self))
      (agents0, self0) items = Ok (agents0 ++ agents, self') ∧
    Decomposer.linear_issue self' = Decomposer.linear_issue self0 ∧
    Decomposer.all_file_operations self' = Decomposer.all_file_operations self0 ∧
    Decomposer.exclusive_domains self' = Decomposer.exclusive_domains self0 ∧
    Forall2
      (fun agent kv => Agent.files_to_create agent ++ Agent.files_to_modify agent ≡ₚ kv.2)
      agents items.
Proof.
  revert agents0 self0.
  induction items as [|[domain files] items IH]; intros agents0 self0 Hwf Hkeys; simpl.
  - exists [], self0. by rewrite app_nil_r.
  - destruct (create_agent_for_domain_ok so self0 domain files Hwf) as (agent & -> & Hp).
    { intros f Hf. apply (Hkeys (domain, files)); [left | done]. }
    simpl.
    destruct (IH (agents0 ++ [agent])
                (Decomposer.with_agent_ownership
                   (dict_set (Agent.id agent) files (Decomposer.agent_ownership self0))
                   self0))
      as (agents & self' & -> & Hi & Ha & He & Hf2); [done | |].
    { intros kv f Hkv Hf. simpl. apply (Hkeys kv); [by right | done]. }
    exists (agent :: agents), self'. rewrite <- app_assoc. simpl.
    repeat split; try done. by constructor.
Qed.

Lemma ownership_files_ok (agent_id : string) (files : list string)
    (m : gmap string string) :
  NoDup files →
  (∀ f, f ∈ files → m !! f = None) →
  ∃ m',
    res_fold
      (fun (file_ownership : gmap string string) file =>
         match file_ownership !! file with
         | Some owner => Raise (ValueError (OwnershipConflict file agent_id owner))
         | None => Ok (<[file := agent_id]> file_ownership)
         end)
      m files = Ok m' ∧
    ∀ f, f ∉ files → m' !! f = m !! f.
Proof.
  revert m. induction files as [|file files IH]; intros m Hnd Hfresh; simpl.
  - by exists m.
  - apply NoDup_cons in Hnd as [Hfile Hnd].
    rewrite (Hfresh file) by left. simpl.
    destruct (IH (<[file := agent_id]> m) Hnd) as (m' & -> & Hm').
    + intros f Hf. rewrite lookup_insert_ne; [apply Hfresh; by right|].
      intros ->. done.
    + exists m'. split; [done|]. intros f Hf.
      apply not_elem_of_cons in Hf as [Hne Hf].
      rewrite (Hm' f Hf). by rewrite lookup_insert_ne.
Qed.

Lemma file_ownership_from (agents : list Agent.t) (m : gmap string string) :
  NoDup (concat ((fun a => Agent.files_to_create a ++ Agent.files_to_modify a) <$> agents)) →
  (∀ f, f ∈ concat ((fun a => Agent.files_to_create a ++ Agent.files_to_modify a) <$> agents) →
        m !! f = None) →
  ∃ m',
    res_fold
      (fun file_ownership agent =>
         res_fold
           (fun (file_ownership : gmap string string) file =>
              match file_ownership !! file with
              | Some owner =>
                  Raise (ValueError (OwnershipConflict file (Agent.id agent) owner))
              | None => Ok (<[file := Agent.id agent]> file_ownership)
              end)
           file_ownership (Agent.files_to_create agent ++ Agent.files_to_modify agent))
      m agents = Ok m'.
Proof.
  revert m. induction agents as [|agent agents IH]; intros m Hnd Hfresh; simpl;
    [by eexists|].
  simpl in Hnd. apply NoDup_app in Hnd as (Hnd1 & Hdis & Hnd2).
  destruct (ownership_files_ok (Agent.id agent)
              (Agent.files_to_create agent ++ Agent.files_to_modify agent) m Hnd1)
    as (m1 & -> & Hm1).
  { intros f Hf. apply Hfresh. simpl. apply elem_of_app. by left. }
  simpl. apply IH; [done|]. intros f Hf. rewrite Hm1.
  - apply Hfresh. simpl. apply elem_of_app. by right.
  - intros Hf'. by apply (Hdis f).
Qed.

(** The validator accepts every list of agents whose file lists, taken
    together, name no file twice. *)
Lemma validate_no_conflicts_ok (agents : list Agent.t) :
  NoDup (concat ((fun a => Agent.files_to_create a ++ Agent.files_to_modify a) <$> agents)) →
  validate_no_conflicts agents = Ok tt.
Proof.
  intros Hnd. unfold validate_no_conflicts, file_ownership_of.
  destruct (file_ownership_from agents ∅ Hnd) as (m & ->); [|done].
  intros f _. apply lookup_empty.
Qed.

Lemma agent_files_permutation (agents : list Agent.t) (items : pydict (list string)) :
  Forall2
    (fun agent kv => Agent.files_to_create agent ++ Agent.files_to_modify agent ≡ₚ kv.2)
    agents items →
  concat ((fun a => Agent.files_to_create a ++ Agent.files_to_modify a) <$> agents)
  ≡ₚ concat (snd <$> items).
Proof.
  induction 1 as [|agent kv agents items Hp _ IH]; [done|].
  simpl. by rewrite Hp, IH.
Qed.

Lemma elem_of_concat {A : Type} (x : A) (ls : list (list A)) :
  x ∈ concat ls ↔ ∃ l, l ∈ ls ∧ x ∈ l.
Proof.
  induction ls as [|l0 ls IH]; simpl.
  - split; [intros H; by apply elem_of_nil in H|].
    intros (l & Hl & _). by apply elem_of_nil in Hl.
  - rewrite elem_of_app, IH. split.
    + intros [Hx|(l & Hl & Hx)]; [exists l0; split; [left | done]|].
      exists l. split; [by right | done].
    + intros (l & Hl & Hx). apply elem_of_cons in Hl as [->|Hl]; [by left|].
      right. by exists l.
Qed.

Lemma create_exclusive_domains_ok (self : Decomposer.t) :
  well_formed_operations (Decomposer.all_file_operations self) →
  Decomposer.exclusive_domains self = [] →
  ∃ groups,
    create_exclusive_domains self = Ok (Decomposer.with_exclusive_domains groups self) ∧
    NoDup (dict_keys groups) ∧
    concat (snd <$> groups) ≡ₚ dict_keys (Decomposer.all_file_operations self) ∧
    grouped_by_first_operation (Decomposer.all_file_operations self) groups.
Proof.
  intros Hwf Hempty. unfold create_exclusive_domains.
  destruct (group_by_domain_ok _ Hwf) as (groups & -> & Hnd & Hperm & Hgrp).
  simpl. rewrite Hempty, (assign_domains_fresh groups []) by done. simpl.
  destruct (check_domain_files_ok groups) as (seen & ->).
  { rewrite Hperm. apply Hwf. }
  simpl. by exists groups.
Qed.

Lemma generate_deployment_plan_ok (self : Decomposer.t) (issue : LinearIssue.t)
    (agents : list Agent.t) :
  Decomposer.linear_issue self = Some issue →
  ∃ plan order,
    generate_deployment_plan self agents = Ok plan ∧
    calculate_merge_order agents = Ok order ∧
    yaml_get "integrationPlan" plan
    = Some (YDict
              [ ("mergeOrder", ystrs order);
                ("validationSteps",
                  ystrs [ "Validate exclusive file ownership";
                          "Run individual agent tests";
                          "Integration testing";
                          "Full system validation" ]) ]) ∧
    plan_agents plan = agent_to_dict <$> agents ∧
    yaml_has "integration_order" plan = false.
Proof.
  intros Hissue. unfold generate_deployment_plan, Decomposer.issue. rewrite Hissue.
  destruct (merge_loop_total agents []) as (order & Ho & _).
  unfold calculate_merge_order. rewrite Ho. simpl.
  eexists _, order. repeat split; reflexivity.
Qed.

(** The stages of a pattern-based run, one after the other: each returns,
    and the files stay partitioned on the way. *)
Lemma pattern_based_analysis_stages table so (self : Decomposer.t)
    (issue : LinearIssue.t) :
  Decomposer.linear_issue self = Some issue →
  well_formed_operations (Decomposer.all_file_operations self) →
  Decomposer.exclusive_domains self = [] →
  ∃ self1 self2 agents self3 plan,
    analyze_file_operations table self = Ok self1 ∧
    create_exclusive_domains (build_dependency_graph self1) = Ok self2 ∧
    generate_exclusive_agents so self2 = Ok (agents, self3) ∧
    validate_no_conflicts agents = Ok tt ∧
    generate_deployment_plan self3 agents = Ok plan ∧
    pattern_based_analysis table so self
    = Ok (plan, save_deployment_plan plan (LinearIssue.id issue) self3) ∧
    well_formed_operations (Decomposer.all_file_operations self3) ∧
    concat (snd <$> Decomposer.exclusive_domains self3)
    ≡ₚ dict_keys (Decomposer.all_file_operations self3) ∧
    grouped_by_first_operation (Decomposer.all_file_operations self3)
      (Decomposer.exclusive_domains self3) ∧
    Forall2
      (fun agent kv => Agent.files_to_create agent ++ Agent.files_to_modify agent ≡ₚ kv.2)
      agents (Decomposer.exclusive_domains self3) ∧
    Decomposer.linear_issue self3 = Some issue.
Proof.
  intros Hissue Hwf Hempty.
  pose (self1 := Decomposer.with_all_file_operations
                   (record_operations table (LinearIssue.requirements issue)
                      (Decomposer.all_file_operations self)) self).
  assert (H1 : analyze_file_operations table self = Ok self1).
  { unfold analyze_file_operations, Decomposer.issue. by rewrite Hissue. }
  assert (Hwf1 : well_formed_operations (Decomposer.all_file_operations self1))
    by (by apply record_operations_well_formed).
  destruct (create_exclusive_domains_ok (build_dependency_graph self1))
    as (groups & H2 & Hnd & Hperm & Hgrp); [exact Hwf1 | exact Hempty |].
  set (self2 := Decomposer.with_exclusive_domains groups (build_dependency_graph self1))
    in H2.
  destruct (generate_agents_from so (Decomposer.exclusive_domains self2) [] self2)
    as (agents & self3 & H3 & Hi3 & Ha3 & He3 & Hf2); [exact Hwf1 | |].
  { intros [domain files] f Hkv Hf. simpl in Hf.
    change (f ∈ dict_keys (Decomposer.all_file_operations self1)).
    rewrite <- Hperm. apply elem_of_concat. exists files. split; [|done].
    apply list_elem_of_fmap. by exists (domain, files). }
  simpl app in H3. fold (generate_exclusive_agents so self2) in H3.
  assert (Hfiles : NoDup (concat ((fun a => Agent.files_to_create a ++ Agent.files_to_modify a)
                                    <$> agents))).
  { rewrite (agent_files_permutation _ _ Hf2).
    change (NoDup (concat (snd <$> groups))). rewrite Hperm. apply Hwf1. }
  pose proof (validate_no_conflicts_ok agents Hfiles) as H4.
  assert (Hissue3 : Decomposer.linear_issue self3 = Some issue)
    by (rewrite Hi3; exact Hissue).
  destruct (generate_deployment_plan_ok self3 issue agents Hissue3)
    as (plan & order & H5 & _).
  exists self1, self2, agents, self3, plan.
  split; [exact H1|]. split; [exact H2|]. split; [exact H3|].
  split; [exact H4|]. split; [exact H5|]. split.
  { unfold pattern_based_analysis. rewrite H1. cbv beta iota zeta delta [res_bind].
    rewrite H2. cbv beta iota zeta delta [res_bind].
    rewrite H3. cbv beta iota zeta delta [res_bind].
    rewrite H4. cbv beta iota zeta delta [res_bind].
    rewrite H5. cbv beta iota zeta delta [res_bind].
    unfold Decomposer.issue. by rewrite Hissue3. }
  split; [rewrite Ha3; apply Hwf1|].
  split; [rewrite He3, Ha3; exact Hperm|].
  split; [rewrite He3, Ha3; exact Hgrp|].
  split; [rewrite He3; exact Hf2 | exact Hissue3].
Qed.

Lemma loaded_decomposer issue_id cache use_hybrid :
  ∃ issue,
    Decomposer.linear_issue (load_linear_issue issue_id cache (Decomposer.init use_hybrid))
    = Some issue ∧
    LinearIssue.requirements issue
    = match cache with
      | Some issue_data =>
          extract_requirements (default EmptyString (IssueData.description issue_data))
      | None => ["Implement " +:+ issue_id +:+ " functionality"]
      end.
Proof. destruct cache; by eexists. Qed.

(** ** The order of a set does not reach the plan *)

Lemma is_ready_same_schedule ordered a b :
  same_schedule a b → is_ready ordered a = is_ready ordered b.
Proof. intros [_ Hd]. unfold is_ready. by rewrite Hd. Qed.

Lemma filter_first_split (ordered : list string) (l : list Agent.t) a rest :
  filter (fun x => is_ready ordered x = true) l = a :: rest →
  ∃ l1 l2,
    l = l1 ++ a :: l2 ∧
    Forall (fun x => is_ready ordered x ≠ true) l1 ∧
    is_ready ordered a = true.
Proof.
  induction l as [|y l IH]; [done|].
  rewrite filter_cons. destruct (decide (is_ready ordered y = true)) as [Hy|Hy].
  - intros [= -> _]. by exists [], l.
  - intros Hf. destruct (IH Hf) as (l1 & l2 & -> & Hl1 & Ha).
    exists (y :: l1), l2. split; [done|]. split; [by constructor | done].
Qed.

Lemma filter_first_ready (ordered : list string) (l1 l2 : list Agent.t) a :
  Forall (fun x => is_ready ordered x ≠ true) l1 →
  is_ready ordered a = true →
  filter (fun x => is_ready ordered x = true) (l1 ++ a :: l2)
  = a :: filter (fun x => is_ready ordered x = true) l2.
Proof.
  intros Hl1 Ha. induction Hl1 as [|y l1 Hy _ IH]; simpl.
  - by rewrite filter_cons_True.
  - by rewrite filter_cons_False.
Qed.

Lemma filter_none_ready (ordered : list string) (l : list Agent.t) :
  filter (fun x => is_ready ordered x = true) l = [] ↔
  Forall (fun x => is_ready ordered x ≠ true) l.
Proof.
  induction l as [|y l IH]; [done|]. rewrite filter_cons, Forall_cons.
  destruct (decide (is_ready ordered y = true)); [naive_solver|].
  rewrite IH. tauto.
Qed.

Lemma list_remove_first_ready (ordered : list string) (l1 l2 : list Agent.t) a :
  Forall (fun x => is_ready ordered x ≠ true) l1 →
  is_ready ordered a = true →
  list_remove a (l1 ++ a :: l2) = Ok (l1 ++ l2).
Proof.
  intros Hl1 Ha. induction Hl1 as [|y l1 Hy _ IH]; simpl.
  - by rewrite decide_True.
  - rewrite decide_False by (intros ->; done). by rewrite IH.
Qed.

Lemma Forall_not_ready_same_schedule ordered (l l' : list Agent.t) :
  Forall2 same_schedule l l' →
  Forall (fun x => is_ready ordered x ≠ true) l →
  Forall (fun x => is_ready ordered x ≠ true) l'.
Proof.
  induction 1 as [|a b l l' Hab _ IH]; [done|].
  rewrite !Forall_cons. intros [Ha Hl]. split; [|by apply IH].
  by rewrite <- (is_ready_same_schedule ordered a b Hab).
Qed.

Lemma agent_ids_same_schedule (l l' : list Agent.t) :
  Forall2 same_schedule l l' → agent_ids l = agent_ids l'.
Proof.
  induction 1 as [|a b l l' [Hid _] _ IH]; [done|].
  unfold agent_ids in *. rewrite !fmap_cons. by rewrite Hid, IH.
Qed.

(** The merge order is a function of the ids and dependency lists alone. *)
Lemma merge_loop_same_schedule (l : list Agent.t) :
  ∀ l' ordered, Forall2 same_schedule l l' → merge_loop ordered l = merge_loop ordered l'.
Proof.
  induction l as [l IH] using (induction_ltof1 _ (@length _)).
  unfold ltof in IH. intros l' ordered Hll'.
  rewrite (merge_loop_step ordered l), (merge_loop_step ordered l').
  destruct (filter (fun x => is_ready ordered x = true) l) as [|a rest] eqn:Hf.
  - assert (Hf' : filter (fun x => is_ready ordered x = true) l' = []).
    { apply filter_none_ready, (Forall_not_ready_same_schedule ordered l l' Hll').
      by apply filter_none_ready. }
    rewrite Hf', (agent_ids_same_schedule l l' Hll').
    by destruct Hll'.
  - destruct (filter_first_split _ _ _ _ Hf) as (l1 & l2 & -> & Hl1 & Ha).
    apply Forall2_app_inv_l in Hll' as (l1' & r' & H1 & Hr & ->).
    apply Forall2_cons_inv_l in Hr as (a' & l2' & Haa' & H2 & ->).
    assert (Hl1' : Forall (fun x => is_ready ordered x ≠ true) l1')
      by (by apply (Forall_not_ready_same_schedule ordered l1 l1')).
    assert (Ha' : is_ready ordered a' = true)
      by (by rewrite <- (is_ready_same_schedule ordered a a' Haa')).
    rewrite (filter_first_ready ordered l1' l2' a' Hl1' Ha').
    rewrite (list_remove_first_ready ordered l1 l2 a Hl1 Ha).
    rewrite (list_remove_first_ready ordered l1' l2' a' Hl1' Ha').
    destruct Haa' as [Hid Hdeps]. rewrite <- Hid.
    assert (Hstep : merge_loop (ordered ++ [Agent.id a]) (l1 ++ l2)
                    = merge_loop (ordered ++ [Agent.id a]) (l1' ++ l2')).
    { apply IH; [rewrite !length_app; simpl; lia | by apply Forall2_app]. }
    rewrite Hstep. destruct l1, l1'; done.
Qed.

Lemma same_but_requirements_schedule (l l' : list Agent.t) :
  Forall2 same_but_requirements l l' → Forall2 same_schedule l l'.
Proof.
  induction 1 as [|a b l l' H _ IH]; constructor; [|done].
  split; apply H.
Qed.

Lemma agent_to_dict_same (l l' : list Agent.t) :
  Forall2 same_but_requirements l l' → agent_to_dict <$> l = agent_to_dict <$> l'.
Proof.
  induction 1 as [|a b l l' H _ IH]; [done|]. rewrite !fmap_cons, IH. f_equal.
  destruct H as (H1 & H2 & H3 & H4 & H5 & H6 & H7 & H8 & H9 & H10).
  unfold agent_to_dict. by rewrite H1, H2, H3, H4, H5, H6, H7, H8, H9, H10.
Qed.

Lemma file_ownership_same (l l' : list Agent.t) :
  Forall2 same_but_requirements l l' → file_ownership_of l = file_ownership_of l'.
Proof.
  intros Hrel. unfold file_ownership_of. generalize (∅ : gmap string string).
  induction Hrel as [|a b l l' H _ IH]; intros m; [done|]. simpl.
  destruct H as (H1 & _ & _ & _ & H5 & H6 & _).
  rewrite H1, H5, H6. destruct (res_fold _ m _); simpl; [apply IH | done].
Qed.

Lemma create_agent_set_order so1 so2 (self : Decomposer.t) domain files :
  match create_agent_for_domain so1 self domain files,
        create_agent_for_domain so2 self domain files with
  | Ok a1, Ok a2 => same_but_requirements a1 a2
  | Raise e1, Raise e2 => e1 = e2
  | _, _ => False
  end.
Proof.
  unfold create_agent_for_domain, get_requirements_for_domain.
  destruct (split_files _ files) as [[c m]|e]; simpl; [|done].
  destruct (collect_requirements _ domain) as [reqs|e]; simpl; [|done].
  repeat split.
Qed.

Lemma generate_agents_set_order so1 so2 (items : pydict (list string)) :
  ∀ agents1 agents2 self,
    Forall2 same_but_requirements agents1 agents2 →
    same_agents_result
      (res_fold
         (fun '(agents, self) '(domain, files) =>
            agent ←! create_agent_for_domain so1 self domain files;
            Ok (agents ++ [agent],
                Decomposer.with_agent_ownership
                  (dict_set (Agent.id agent) files (Decomposer.agent_ownership self))
                  self))
         (agents1, self) items)
      (res_fold
         (fun '(agents, self) '(domain, files) =>
            agent ←! create_agent_for_domain so2 self domain files;
            Ok (agents ++ [agent],
                Decomposer.with_agent_ownership
                  (dict_set (Agent.id agent) files (Decomposer.agent_ownership self))
                  self))
         (agents2, self) items).
Proof.
  induction items as [|[domain files] items IH]; intros agents1 agents2 self Hrel; simpl.
  - done.
  - pose proof (create_agent_set_order so1 so2 self domain files) as Hc.
    destruct (create_agent_for_domain so1 self domain files) as [a1|e1],
             (create_agent_for_domain so2 self domain files) as [a2|e2];
      simpl; try done.
    assert (Hid : Agent.id a1 = Agent.id a2) by apply Hc.
    rewrite Hid. apply IH. apply Forall2_app; [done|]. by constructor.
Qed.

(** The result of a pattern-based run does not depend on the order in which
    the process iterates over its sets. *)
Lemma pattern_based_analysis_set_order table so1 so2 (self : Decomposer.t) :
  pattern_based_analysis table so1 self = pattern_based_analysis table so2 self.
Proof.
  unfold pattern_based_analysis.
  destruct (analyze_file_operations table self) as [self1|e]; [|done].
  cbv beta iota zeta delta [res_bind].
  destruct (create_exclusive_domains (build_dependency_graph self1)) as [self2|e]; [|done].
  pose proof (generate_agents_set_order so1 so2 (Decomposer.exclusive_domains self2)
                [] [] self2 (Forall2_nil_2 _ _ _)) as Hgen.
  fold (generate_exclusive_agents so1 self2) in Hgen.
  fold (generate_exclusive_agents so2 self2) in Hgen.
  destruct (generate_exclusive_agents so1 self2) as [[agents1 s1]|e1],
           (generate_exclusive_agents so2 self2) as [[agents2 s2]|e2];
    simpl in Hgen; try done; [|by subst].
  destruct Hgen as [Hrel ->].
  unfold validate_no_conflicts. rewrite (file_ownership_same _ _ Hrel).
  destruct (file_ownership_of agents2); [|done].
  unfold generate_deployment_plan, calculate_merge_order.
  rewrite (agent_to_dict_same _ _ Hrel).
  rewrite (merge_loop_same_schedule agents1 agents2 []
             (same_but_requirements_schedule _ _ Hrel)).
  done.
Qed.

(** ** Claims about the pattern-based pipeline *)

(** C10. In a pattern-based run, whatever the rule table, no stage raises:
    the duplicate-path check of [create_exclusive_domains] passes and
    [validate_no_conflicts] accepts the agents. The keys of the merged
    file-operation map are distinct, each of them is in exactly one domain
    (the domains' lists, put together, are a rearrangement of the keys), and
    that domain is the one of the file's first operation. *)
Theorem ownership_conflicts_unreachable (table : list Pattern.t) (so : SetOrder)
    (issue_id : string) (cache : option IssueData.t) (use_hybrid : bool) :
  let self := load_linear_issue issue_id cache (Decomposer.init use_hybrid) in
  ∃ self1 self2 agents self3 plan self',
    analyze_file_operations table self = Ok self1 ∧
    create_exclusive_domains (build_dependency_graph self1) = Ok self2 ∧
    generate_exclusive_agents so self2 = Ok (agents, self3) ∧
    validate_no_conflicts agents = Ok tt ∧
    pattern_based_analysis table so self = Ok (plan, self') ∧
    NoDup (dict_keys (Decomposer.all_file_operations self3)) ∧
    concat (snd <$> Decomposer.exclusive_domains self3)
    ≡ₚ dict_keys (Decomposer.all_file_operations self3) ∧
    grouped_by_first_operation (Decomposer.all_file_operations self3)
      (Decomposer.exclusive_domains self3).
Proof.
  intros self.
  destruct (loaded_decomposer issue_id cache use_hybrid) as (issue & Hissue & _).
  destruct (pattern_based_analysis_stages table so self issue Hissue)
    as (self1 & self2 & agents & self3 & plan & H1 & H2 & H3 & H4 & _ & H6 & Hwf & Hp & Hg & _ & _).
  - subst self. destruct cache; split; simpl; constructor.
  - subst self. by destruct cache.
  - exists self1, self2, agents, self3, plan. eexists.
    repeat split; try done. apply Hwf.
Qed.

(** C9. Two pattern-based runs over the same issue text with the same rule
    table, in processes whose sets iterate in different orders, return the
    same plan document and leave the same decomposer state: the same
    domain-to-path assignment ([exclusive_domains]), the same ownership
    record, and the same [filesToCreate] and [filesToModify] for every
    agent of the plan. *)
Theorem decomposition_deterministic (table : list Pattern.t) (so1 so2 : SetOrder)
    (issue_id : string) (cache : option IssueData.t) (use_hybrid : bool) :
  let self := load_linear_issue issue_id cache (Decomposer.init use_hybrid) in
  ∃ plan self',
    pattern_based_analysis table so1 self = Ok (plan, self') ∧
    pattern_based_analysis table so2 self = Ok (plan, self').
Proof.
  intros self.
  destruct (loaded_decomposer issue_id cache use_hybrid) as (issue & Hissue & _).
  destruct (pattern_based_analysis_stages table so1 self issue Hissue)
    as (_ & _ & _ & self3 & plan & _ & _ & _ & _ & _ & H6 & _ & _).
  - subst self. destruct cache; split; simpl; constructor.
  - subst self. by destruct cache.
  - eexists plan, _. split; [exact H6|].
    by rewrite <- (pattern_based_analysis_set_order table so1 so2).
Qed.

(** ** Witnesses for the scheduler claims *)

(** A graph is acyclic when a rank goes down along every dependency. *)
Lemma ranked_acyclic (agents : list Agent.t) (rank : string → nat) :
  Forall (fun a => Forall (fun d => rank d < rank (Agent.id a)) (Agent.dependencies a))
    agents →
  acyclic agents.
Proof.
  intros Hrank x Hx.
  assert (Hlt : ∀ u v, tc (depends_on agents) u v → rank v < rank u).
  { induction 1 as [u v (a & Ha & <- & Hd)|u v t (a & Ha & <- & Hd) _ IH].
    - rewrite Forall_forall in Hrank. specialize (Hrank a Ha).
      rewrite Forall_forall in Hrank. by apply Hrank.
    - rewrite Forall_forall in Hrank. specialize (Hrank a Ha).
      rewrite Forall_forall in Hrank. specialize (Hrank v Hd). lia. }
  specialize (Hlt x x Hx). lia.
Qed.

Lemma resolvable_Forall (agents : list Agent.t) :
  Forall (fun a => Forall (fun d => d ∈ agent_ids agents) (Agent.dependencies a)) agents →
  resolvable agents.
Proof.
  intros H a d Ha Hd. rewrite Forall_forall in H. specialize (H a Ha).
  rewrite Forall_forall in H. by apply H.
Qed.

Lemma merge_order_respects_dependencies_witness :
  ∃ order,
    calculate_merge_order
      [example_agent "ui" ["auth"; "data"]; example_agent "auth" ["data"];
       example_agent "data" []] = Ok order ∧
    order ≡ₚ ["ui"; "auth"; "data"] ∧
    ∀ a, a ∈ [example_agent "ui" ["auth"; "data"]; example_agent "auth" ["data"];
              example_agent "data" []] →
         placed_after_dependencies order a.
Proof.
  apply (merge_order_respects_dependencies
           [example_agent "ui" ["auth"; "data"]; example_agent "auth" ["data"];
            example_agent "data" []]).
  - apply (ranked_acyclic _ (fun s => if decide (s = "ui") then 2
                                      else if decide (s = "auth") then 1 else 0)).
    repeat constructor.
  - apply resolvable_Forall. repeat constructor; apply bool_decide_unpack; reflexivity.
Defined.

Lemma merge_order_total_with_fallback_witness :
  calculate_merge_order fallback_example = Ok ["auth"; "ui"; "backend"] ∧
  [example_agent "backend" ["data"]] `sublist_of` fallback_example.
Proof.
  destruct (merge_order_total_with_fallback fallback_example) as [_ Hfallback].
  apply (Hfallback ["auth"; "ui"] [example_agent "backend" ["data"]]).
  - apply (reaches_turn fallback_example ["auth"]
             [example_agent "backend" ["data"]; example_agent "ui" ["auth"]]
             (example_agent "ui" ["auth"]) [] [example_agent "backend" ["data"]]);
      [|reflexivity|reflexivity].
    apply (reaches_turn fallback_example [] fallback_example
             (example_agent "auth" []) []
             [example_agent "backend" ["data"]; example_agent "ui" ["auth"]]);
      [|reflexivity|reflexivity].
    apply reaches_start.
  - discriminate.
  - reflexivity.
Defined.

(** ** The scenario of the two numbered requirements *)

(** C8, as the code has it. The text gives two requirements; the second
    one contains the word "validation", a keyword of the forms rule, so the
    run has three domains, [auth], [forms] and [backend], of four files
    each. The validator passes: the plan names no file twice, and
    [validate_no_conflicts] accepts its agents. The scheduler places
    [auth_agent] and [forms_agent]; then only [backend_agent] remains,
    its dependency [data_agent] is absent from the run, nothing is ready, and
    the fall-back appends it: the merge order is
    [auth_agent, forms_agent, backend_agent]. *)
Theorem scenario_three_domains (so : SetOrder) (issue_id : string)
    (identifier title : option string) (use_hybrid : bool) :
  let self :=
    load_linear_issue issue_id
      (Some (IssueData.mk identifier title (Some scenario_text)))
      (Decomposer.init use_hybrid) in
  ∃ plan self',
    pattern_based_analysis patterns so self = Ok (plan, self') ∧
    Decomposer.exclusive_domains self'
    = [ ("auth", ["lib/auth/authentication.ts"; "lib/auth/token-manager.ts";
                  "middleware/auth.ts"; "types/auth.ts"]);
        ("forms", ["components/forms/DynamicForm.tsx"; "lib/form-validation.ts";
                   "hooks/useFormState.ts"; "types/form.ts"]);
        ("backend", ["pages/api/[...slug].ts"; "lib/api/client.ts";
                     "lib/api/handlers.ts"; "types/api.ts"]) ] ∧
    NoDup (concat (plan_agent_files <$> plan_agents plan)) ∧
    plan_schedule plan
    = [scenario_auth_agent; scenario_forms_agent; scenario_backend_agent] ∧
    validate_no_conflicts (plan_schedule plan) = Ok tt ∧
    loop_reaches (plan_schedule plan) ["auth_agent"; "forms_agent"]
      [scenario_backend_agent] ∧
    filter (fun x => is_ready ["auth_agent"; "forms_agent"] x = true)
      [scenario_backend_agent] = [] ∧
    calculate_merge_order (plan_schedule plan)
    = Ok ["auth_agent"; "forms_agent"; "backend_agent"] ∧
    (yaml_get "integrationPlan" plan ≫= yaml_get "mergeOrder")
    = Some (ystrs ["auth_agent"; "forms_agent"; "backend_agent"]).
Proof.
  intros self. rewrite (pattern_based_analysis_set_order patterns so first_seen_order).
  eexists _, _. split; [vm_compute; reflexivity|].
  split; [reflexivity|].
  split; [apply (bool_decide_unpack _); vm_compute; exact I|].
  match goal with
  | |- context [plan_schedule ?p] =>
      assert (Hs : plan_schedule p
                   = [scenario_auth_agent; scenario_forms_agent; scenario_backend_agent])
        by (vm_compute; reflexivity);
      rewrite !Hs; clear Hs
  end.
  split; [reflexivity|].
  split; [vm_compute; reflexivity|].
  split.
  { apply (reaches_turn _ ["auth_agent"]
             [scenario_forms_agent; scenario_backend_agent]
             scenario_forms_agent [] [scenario_backend_agent]);
      [|reflexivity|reflexivity].
    apply (reaches_turn _ []
             [scenario_auth_agent; scenario_forms_agent; scenario_backend_agent]
             scenario_auth_agent [] [scenario_forms_agent; scenario_backend_agent]);
      [|reflexivity|reflexivity].
    apply reaches_start. }
  split; [reflexivity|].
  split; vm_compute; reflexivity.
Qed.

(** The statement of C8 with exactly two domains, [auth] and [backend],
    fails on the scenario. *)
Lemma scenario_two_domains_counterexample :
  ¬ ∃ plan self',
      pattern_based_analysis patterns first_seen_order scenario_decomposer
      = Ok (plan, self') ∧
      dict_keys (Decomposer.exclusive_domains self') ≡ₚ ["auth"; "backend"].
Proof.
  intros (plan & self' & Hrun & Hdomains).
  assert (Hkeys : (dict_keys ∘ Decomposer.exclusive_domains ∘ snd
                   <$> Some (plan, self'))
                  = Some ["auth"; "forms"; "backend"]).
  { transitivity (match pattern_based_analysis patterns first_seen_order scenario_decomposer
                  with
                  | Ok r => Some (dict_keys (Decomposer.exclusive_domains r.2))
                  | Raise _ => None
                  end); [by rewrite Hrun | vm_compute; reflexivity]. }
  simpl in Hkeys. injection Hkeys as Hkeys. rewrite Hkeys in Hdomains.
  apply Permutation_length in Hdomains. discriminate.
Qed.

(** ** Exclusivity of the plans *)

Lemma yaml_strings_ystrs (l : list string) : yaml_strings (Some (ystrs l)) = l.
Proof.
  unfold yaml_strings, ystrs. induction l as [|s l IH]; [done|].
  cbn. f_equal. exact IH.
Qed.

Lemma plan_agent_files_agent (a : Agent.t) :
  plan_agent_files (agent_to_dict a) = Agent.files_to_create a ++ Agent.files_to_modify a.
Proof.
  unfold plan_agent_files.
  change (yaml_get "filesToCreate" (agent_to_dict a))
    with (Some (ystrs (Agent.files_to_create a))).
  change (yaml_get "filesToModify" (agent_to_dict a))
    with (Some (ystrs (Agent.files_to_modify a))).
  by rewrite !yaml_strings_ystrs.
Qed.

(** Every plan of the pattern-based path names each file for one agent
    only. *)
Lemma pattern_plan_exclusive (table : list Pattern.t) (so : SetOrder)
    (issue_id : string) (cache : option IssueData.t) (use_hybrid : bool) :
  ∃ plan self',
    pattern_based_analysis table so
      (load_linear_issue issue_id cache (Decomposer.init use_hybrid)) = Ok (plan, self') ∧
    NoDup (concat (plan_agent_files <$> plan_agents plan)).
Proof.
  destruct (loaded_decomposer issue_id cache use_hybrid) as (issue & Hissue & _).
  destruct (pattern_based_analysis_stages table so _ issue Hissue)
    as (_ & _ & agents & self3 & plan & _ & _ & _ & _ & H5 & H6 & Hwf & Hp & _ & Hf2 & Hi3).
  - destruct cache; split; simpl; constructor.
  - by destruct cache.
  - eexists plan, _. split; [exact H6|].
    destruct (generate_deployment_plan_ok self3 issue agents Hi3)
      as (plan' & _ & Hplan' & _ & _ & Hagents & _).
    rewrite H5 in Hplan'. injection Hplan' as <-. rewrite Hagents.
    rewrite <- list_fmap_compose.
    rewrite (list_fmap_ext (plan_agent_files ∘ agent_to_dict)
               (fun a => Agent.files_to_create a ++ Agent.files_to_modify a) agents)
      by (intros; apply plan_agent_files_agent).
    rewrite (agent_files_permutation _ _ Hf2), Hp. apply Hwf.
Qed.

(** ** The hybrid path *)

(** C1, at the failing input. With hybrid analysis on and the answer
    [overlapping_llm_result], [decompose] returns the converted plan: its
    strategy is [llm_hybrid], both of its agents list [src/app.ts] in
    [filesToCreate], and the validator of the pattern-based path, which the
    hybrid path never calls, would have refused these agents. *)
Theorem hybrid_plan_shares_a_file :
  ∃ plan self',
    decompose first_seen_order overlapping_env "ISSUE-1" (Decomposer.init true)
    = Ok (plan, self') ∧
    yaml_get "decompositionStrategy" plan = Some (YStr "llm_hybrid") ∧
    plan_agent_files <$> plan_agents plan = [["src/app.ts"]; ["src/app.ts"]] ∧
    ¬ NoDup (concat (plan_agent_files <$> plan_agents plan)) ∧
    validate_no_conflicts (llm_agent <$> LlmResult.agents overlapping_llm_result)
    = Raise (ValueError (OwnershipConflict "src/app.ts" "ui_agent" "api_agent")).
Proof.
  eexists _, _. split; [vm_compute; reflexivity|].
  split; [reflexivity|]. split; [reflexivity|]. split; [|vm_compute; reflexivity].
  intros Hnd. simpl in Hnd. apply NoDup_cons in Hnd as [Hin _].
  apply Hin. left.
Qed.

Lemma convert_llm_result_ok (self : Decomposer.t) (issue : LinearIssue.t)
    (llm_result : LlmResult.t) :
  Decomposer.linear_issue self = Some issue →
  ∃ plan,
    convert_llm_result_to_deployment_plan self llm_result = Ok plan ∧
    yaml_truthy plan = true ∧
    yaml_get "decompositionStrategy" plan = Some (YStr "llm_hybrid") ∧
    plan_agents plan = agent_to_dict <$> (llm_agent <$> LlmResult.agents llm_result) ∧
    yaml_has "integration_order" plan = false.
Proof.
  intros Hissue. unfold convert_llm_result_to_deployment_plan, Decomposer.issue.
  rewrite Hissue.
  destruct (merge_loop_total (llm_agent <$> LlmResult.agents llm_result) [])
    as (order & Ho & _).
  unfold calculate_merge_order. rewrite Ho. simpl.
  eexists. repeat split; reflexivity.
Qed.

Lemma pattern_plan_strategy (table : list Pattern.t) (so : SetOrder)
    (self : Decomposer.t) plan self' :
  pattern_based_analysis table so self = Ok (plan, self') →
  yaml_get "decompositionStrategy" plan = Some (YStr "exclusive_ownership") ∧
  yaml_has "integration_order" plan = false.
Proof.
  unfold pattern_based_analysis.
  destruct (analyze_file_operations table self) as [self1|]; [|done].
  cbv beta iota zeta delta [res_bind].
  destruct (create_exclusive_domains _) as [self2|]; [|done].
  destruct (generate_exclusive_agents so self2) as [[agents self3]|]; [|done].
  destruct (validate_no_conflicts agents); [|done].
  unfold generate_deployment_plan.
  destruct (Decomposer.issue self3) as [issue|]; [|done].
  cbv beta iota zeta delta [res_bind].
  destruct (calculate_merge_order agents) as [order|]; [|done].
  intros [= <- _]. split; reflexivity.
Qed.

(** *** Reading the answer *)

Lemma read_strs_typed (v : yaml) :
  is_strs v = true → ∃ l, v = ystrs l ∧ read_strs v = Ok l.
Proof.
  destruct v as [| | | | |items|]; try done. cbn [is_strs read_strs].
  induction items as [|item items IH]; [by exists []|].
  cbn [forallb]. intros [Hitem Hitems]%andb_true_iff.
  destruct item; try done. destruct (IH Hitems) as (l & Hl & Hread).
  exists (s :: l). split.
  - unfold ystrs in *. cbn [fmap list_fmap]. by injection Hl as ->.
  - cbn [res_map read_str res_bind]. by rewrite Hread.
Qed.

Lemma optional_strs_typed (key : string) (agent_data : yaml) :
  typed_field is_strs key agent_data = true →
  ∃ o, optional read_strs key agent_data = Ok o ∧
       yaml_strings (yaml_get key agent_data) = default [] o.
Proof.
  unfold typed_field, optional.
  destruct (yaml_get key agent_data) as [v|]; [|by exists None].
  intros Hv. destruct (read_strs_typed v Hv) as (l & -> & ->).
  exists (Some l). split; [done|]. apply yaml_strings_ystrs.
Qed.

Lemma required_str_typed (key : string) (agent_data : yaml) :
  typed_field is_str key agent_data = true →
  yaml_has key agent_data = true →
  ∃ s, (v ←! required key agent_data; read_str v) = Ok s ∧
       yaml_get key agent_data = Some (YStr s).
Proof.
  unfold typed_field. destruct agent_data as [| | | | | |entries]; try done.
  cbn [yaml_has yaml_get required]. intros Htyped Hhas.
  apply bool_decide_eq_true in Hhas.
  destruct (dict_get_is_Some _ _ Hhas) as [v Hv]. rewrite Hv in *.
  destruct v; try done. by eexists.
Qed.

Lemma required_missing (key : string) (agent_data : yaml) :
  yaml_has key agent_data = false → required key agent_data = Raise (KeyError key)
                                   ∨ required key agent_data = Raise TypeError.
Proof.
  destruct agent_data as [| | | | | |entries]; try (by right).
  cbn [yaml_has required]. intros Hhas. apply bool_decide_eq_false in Hhas.
  apply dict_get_None in Hhas. rewrite Hhas. by left.
Qed.

Lemma read_llm_agent_typed (agent_data : yaml) :
  typed_agent agent_data = true → complete_agent agent_data = true →
  ∃ a, read_llm_agent agent_data = Ok a ∧
       carries (agent_to_dict (llm_agent a)) agent_data.
Proof.
  unfold typed_agent, complete_agent.
  destruct agent_data as [| | | | | |entries]; try (by intros _).
  rewrite !andb_true_iff.
  intros ((((((Hid & Hrole) & Hfocus) & Hdeps) & Hcreate) & Hmodify) & Htime).
  intros ((Hhid & Hhrole) & Hhfocus).
  destruct (required_str_typed _ _ Hid Hhid) as (agent_id & Rid & Gid).
  destruct (required_str_typed _ _ Hrole Hhrole) as (agent_role & Rrole & Grole).
  destruct (required_str_typed _ _ Hfocus Hhfocus) as (focus_area & Rfocus & Gfocus).
  destruct (optional_strs_typed _ _ Hdeps) as (deps & Rdeps & Gdeps).
  destruct (optional_strs_typed _ _ Hcreate) as (create & Rcreate & Gcreate).
  destruct (optional_strs_typed _ _ Hmodify) as (modify & Rmodify & Gmodify).
  assert (Rtime : ∃ t, optional read_int "estimatedTime" (YDict entries) = Ok t).
  { unfold optional, typed_field in *.
    destruct (yaml_get "estimatedTime" (YDict entries)) as [v|]; [|by eexists].
    destruct v; try done. by eexists. }
  destruct Rtime as [time Rtime].
  unfold read_llm_agent. rewrite Rid. cbn [res_bind]. rewrite Rrole. cbn [res_bind].
  rewrite Rfocus. cbn [res_bind]. rewrite Rdeps, Rcreate, Rmodify, Rtime.
  cbn [res_bind]. eexists. split; [reflexivity|].
  unfold carries, llm_agent. cbv zeta.
  rewrite Gid, Grole, Gfocus, Gdeps, Gcreate, Gmodify.
  repeat split; try reflexivity; apply yaml_strings_ystrs.
Qed.

Lemma read_llm_agent_incomplete (agent_data : yaml) :
  complete_agent agent_data = false → ∃ e, read_llm_agent agent_data = Raise e.
Proof.
  unfold complete_agent, read_llm_agent. intros Hc.
  destruct (yaml_has "agentId" agent_data) eqn:Hid.
  2: { destruct (required_missing _ _ Hid) as [-> | ->]; by eexists. }
  destruct (v ←! required "agentId" agent_data; read_str v) as [agent_id|e];
    [|by exists e].
  cbn [res_bind].
  destruct (yaml_has "agentRole" agent_data) eqn:Hrole.
  2: { destruct (required_missing _ _ Hrole) as [-> | ->]; by eexists. }
  destruct (v ←! required "agentRole" agent_data; read_str v) as [agent_role|e];
    [|by exists e].
  cbn [res_bind]. cbn [andb] in Hc.
  destruct (required_missing _ _ Hc) as [-> | ->]; by eexists.
Qed.

Lemma read_llm_agents_typed (items : list yaml) :
  forallb typed_agent items = true →
  if forallb complete_agent items then
    ∃ agents, res_map read_llm_agent items = Ok agents ∧
              Forall2 carries (agent_to_dict <$> (llm_agent <$> agents)) items
  else ∃ e, res_map read_llm_agent items = Raise e.
Proof.
  induction items as [|item items IH]; [by exists []|].
  cbn [forallb res_map]. intros [Hitem Hitems]%andb_true_iff.
  specialize (IH Hitems).
  destruct (complete_agent item) eqn:Hc; cbn [andb].
  - destruct (read_llm_agent_typed item Hitem Hc) as (a & -> & Ha). cbn [res_bind].
    destruct (forallb complete_agent items).
    + destruct IH as (agents & -> & Hagents). exists (a :: agents).
      split; [done|]. by constructor.
    + destruct IH as (e & ->). by exists e.
  - destruct (read_llm_agent_incomplete item Hc) as (e & ->). by exists e.
Qed.

(** What [try_hybrid_analysis] does with a typed answer. *)
Lemma hybrid_plan_typed (self : Decomposer.t) (issue : LinearIssue.t)
    (llm_result : yaml) :
  Decomposer.linear_issue self = Some issue →
  typed_answer llm_result = true →
  if confident_answer llm_result && complete_answer llm_result then
    ∃ plan agents,
      hybrid_plan self llm_result = Ok (Some plan) ∧
      yaml_truthy plan = true ∧
      yaml_get "decompositionStrategy" plan = Some (YStr "llm_hybrid") ∧
      yaml_get "agents" llm_result = Some (YList agents) ∧
      Forall2 carries (plan_agents plan) agents ∧
      (yaml_get "llmAnalysis" plan ≫= yaml_get "confidence")
      = yaml_get "confidence" llm_result
  else hybrid_plan self llm_result = Ok None ∨ ∃ e, hybrid_plan self llm_result = Raise e.
Proof.
  intros Hissue. unfold typed_answer, confident_answer, complete_answer, hybrid_plan.
  destruct llm_result as [| | | | | |entries]; try (intros _; right; by eexists).
  unfold typed_field. intros Hagents.
  cbn [required yaml_get] in *.
  destruct (dict_get "confidence" entries) as [confidence|] eqn:Gconf;
    [|right; by eexists].
  cbn [res_bind].
  assert (Hthreshold :
    at_least_threshold confidence
    = Ok match confidence with
         | YFloat x => PrimFloat.leb 0.8%float x
         | YInt n => bool_decide (1 ≤ n)%Z
         | YBool b => b
         | _ => false
         end
    ∨ ∃ e, at_least_threshold confidence = Raise e
           ∧ match confidence with YFloat _ | YInt _ | YBool _ => False | _ => True end).
  { destruct confidence as [|b|n|x| | |]; try (right; by eexists); left; try done.
    cbn [at_least_threshold]. f_equal.
    destruct (Z.leb_spec 1 n);
      [by rewrite bool_decide_eq_true_2|by rewrite bool_decide_eq_false_2 by lia]. }
  destruct Hthreshold as [-> | (e & -> & Hkind)].
  2: { destruct confidence; try done; right; by eexists. }
  cbn [res_bind].
  destruct (match confidence with
            | YFloat x => PrimFloat.leb 0.8 x
            | YInt n => bool_decide (1 ≤ n)%Z
            | YBool b => b
            | _ => false
            end) eqn:Habove.
  2: { destruct confidence; cbn [andb]; by left. }
  replace (match confidence with
           | YFloat x => PrimFloat.leb 0.8 x
           | YInt n => bool_decide (1 ≤ n)%Z
           | YBool b => b
           | _ => false
           end) with true in * by (destruct confidence; done).
  cbn [andb].
  unfold read_llm_result. cbn [required yaml_get]. rewrite Gconf.
  cbn [res_bind].
  destruct (dict_get "agents" entries) as [agents|] eqn:Gagents;
    [|right; by eexists].
  destruct agents as [| | | | |items|]; try done. cbn [res_bind].
  pose proof (read_llm_agents_typed items Hagents) as Hread.
  destruct (forallb complete_agent items).
  2: { destruct Hread as (e & ->). right. by exists e. }
  destruct Hread as (agents & -> & Hcarries). cbn [res_bind]. cbv zeta.
  destruct (convert_llm_result_ok self issue
              (LlmResult.mk confidence agents
                 (default YNull (dict_get "projectType" entries))
                 (default YNull (dict_get "reasoning" entries))
                 (default YNull (dict_get "parallelizationStrategy" entries))) Hissue)
    as (plan & Hplan & Htruthy & Hstrat & Hplan_agents & _).
  rewrite Hplan. cbn [res_bind]. exists plan, items.
  split; [done|]. split; [done|]. split; [done|]. split; [done|].
  split; [by rewrite Hplan_agents|].
  unfold convert_llm_result_to_deployment_plan, Decomposer.issue in Hplan.
  rewrite Hissue in Hplan. cbn [res_bind] in Hplan.
  destruct (calculate_merge_order _); [|done]. cbn [res_bind] in Hplan.
  injection Hplan as <-. reflexivity.
Qed.

(** C6, as the code has it. With hybrid analysis on and an answer from the
    analyzer whose agents have values of the expected types under their
    keys, [decompose] returns the analyzer's plan exactly when the
    confidence is a number that is at least 0.8 and the answer can be
    converted, that is, it has its [agents] and every agent has [agentId],
    [agentRole] and [focusArea]. The plan returned then
    has the strategy [llm_hybrid], its agents carry the ids, roles, focus
    areas, dependencies and files of the answer, agent by agent, and its
    analysis the confidence of the answer; the decomposer is left as it was
    after loading the issue: no file operation was analysed, no domain made
    and no plan written. In every other case, a confidence below 0.8 or an
    answer that cannot be converted, [decompose] does what the pattern-based
    pipeline does, and a plan it returns has the strategy
    [exclusive_ownership]. *)
Theorem hybrid_used_iff_confident (table : list Pattern.t) (so : SetOrder)
    (env : DecomposeEnv.t) (issue_id : string)
    (llm_decompose : string → ProjectContext.t → option yaml)
    (llm_result : yaml) :
  let self := load_linear_issue issue_id (DecomposeEnv.cache env) (Decomposer.init true) in
  DecomposeEnv.llm_decomposer env = Some llm_decompose →
  (∀ issue, Decomposer.linear_issue self = Some issue →
            llm_decompose (hybrid_description issue) (DecomposeEnv.project_context env)
            = Some llm_result) →
  typed_answer llm_result = true →
  (confident_answer llm_result && complete_answer llm_result = true →
     ∃ plan agents,
       decompose_with table so env issue_id (Decomposer.init true) = Ok (plan, self) ∧
       yaml_get "decompositionStrategy" plan = Some (YStr "llm_hybrid") ∧
       yaml_get "agents" llm_result = Some (YList agents) ∧
       Forall2 carries (plan_agents plan) agents ∧
       (yaml_get "llmAnalysis" plan ≫= yaml_get "confidence")
       = yaml_get "confidence" llm_result ∧
       Decomposer.all_file_operations self = [] ∧
       Decomposer.exclusive_domains self = [] ∧
       Decomposer.deployment_plans self = []) ∧
  (confident_answer llm_result && complete_answer llm_result = false →
     decompose_with table so env issue_id (Decomposer.init true)
     = pattern_based_analysis table so self ∧
     ∀ plan self',
       pattern_based_analysis table so self = Ok (plan, self') →
       yaml_get "decompositionStrategy" plan = Some (YStr "exclusive_ownership")).
Proof.
  intros self Hllm Hanswer Htyped.
  destruct (loaded_decomposer issue_id (DecomposeEnv.cache env) true)
    as (issue & Hissue & _).
  fold self in Hissue. specialize (Hanswer issue Hissue).
  assert (Hflag : Decomposer.use_hybrid_analysis self = true)
    by (subst self; by destruct (DecomposeEnv.cache env)).
  assert (Hrun :
    decompose_with table so env issue_id (Decomposer.init true)
    = match hybrid_plan self llm_result with
      | Ok (Some hybrid_result) =>
          if yaml_truthy hybrid_result then Ok (hybrid_result, self)
          else pattern_based_analysis table so self
      | _ => pattern_based_analysis table so self
      end).
  { unfold decompose_with. fold self. rewrite Hflag.
    unfold try_hybrid_analysis, Decomposer.issue. rewrite Hllm, Hissue, Hanswer.
    by destruct (hybrid_plan self llm_result) as [[?|]|]. }
  pose proof (hybrid_plan_typed self issue llm_result Hissue Htyped) as Hplan.
  split.
  - intros Hused. rewrite Hused in Hplan.
    destruct Hplan as (plan & agents & Hp & Htruthy & Hstrategy & Hagents & Hcarries & Hconf).
    exists plan, agents. rewrite Hrun, Hp, Htruthy.
    split; [done|]. split; [done|]. split; [done|]. split; [done|]. split; [done|].
    subst self. by destruct (DecomposeEnv.cache env).
  - intros Hnot. rewrite Hnot in Hplan. split.
    + rewrite Hrun. by destruct Hplan as [-> | [e ->]].
    + intros plan self' Hpattern.
      by destruct (pattern_plan_strategy table so self plan self' Hpattern).
Qed.

Lemma hybrid_used_iff_confident_witness :
  ∃ plan agents,
    decompose_with patterns first_seen_order overlapping_env "ISSUE-1"
      (Decomposer.init true)
    = Ok (plan,
          load_linear_issue "ISSUE-1" (DecomposeEnv.cache overlapping_env)
            (Decomposer.init true)) ∧
    yaml_get "decompositionStrategy" plan = Some (YStr "llm_hybrid") ∧
    yaml_get "agents" overlapping_answer = Some (YList agents) ∧
    Forall2 carries (plan_agents plan) agents ∧
    (yaml_get "llmAnalysis" plan ≫= yaml_get "confidence")
    = yaml_get "confidence" overlapping_answer ∧
    Decomposer.all_file_operations
      (load_linear_issue "ISSUE-1" (DecomposeEnv.cache overlapping_env)
         (Decomposer.init true)) = [] ∧
    Decomposer.exclusive_domains
      (load_linear_issue "ISSUE-1" (DecomposeEnv.cache overlapping_env)
         (Decomposer.init true)) = [] ∧
    Decomposer.deployment_plans
      (load_linear_issue "ISSUE-1" (DecomposeEnv.cache overlapping_env)
         (Decomposer.init true)) = [].
Proof.
  destruct (hybrid_used_iff_confident patterns first_seen_order overlapping_env "ISSUE-1"
              (fun _ _ => Some overlapping_answer) overlapping_answer) as [Hused _].
  - reflexivity.
  - intros issue _. reflexivity.
  - vm_compute. reflexivity.
  - apply Hused. vm_compute. reflexivity.
Defined.

(** C6, as the claim has it, fails: the analyzer answers with confidence
    0.95, but the only agent of its answer has no [agentRole]. The
    conversion raises [KeyError], [try_hybrid_analysis] catches it, and
    [decompose] returns the plan of the pattern-based pipeline, in which
    the agent of the answer does not appear. *)
Lemma confident_answer_not_used_counterexample :
  ∃ plan self',
    yaml_get "confidence" incomplete_answer = Some (YFloat 0.95%float) ∧
    PrimFloat.leb 0.8%float 0.95%float = true ∧
    read_llm_result incomplete_answer = Raise (KeyError "agentRole") ∧
    decompose first_seen_order incomplete_env "ISSUE-1" (Decomposer.init true)
    = Ok (plan, self') ∧
    pattern_based_analysis patterns first_seen_order
      (load_linear_issue "ISSUE-1" (DecomposeEnv.cache incomplete_env)
         (Decomposer.init true))
    = Ok (plan, self') ∧
    yaml_get "decompositionStrategy" plan = Some (YStr "exclusive_ownership") ∧
    plan_agents plan = [].
Proof.
  eexists _, _. split; [reflexivity|]. split; [vm_compute; reflexivity|].
  split; [vm_compute; reflexivity|]. split; [vm_compute; reflexivity|].
  split; [vm_compute; reflexivity|]. split; reflexivity.
Qed.

(** ** [canStartImmediately] *)

Lemma set_to_list_nil (so : SetOrder) (l : list string) :
  set_to_list so l = [] ↔ l = [].
Proof.
  split.
  - intros Hnil. destruct l as [|x l]; [done|].
    assert (Hx : x ∈ set_to_list so (x :: l)) by (apply set_to_list_elem; left).
    rewrite Hnil in Hx. by apply elem_of_nil in Hx.
  - intros ->. destruct (set_to_list so []) as [|x l] eqn:E; [done|].
    assert (Hx : x ∈ set_to_list so []) by (rewrite E; left).
    apply set_to_list_elem in Hx. by apply elem_of_nil in Hx.
Qed.

Lemma sum_lists_from (field : PlanAgent.t → option (list string))
    (agent_data : list PlanAgent.t) (acc : list string) :
  fold_left (fun acc a => acc ++ default [] (field a)) agent_data acc
  = acc ++ concat ((fun a => default [] (field a)) <$> agent_data).
Proof.
  revert acc. induction agent_data as [|a agent_data IH]; intros acc.
  - simpl. by rewrite app_nil_r.
  - rewrite fmap_cons. simpl. by rewrite IH, app_assoc.
Qed.

Lemma sum_lists_nil (field : PlanAgent.t → option (list string))
    (agent_data : list PlanAgent.t) :
  sum_lists field agent_data = [] ↔
  forallb (fun a => (length (default [] (field a)) =? 0)%nat) agent_data = true.
Proof.
  unfold sum_lists. rewrite sum_lists_from. simpl.
  induction agent_data as [|a agent_data IH]; [done|].
  rewrite fmap_cons. simpl.
  rewrite andb_true_iff, <- IH, Nat.eqb_eq, length_zero_iff_nil.
  split.
  - intros H. by apply app_eq_nil in H.
  - intros [-> ->]. done.
Qed.

(** C7. [canStartImmediately] is true exactly when [dependencies] is empty,
    in each of the three places where an agent record is made: the agent
    synthesized for a domain, the agent converted from the analyzer's answer,
    and the agent context written at spawn time. *)
Theorem can_start_iff_no_dependencies :
  (∀ (so : SetOrder) (self : Decomposer.t) (domain : string) (files : list string)
     (agent : Agent.t),
     create_agent_for_domain so self domain files = Ok agent →
     (Agent.can_start_immediately agent = true ↔ Agent.dependencies agent = [])) ∧
  (∀ agent_data : LlmAgent.t,
     Agent.can_start_immediately (llm_agent agent_data) = true
     ↔ Agent.dependencies (llm_agent agent_data) = []) ∧
  (∀ (so : SetOrder) (now : string) (plan : Plan.t)
     (agent_id branch_name worktree_path : string),
     AgentContext.canStartImmediately
       (create_agent_context so now plan agent_id branch_name worktree_path) = true
     ↔ AgentContext.dependencies
         (create_agent_context so now plan agent_id branch_name worktree_path) = []).
Proof.
  split; [|split].
  - intros so self domain files agent. unfold create_agent_for_domain.
    destruct (split_files _ files) as [[c m]|]; simpl; [|done].
    destruct (get_requirements_for_domain so self domain); simpl; [|done].
    intros [= <-]. simpl. apply bool_decide_eq_true.
  - intros agent_data. simpl. apply bool_decide_eq_true.
  - intros so now plan agent_id branch_name worktree_path. simpl.
    by rewrite set_to_list_nil, sum_lists_nil.
Qed.

Lemma can_start_iff_no_dependencies_witness :
  Agent.can_start_immediately
    (Agent.mk "forms_agent" "Form Components & Validation" "Forms" ["auth_agent"]
       [] [] [] (generate_validation_criteria "forms" []) 25 [] false) = true
  ↔ Agent.dependencies
      (Agent.mk "forms_agent" "Form Components & Validation" "Forms" ["auth_agent"]
         [] [] [] (generate_validation_criteria "forms" []) 25 [] false) = [].
Proof.
  destruct can_start_iff_no_dependencies as [Hdomain _].
  apply (Hdomain first_seen_order (Decomposer.init false) "forms" []).
  reflexivity.
Defined.

(** ** The integration pipeline *)

(** One step of a computation at a time. *)
Lemma io_bind_observe {A B : Type} (f : list event → A) (k : A → io B) (h : list event) :
  io_bind (observe f) k h = k (f h) h.
Proof. reflexivity. Qed.

Lemma io_bind_ret {A B : Type} (x : A) (k : A → io B) (h : list event) :
  io_bind (io_ret x) k h = k x h.
Proof. reflexivity. Qed.

Lemma io_bind_emit {B : Type} (e : event) (k : unit → io B) (h : list event) :
  io_bind (emit e) k h = k tt (h ++ [e]).
Proof. reflexivity. Qed.

Lemma io_bind_returns {A B : Type} (m : io A) (k : A → io B) (h h' : list event) (x : A) :
  m h = (Return x, h') → io_bind m k h = k x h'.
Proof. intros H. unfold io_bind. by rewrite H. Qed.

Lemma io_bind_run {B : Type} (w : World.t) (cmd : list string) (check : bool)
    (k : Z → io B) (h : list event) :
  io_bind (run_command w cmd check) k h
  = if check && negb (World.returncode w h cmd =? 0)%Z
    then (Uncaught "CalledProcessError", h ++ [Run cmd])
    else k (World.returncode w h cmd) (h ++ [Run cmd]).
Proof.
  unfold io_bind, run_command.
  by destruct (check && negb (World.returncode w h cmd =? 0)%Z).
Qed.

Lemma copies_from_app (workspace_dir : string) (a b : list event) :
  copies_from workspace_dir a → copies_from workspace_dir b →
  copies_from workspace_dir (a ++ b).
Proof. apply Forall_app_2. Qed.

Lemma copy_file_copies (w : World.t) (workspace_dir line : string) (h : list event) :
  ∃ copies,
    copy_file w workspace_dir line h = (Return tt, h ++ copies) ∧
    copies_from workspace_dir copies.
Proof.
  unfold copy_file. cbv zeta. destruct (bool_decide (strip line = EmptyString)).
  - exists []. split; [unfold io_ret; by rewrite app_nil_r | constructor].
  - destruct (World.path_exists w h
                (path_join workspace_dir
                   (str_replace "MODIFY: " EmptyString
                      (str_replace "CREATE: " EmptyString (strip line))))) eqn:Hpresent.
    + eexists [_]. split; [rewrite io_bind_observe, Hpresent; reflexivity|].
      repeat constructor. by eexists.
    + exists []. split; [|constructor].
      rewrite io_bind_observe, Hpresent. unfold io_ret. by rewrite app_nil_r.
Qed.

Lemma copy_files_copies (w : World.t) (workspace_dir : string) (lines : list string) :
  ∀ h, ∃ copies,
    copy_files w workspace_dir lines h = (Return tt, h ++ copies) ∧
    copies_from workspace_dir copies.
Proof.
  unfold copy_files. induction lines as [|line lines IH]; intros h; simpl.
  - exists []. split; [unfold io_ret; by rewrite app_nil_r | constructor].
  - destruct (copy_file_copies w workspace_dir line h) as (c1 & H1 & Hc1).
    destruct (IH (h ++ c1)) as (c2 & H2 & Hc2).
    exists (c1 ++ c2). split; [|by apply copies_from_app].
    rewrite (io_bind_returns _ _ _ _ _ H1), H2. by rewrite app_assoc.
Qed.

Ltac io_simpl := cbv beta iota zeta delta [negb andb].

Lemma integrate_agent_outcome (w : World.t) (agent workspace_dir : string)
    (h : list event) :
  agent_outcome w agent workspace_dir h
    (integrate_agent w agent workspace_dir h).1
    (integrate_agent w agent workspace_dir h).2.
Proof.
  unfold integrate_agent. rewrite io_bind_observe.
  destruct (World.path_exists w h workspace_dir) eqn:Hws; io_simpl;
    [|by apply agent_skipped].
  rewrite io_bind_observe. io_simpl.
  assert (Hcopy : ∃ copies,
    (if World.path_exists w h (path_join workspace_dir "files_to_work_on.txt")
     then lines ←$ observe (fun h0 => World.read_lines w h0
                                        (path_join workspace_dir "files_to_work_on.txt"));
          copy_files w workspace_dir lines
     else io_ret tt) h = (Return tt, h ++ copies) ∧ copies_from workspace_dir copies).
  { destruct (World.path_exists w h (path_join workspace_dir "files_to_work_on.txt")).
    - destruct (copy_files_copies w workspace_dir
                  (World.read_lines w h (path_join workspace_dir "files_to_work_on.txt")) h)
        as (copies & Hc & Hcc).
      exists copies. split; [|done]. io_simpl. rewrite io_bind_observe. exact Hc.
    - exists []. split; [unfold io_ret; by rewrite app_nil_r | constructor]. }
  destruct Hcopy as (copies & Hcopy & Hcopies).
  rewrite (io_bind_returns _ _ _ _ _ Hcopy). clear Hcopy.
  unfold check_command_exists. rewrite io_bind_observe. io_simpl.
  assert (Hgate : ∀ cmd, cmd ∈ test_commands →
    agent_outcome w agent workspace_dir h
      ((rc ←$ run_command w cmd false;
        if negb (rc =? 0)%Z then io_ret false else
        _ ←$ run_command w ["git"; "add"; "-A"] true;
        listed' ←$ observe (fun h0 => World.path_exists w h0
                              (path_join workspace_dir "files_to_work_on.txt"));
        files_list ←$
          (if listed' then
             lines ←$ observe (fun h0 => World.read_lines w h0
                                 (path_join workspace_dir "files_to_work_on.txt"));
             io_ret (filter (fun l => l ≠ EmptyString) (strip <$> lines))
           else io_ret []);
        _ ←$ run_command w ["git"; "commit"; "-m"; commit_message agent files_list] true;
        io_ret true) (h ++ copies)).1
      ((rc ←$ run_command w cmd false;
        if negb (rc =? 0)%Z then io_ret false else
        _ ←$ run_command w ["git"; "add"; "-A"] true;
        listed' ←$ observe (fun h0 => World.path_exists w h0
                              (path_join workspace_dir "files_to_work_on.txt"));
        files_list ←$
          (if listed' then
             lines ←$ observe (fun h0 => World.read_lines w h0
                                 (path_join workspace_dir "files_to_work_on.txt"));
             io_ret (filter (fun l => l ≠ EmptyString) (strip <$> lines))
           else io_ret []);
        _ ←$ run_command w ["git"; "commit"; "-m"; commit_message agent files_list] true;
        io_ret true) (h ++ copies)).2).
  { intros cmd Hcmd. rewrite io_bind_run. io_simpl.
    destruct (World.returncode w (h ++ copies) cmd =? 0)%Z eqn:Hrc; io_simpl.
    - apply Z.eqb_eq in Hrc. rewrite io_bind_run. io_simpl.
      destruct (World.returncode w ((h ++ copies) ++ [Run cmd]) ["git"; "add"; "-A"] =? 0)%Z
        eqn:Hadd; io_simpl.
      + rewrite io_bind_observe.
        assert (Hlist : ∃ files_list,
          ∀ B (k : list string → io B),
            io_bind
              (if World.path_exists w (((h ++ copies) ++ [Run cmd]) ++ [Run ["git"; "add"; "-A"]])
                    (path_join workspace_dir "files_to_work_on.txt")
               then lines ←$ observe (fun h0 => World.read_lines w h0
                                        (path_join workspace_dir "files_to_work_on.txt"));
                    io_ret (filter (fun l => l ≠ EmptyString) (strip <$> lines))
               else io_ret []) k
              (((h ++ copies) ++ [Run cmd]) ++ [Run ["git"; "add"; "-A"]])
            = k files_list (((h ++ copies) ++ [Run cmd]) ++ [Run ["git"; "add"; "-A"]])).
        { destruct (World.path_exists w
                      (((h ++ copies) ++ [Run cmd]) ++ [Run ["git"; "add"; "-A"]])
                      (path_join workspace_dir "files_to_work_on.txt"));
            eexists; intros B k; reflexivity. }
        destruct Hlist as (files_list & Hlist). rewrite Hlist. clear Hlist.
        rewrite io_bind_run. io_simpl.
        destruct (World.returncode w _ ["git"; "commit"; "-m"; _] =? 0)%Z eqn:Hcommit;
          io_simpl; simpl fst; simpl snd.
        * rewrite <- !app_assoc. simpl app. by apply agent_committed.
        * rewrite <- !app_assoc. simpl app.
          apply agent_commit_failed; [done | done |].
          apply Z.eqb_neq in Hcommit. by rewrite <- !app_assoc in Hcommit.
      + simpl fst; simpl snd. rewrite <- !app_assoc. simpl app.
        apply agent_add_failed; [done | done |].
        apply Z.eqb_neq in Hadd. by rewrite <- !app_assoc in Hadd.
    - simpl fst; simpl snd. rewrite <- app_assoc.
      apply agent_test_failed; [done | done | by apply Z.eqb_neq]. }
  destruct (World.command_exists w (h ++ copies) "pnpm") eqn:Hpnpm.
  - rewrite io_bind_ret. io_simpl.
    apply Hgate. left.
  - rewrite io_bind_observe.
    destruct (World.command_exists w (h ++ copies) "npm") eqn:Hnpm; io_simpl.
    + apply Hgate. right. left.
    + by apply agent_untested.
Qed.

Lemma io_bind_exits {A B : Type} (m : io A) (k : A → io B) (h h' : list event) (code : Z) :
  m h = (Exit code, h') → io_bind m k h = (Exit code, h').
Proof. intros H. unfold io_bind. by rewrite H. Qed.

Lemma commits_app (a b : list event) : commits (a ++ b) = commits a ++ commits b.
Proof. unfold commits. apply omap_app. Qed.

Lemma commits_copies (workspace_dir : string) (copies : list event) :
  copies_from workspace_dir copies → commits copies = [].
Proof.
  induction 1 as [|e copies (clean_path & ->) _ IH]; [done|]. exact IH.
Qed.

Lemma commits_test_command (cmd : list string) :
  cmd ∈ test_commands → commits [Run cmd] = [].
Proof.
  intros H. repeat (apply elem_of_cons in H as [->|H]; [done|]).
  by apply elem_of_nil in H.
Qed.

Lemma yaml_get_has (key : string) (doc v : yaml) :
  yaml_get key doc = Some v → yaml_has key doc = true.
Proof.
  destruct doc; simpl; try done. intros H. apply bool_decide_eq_true.
  apply dict_get_Some_elem in H. apply list_elem_of_fmap. by exists (key, v).
Qed.

Lemma integration_order_has (doc : yaml) (order : list string) :
  integration_order_of doc = Some order → yaml_has "integration_order" doc = true.
Proof.
  unfold integration_order_of.
  destruct (yaml_get "integration_order" doc) as [v|] eqn:Hget; [|done].
  intros _. by apply (yaml_get_has _ _ v).
Qed.

(** A plan without the key [integration_order] is refused before anything
    is done. *)
Lemma plan_without_order_rejected (w : World.t) (skip_tests : bool) (file : string)
    (plan : yaml) :
  World.deployment_plan w = Some (file, Some plan) →
  yaml_has "integration_order" plan = false →
  integrate_parallel_work w skip_tests [] = (Exit 1, []).
Proof.
  intros Hplan Hhas. unfold integrate_parallel_work.
  destruct (World.validation_status w) as [vs|]; [|done].
  destruct (validation_passed vs); [|done]. simpl negb. cbv iota.
  rewrite Hplan, Hhas. by rewrite orb_true_r.
Qed.

Lemma integration_order_truthy (doc : yaml) (order : list string) :
  integration_order_of doc = Some order → yaml_truthy doc = true.
Proof.
  unfold integration_order_of. destruct doc as [| | | | | |entries]; try done.
  by destruct entries.
Qed.

Lemma plan_with_order_integrated (w : World.t) (skip_tests : bool) (file : string)
    (plan : yaml) (vs : option yaml) (order : list string) :
  World.validation_status w = Some vs →
  validation_passed vs = true →
  World.deployment_plan w = Some (file, Some plan) →
  integration_order_of plan = Some order →
  integrate_parallel_work w skip_tests = integrate_in_order w skip_tests file order.
Proof.
  intros Hvs Hpassed Hplan Horder. unfold integrate_parallel_work.
  rewrite Hvs, Hpassed, Hplan, (integration_order_truthy _ _ Horder),
    (integration_order_has _ _ Horder), Horder.
  reflexivity.
Qed.

(** ** Claims about the integration pipeline *)

(** C3. The plan gives the merge order [x, y, z]; the integration of [x]
    returns true and the test gate fails after the files of [y] have been
    copied. Then the pipeline leaves through [sys.exit(1)] with the history
    it had when the gate of [y] failed: after the history of [x] it only
    copied files from the workspace of [y] and ran the test command, so
    nothing of [x] was undone, no commit was added and nothing was done for
    [z]. When the test gate of [x] has run, the one commit of the history is
    that of [x]. *)
Theorem integration_halts_on_failure (w : World.t) (skip_tests : bool) (file : string)
    (plan : yaml) (vs : option yaml) (x y z : string) (h1 h2 : list event) :
  World.validation_status w = Some vs →
  validation_passed vs = true →
  World.deployment_plan w = Some (file, Some plan) →
  integration_order_of plan = Some [x; y; z] →
  World.returncode w [] ["git"; "checkout"; "-b"; "integration-" +:+ World.now w []] = 0%Z →
  integrate_agent w x (path_join "workspaces" x)
    [Run ["git"; "checkout"; "-b"; "integration-" +:+ World.now w []]]
  = (Return true, h1) →
  integrate_agent w y (path_join "workspaces" y) h1 = (Return false, h2) →
  integrate_parallel_work w skip_tests [] = (Exit 1, h2) ∧
  (∃ copies cmd,
     h2 = h1 ++ copies ++ [Run cmd] ∧
     copies_from (path_join "workspaces" y) copies ∧
     cmd ∈ test_commands ∧
     World.returncode w (h1 ++ copies) cmd ≠ 0%Z) ∧
  commits h2 = commits h1 ∧
  ((∃ cmd, cmd ∈ test_commands ∧ Run cmd ∈ h1) →
   ∃ files_list, commits h2 = [commit_message x files_list]).
Proof.
  intros Hvs Hpassed Hplan Horder Hcheckout Hx Hy.
  pose proof (integrate_agent_outcome w y (path_join "workspaces" y) h1) as Hyo.
  rewrite Hy in Hyo. simpl in Hyo.
  inversion Hyo as [| | copies cmd Hcopies Hcmd Hrc | | |]; subst.
  assert (Hsame : commits (h1 ++ copies ++ [Run cmd]) = commits h1).
  { rewrite !commits_app, (commits_copies _ _ Hcopies), (commits_test_command _ Hcmd).
    by rewrite !app_nil_r. }
  split; [|split; [by exists copies, cmd | split; [exact Hsame|]]].
  - rewrite (plan_with_order_integrated w skip_tests file plan vs [x; y; z]) by done.
    unfold integrate_in_order. rewrite io_bind_observe. io_simpl.
    rewrite io_bind_run, Hcheckout. io_simpl. simpl Z.eqb. io_simpl. simpl app.
    apply io_bind_exits. unfold integrate_agents. simpl io_for.
    erewrite io_bind_returns; [|erewrite io_bind_returns; [|exact Hx]; reflexivity].
    apply io_bind_exits. erewrite io_bind_returns; [|exact Hy]. reflexivity.
  - intros (c & Hc & Hin). rewrite Hsame.
    pose proof (integrate_agent_outcome w x (path_join "workspaces" x)
                  [Run ["git"; "checkout"; "-b"; "integration-" +:+ World.now w []]]) as Hxo.
    rewrite Hx in Hxo. simpl in Hxo.
    assert (Hnot : ∀ l, copies_from (path_join "workspaces" x) l →
              Run c ∉ [Run ["git"; "checkout"; "-b"; "integration-" +:+ World.now w []]] ++ l).
    { intros l Hl Hmem. apply elem_of_app in Hmem as [Hmem|Hmem].
      - apply list_elem_of_singleton in Hmem. injection Hmem as ->.
        repeat (apply elem_of_cons in Hc as [Hc|Hc]; [discriminate|]).
        by apply elem_of_nil in Hc.
      - unfold copies_from in Hl. rewrite Forall_forall in Hl.
        destruct (Hl _ Hmem) as (clean_path & Hcopy). discriminate. }
    inversion Hxo as [Hskip | cs Hcs | | | | cs cmd' files Hcs Hcmd' Hrc']; subst.
    + exfalso. apply (Hnot [] (Forall_nil_2 _)). by rewrite app_nil_r.
    + exfalso. by apply (Hnot cs Hcs).
    + exists files. rewrite !commits_app, (commits_copies _ _ Hcs).
      change [Run cmd'; Run ["git"; "add"; "-A"];
              Run ["git"; "commit"; "-m"; commit_message x files]]
        with ([Run cmd'] ++ [Run ["git"; "add"; "-A"];
                              Run ["git"; "commit"; "-m"; commit_message x files]]).
      rewrite !commits_app, (commits_test_command _ Hcmd'). reflexivity.
Qed.

Lemma integration_halts_on_failure_witness :
  ∃ h1 h2,
    integrate_parallel_work
      (second_run_fails "plan.yaml" (YDict [("integration_order", ystrs ["x"; "y"; "z"])]))
      false [] = (Exit 1, h2) ∧
    (∃ copies cmd,
       h2 = h1 ++ copies ++ [Run cmd] ∧
       copies_from (path_join "workspaces" "y") copies ∧
       cmd ∈ test_commands ∧
       World.returncode
         (second_run_fails "plan.yaml" (YDict [("integration_order", ystrs ["x"; "y"; "z"])]))
         (h1 ++ copies) cmd ≠ 0%Z) ∧
    commits h2 = commits h1 ∧
    ((∃ cmd, cmd ∈ test_commands ∧ Run cmd ∈ h1) →
     ∃ files_list, commits h2 = [commit_message "x" files_list]).
Proof.
  eexists _, _.
  eapply (integration_halts_on_failure
            (second_run_fails "plan.yaml"
               (YDict [("integration_order", ystrs ["x"; "y"; "z"])]))
            false "plan.yaml" _ _ "x" "y" "z").
  - reflexivity.
  - reflexivity.
  - reflexivity.
  - reflexivity.
  - reflexivity.
  - vm_compute. reflexivity.
  - vm_compute. reflexivity.
Defined.

Lemma integrate_agent_green (w : World.t) (agent workspace_dir : string) (h : list event) :
  green w →
  ∃ events msg,
    integrate_agent w agent workspace_dir h = (Return true, h ++ events) ∧
    commits events = [msg] ∧ commit_of agent msg.
Proof.
  intros Hgreen.
  pose proof (integrate_agent_outcome w agent workspace_dir h) as Ho.
  destruct (integrate_agent w agent workspace_dir h) as [o h'].
  simpl in Ho.
  inversion Ho as [Hskip | cs Hcs Hpnpm | cs cmd Hcs Hcmd Hrc | cs cmd Hcs Hcmd Hrc
                  | cs cmd files Hcs Hcmd Hrc | cs cmd files Hcs Hcmd Hrc]; subst.
  - match goal with
    | H : World.path_exists w ?h0 _ = false |- _ =>
        destruct (Hgreen h0) as (_ & Hp & _); by rewrite Hp in H
    end.
  - match goal with
    | H : World.command_exists w ?h0 "pnpm" = false |- _ =>
        destruct (Hgreen h0) as (_ & _ & Hp); by rewrite Hp in H
    end.
  - destruct (Hgreen (h ++ cs)) as (Hr & _). by rewrite Hr in Hrc.
  - destruct (Hgreen (h ++ cs ++ [Run cmd])) as (Hr & _). by rewrite Hr in Hrc.
  - destruct (Hgreen (h ++ cs ++ [Run cmd; Run ["git"; "add"; "-A"]])) as (Hr & _).
    by rewrite Hr in Hrc.
  - eexists _, (commit_message agent files). split; [reflexivity|].
    split; [|by exists files].
    change [Run cmd; Run ["git"; "add"; "-A"];
            Run ["git"; "commit"; "-m"; commit_message agent files]]
      with ([Run cmd] ++ [Run ["git"; "add"; "-A"];
                          Run ["git"; "commit"; "-m"; commit_message agent files]]).
    by rewrite !commits_app, (commits_copies _ _ Hcs), (commits_test_command _ Hcmd).
Qed.

Lemma integrate_agents_green (w : World.t) (order : list string) :
  green w →
  ∀ h, ∃ events,
    integrate_agents w order h = (Return tt, h ++ events) ∧
    Forall2 commit_of order (commits events).
Proof.
  intros Hgreen. unfold integrate_agents.
  induction order as [|agent order IH]; intros h; simpl.
  - exists []. split; [unfold io_ret; by rewrite app_nil_r | constructor].
  - destruct (integrate_agent_green w agent (path_join "workspaces" agent) h Hgreen)
      as (e1 & msg & H1 & Hc1 & Hmsg).
    destruct (IH (h ++ e1)) as (e2 & H2 & Hc2).
    exists (e1 ++ e2). split.
    + erewrite io_bind_returns; [|erewrite io_bind_returns; [|exact H1]; reflexivity].
      rewrite H2. by rewrite app_assoc.
    + rewrite commits_app, Hc1. by constructor.
Qed.

Lemma quality_check_green (w : World.t) (cmd : list string) (h : list event) :
  green w → quality_check w cmd h = (Return true, h ++ [Run cmd]).
Proof.
  intros Hgreen. unfold quality_check, check_command_exists.
  rewrite io_bind_observe. destruct (Hgreen h) as (Hr & _ & ->).
  rewrite io_bind_run, Hr. reflexivity.
Qed.

Lemma integrate_in_order_green (w : World.t) (skip_tests : bool) (file : string)
    (order : list string) :
  green w →
  ∃ h,
    integrate_in_order w skip_tests file order [] = (Return tt, h) ∧
    Forall2 commit_of order (commits h).
Proof.
  intros Hgreen. unfold integrate_in_order. rewrite io_bind_observe. io_simpl.
  rewrite io_bind_run.
  destruct (Hgreen []) as (Hr0 & _). rewrite Hr0. io_simpl. simpl Z.eqb. io_simpl.
  simpl app.
  destruct (integrate_agents_green w order Hgreen
              [Run ["git"; "checkout"; "-b"; "integration-" +:+ World.now w []]])
    as (events & Hrun & Hcommits).
  rewrite (io_bind_returns _ _ _ _ _ Hrun).
  assert (Hquality : ∃ results more,
    (if negb skip_tests then run_quality_checks w
     else io_ret [("tests", true); ("typecheck", true)])
      ([Run ["git"; "checkout"; "-b"; "integration-" +:+ World.now w []]] ++ events)
    = (Return results,
       ([Run ["git"; "checkout"; "-b"; "integration-" +:+ World.now w []]] ++ events)
         ++ more) ∧
    dict_get "tests" results = Some true ∧
    dict_get "typecheck" results = Some true ∧
    commits more = []).
  { destruct skip_tests; io_simpl.
    - exists [("tests", true); ("typecheck", true)], [].
      unfold io_ret. by rewrite app_nil_r.
    - exists [("tests", true); ("linting", true); ("typecheck", true)],
        [Run ["pnpm"; "test"]; Run ["pnpm"; "lint"]; Run ["pnpm"; "typecheck"]].
      split; [|done]. unfold run_quality_checks.
      rewrite (io_bind_returns _ _ _ _ _ (quality_check_green w _ _ Hgreen)).
      rewrite (io_bind_returns _ _ _ _ _ (quality_check_green w _ _ Hgreen)).
      rewrite (io_bind_returns _ _ _ _ _ (quality_check_green w _ _ Hgreen)).
      unfold io_ret. by rewrite <- !app_assoc. }
  destruct Hquality as (results & more & Hq & Htests & Htype & Hmore).
  rewrite (io_bind_returns _ _ _ _ _ Hq), Htests, Htype.
  change (default false (Some true)) with true. io_simpl.
  rewrite io_bind_observe. io_simpl. rewrite !io_bind_emit.
  eexists. split; [reflexivity|].
  rewrite !commits_app, Hmore. simpl. by rewrite !app_nil_r.
Qed.

Lemma dict_get_set {V : Type} (k : string) (v : V) (d : pydict V) :
  dict_get k (dict_set k v d) = Some v.
Proof.
  induction d as [|[k' v'] d IH]; simpl.
  - by rewrite decide_True.
  - destruct (decide (k' = k)) as [->|Hne]; simpl.
    + by rewrite decide_True.
    + by rewrite decide_False.
Qed.

Lemma all_green_green (file : string) (plan : yaml) : green (all_green file plan).
Proof. intros h. repeat split. Qed.

(** C2, as the code has it. The integration stage reads the merge order
    from the top-level key [integration_order] of the plan document, and in
    a world where everything succeeds it commits the agents of that list, in
    that order. The plan that the decomposer writes keeps its order under
    [integrationPlan.mergeOrder] and has no key [integration_order]: given
    that file, the integration stage leaves with status 1 before it has done
    anything. *)
Theorem integration_reads_integration_order :
  (∀ (table : list Pattern.t) (so : SetOrder) (issue_id : string)
     (cache : option IssueData.t) (use_hybrid : bool),
     ∃ plan self' file order,
       pattern_based_analysis table so
         (load_linear_issue issue_id cache (Decomposer.init use_hybrid))
       = Ok (plan, self') ∧
       dict_get file (Decomposer.deployment_plans self') = Some plan ∧
       (yaml_get "integrationPlan" plan ≫= yaml_get "mergeOrder") = Some (ystrs order) ∧
       ∀ (w : World.t) (skip_tests : bool),
         World.deployment_plan w = Some (file, Some plan) →
         integrate_parallel_work w skip_tests [] = (Exit 1, [])) ∧
  (∀ (w : World.t) (skip_tests : bool) (file : string) (plan : yaml)
     (vs : option yaml) (order : list string),
     World.validation_status w = Some vs →
     validation_passed vs = true →
     World.deployment_plan w = Some (file, Some plan) →
     integration_order_of plan = Some order →
     green w →
     ∃ h,
       integrate_parallel_work w skip_tests [] = (Return tt, h) ∧
       Forall2 commit_of order (commits h)).
Proof.
  split.
  - intros table so issue_id cache use_hybrid.
    destruct (loaded_decomposer issue_id cache use_hybrid) as (issue & Hissue & _).
    destruct (pattern_based_analysis_stages table so _ issue Hissue)
      as (_ & _ & agents & self3 & plan & _ & _ & _ & _ & H5 & H6 & _ & _ & _ & _ & Hi3).
    + destruct cache; split; simpl; constructor.
    + by destruct cache.
    + destruct (generate_deployment_plan_ok self3 issue agents Hi3)
        as (plan' & order & Hplan' & _ & Hip & _ & Hhas).
      rewrite H5 in Hplan'. injection Hplan' as <-.
      eexists plan, _, _, order. split; [exact H6|].
      split; [apply dict_get_set|]. split; [by rewrite Hip|].
      intros w skip_tests Hfound.
      eapply plan_without_order_rejected; [exact Hfound | exact Hhas].
  - intros w skip_tests file plan vs order Hvs Hpassed Hplan Horder Hgreen.
    rewrite (plan_with_order_integrated w skip_tests file plan vs order) by done.
    by apply integrate_in_order_green.
Qed.

Lemma integration_reads_integration_order_witness :
  ∃ h,
    integrate_parallel_work
      (all_green "plan.yaml" (YDict [("integration_order", ystrs ["x"; "y"])]))
      false [] = (Return tt, h) ∧
    Forall2 commit_of ["x"; "y"] (commits h).
Proof.
  destruct integration_reads_integration_order as [_ Hreads].
  apply (Hreads (all_green "plan.yaml" (YDict [("integration_order", ystrs ["x"; "y"])]))
           false "plan.yaml" (YDict [("integration_order", ystrs ["x"; "y"])])
           (Some passed_status) ["x"; "y"]).
  - reflexivity.
  - reflexivity.
  - reflexivity.
  - reflexivity.
  - apply all_green_green.
Defined.

(** The statement of C2 with [integrationPlan.mergeOrder] as the field read
    fails on the plan of the scenario: the decomposer has written it, its merge order names three agents, and
    the integration stage, in a world where every command would succeed,
    merges none of them and leaves with status 1. *)
Lemma decomposer_plan_not_consumed_counterexample :
  ∃ plan self',
    pattern_based_analysis patterns first_seen_order scenario_decomposer
    = Ok (plan, self') ∧
    dict_get "shared/deployment-plans/issue-1-deployment-plan.yaml"
      (Decomposer.deployment_plans self') = Some plan ∧
    (yaml_get "integrationPlan" plan ≫= yaml_get "mergeOrder")
    = Some (ystrs ["auth_agent"; "forms_agent"; "backend_agent"]) ∧
    integrate_parallel_work
      (all_green "shared/deployment-plans/issue-1-deployment-plan.yaml" plan) false []
    = (Exit 1, []).
Proof.
  eexists _, _. split; [vm_compute; reflexivity|].
  split; [vm_compute; reflexivity|]. split; vm_compute; reflexivity.
Qed.

Lemma merge_loop_ordered (remaining : list Agent.t) :
  ∀ placed,
    dependency_ordered (placed ++ remaining) →
    merge_loop (agent_ids placed) remaining = Ok (agent_ids (placed ++ remaining)).
Proof.
  induction remaining as [|a remaining IH]; intros placed Hord.
  - rewrite merge_loop_step. by rewrite app_nil_r.
  - rewrite merge_loop_step.
    assert (Hready : is_ready (agent_ids placed) a = true).
    { apply is_ready_dependencies. intros d Hd. by apply (Hord placed a remaining). }
    rewrite filter_cons_True by done.
    simpl list_remove. rewrite decide_True by done.
    replace (agent_ids placed ++ [Agent.id a]) with (agent_ids (placed ++ [a]))
      by (unfold agent_ids; by rewrite fmap_app).
    rewrite IH; [by rewrite <- app_assoc|].
    by rewrite <- app_assoc.
Qed.

(** X1. A list that is already in dependency order is returned as it is. *)
Theorem merge_order_keeps_ordered_list (agents : list Agent.t) :
  dependency_ordered agents →
  calculate_merge_order agents = Ok (agent_ids agents).
Proof. intros Hord. apply (merge_loop_ordered agents []). exact Hord. Qed.

Lemma dependency_ordered_check (agents : list Agent.t) :
  (∀ n a, agents !! n = Some a →
     ∀ d, d ∈ Agent.dependencies a → d ∈ agent_ids (take n agents)) →
  dependency_ordered agents.
Proof.
  intros H before a after -> d Hd.
  specialize (H (length before) a).
  rewrite list_lookup_middle in H by done.
  specialize (H eq_refl d Hd). by rewrite take_app_length in H.
Qed.

Lemma merge_order_keeps_ordered_list_witness :
  calculate_merge_order
    [example_agent "data" []; example_agent "auth" ["data"];
     example_agent "ui" ["auth"; "data"]]
  = Ok ["data"; "auth"; "ui"].
Proof.
  apply (merge_order_keeps_ordered_list
           [example_agent "data" []; example_agent "auth" ["data"];
            example_agent "ui" ["auth"; "data"]]).
  apply dependency_ordered_check.
  intros [|[|[|n]]] a Ha; try discriminate; injection Ha as <-; intros d Hd;
    simpl in Hd; repeat (apply elem_of_cons in Hd as [->|Hd]; [apply (bool_decide_unpack _); vm_compute; exact I|]);
    by apply elem_of_nil in Hd.
Defined.

(** The inner loop of [validate_no_conflicts]: what it returns and what it
    raises. *)
Lemma ownership_files_spec (agent_id : string) (files : list string)
    (m : gmap string string) :
  match
    res_fold
      (fun (file_ownership : gmap string string) file =>
         match file_ownership !! file with
         | Some owner => Raise (ValueError (OwnershipConflict file agent_id owner))
         | None => Ok (<[file := agent_id]> file_ownership)
         end)
      m files
  with
  | Ok m' =>
      NoDup files ∧ (∀ f, f ∈ files → m !! f = None) ∧
      (∀ f, m' !! f = if decide (f ∈ files) then Some agent_id else m !! f)
  | Raise e =>
      ∃ file owner,
        e = ValueError (OwnershipConflict file agent_id owner) ∧ file ∈ files ∧
        (m !! file = Some owner ∨ (owner = agent_id ∧ ¬ NoDup files))
  end.
Proof.
  revert m. induction files as [|file files IH]; intros m; cbn [res_fold].
  - split; [constructor|]. split; [intros f Hf; by apply elem_of_nil in Hf|].
    intros f. case_decide as Hf; [by apply elem_of_nil in Hf|done].
  - destruct (m !! file) as [owner|] eqn:Hm; cbn [res_bind].
    + exists file, owner. split; [done|]. split; [left|by left].
    + specialize (IH (<[file := agent_id]> m)).
      destruct (res_fold _ (<[file := agent_id]> m) files) as [m'|e].
      * destruct IH as (Hnd & Hfree & Hm').
        assert (Hnotin : file ∉ files).
        { intros Hin. specialize (Hfree file Hin). by rewrite lookup_insert_eq in Hfree. }
        split; [by constructor|]. split.
        -- intros f Hf. apply elem_of_cons in Hf as [->|Hf]; [done|].
           specialize (Hfree f Hf).
           destruct (decide (f = file)) as [->|Hne]; [done|].
           by rewrite lookup_insert_ne in Hfree.
        -- intros f. rewrite (Hm' f).
           destruct (decide (f = file)) as [->|Hne].
           ++ rewrite lookup_insert_eq. repeat case_decide; try done.
              exfalso. match goal with H : _ ∉ _ :: _ |- _ => apply H; left end.
           ++ rewrite lookup_insert_ne by done. repeat case_decide; try done.
              ** exfalso. match goal with H : _ ∉ _ :: _ |- _ => apply H; by right end.
              ** match goal with H : _ ∈ _ :: _ |- _ => apply elem_of_cons in H as [?|?]; done end.
      * destruct IH as (f & owner & -> & Hf & Hown).
        exists f, owner. split; [done|]. split; [by right|].
        destruct (decide (f = file)) as [->|Hne].
        -- right. destruct Hown as [Hown|[-> Hnd]].
           ++ rewrite lookup_insert_eq in Hown. injection Hown as <-.
              split; [done|]. intros Hnd. apply NoDup_cons in Hnd as [Hnd _]. done.
           ++ split; [done|]. intros Hnd'. apply NoDup_cons in Hnd' as [_ Hnd']. done.
        -- destruct Hown as [Hown|[-> Hnd]].
           ++ left. by rewrite lookup_insert_ne in Hown.
           ++ right. split; [done|]. intros Hnd'. apply NoDup_cons in Hnd' as [_ Hnd']. done.
Qed.

Lemma file_ownership_spec (agents : list Agent.t) :
  ∀ (seen : list Agent.t) (m : gmap string string),
    (∀ f, is_Some (m !! f) ↔ f ∈ concat (agent_files <$> seen)) →
    (∀ f owner, m !! f = Some owner →
       ∃ a, a ∈ seen ∧ Agent.id a = owner ∧ f ∈ agent_files a) →
    NoDup (concat (agent_files <$> seen)) →
    match
      res_fold
        (fun file_ownership agent =>
           res_fold
             (fun (file_ownership : gmap string string) file =>
                match file_ownership !! file with
                | Some owner =>
                    Raise (ValueError (OwnershipConflict file (Agent.id agent) owner))
                | None => Ok (<[file := Agent.id agent]> file_ownership)
                end)
             file_ownership (Agent.files_to_create agent ++ Agent.files_to_modify agent))
        m agents
    with
    | Ok _ => NoDup (concat (agent_files <$> seen ++ agents))
    | Raise e =>
        ¬ NoDup (concat (agent_files <$> seen ++ agents)) ∧
        ∃ file a b,
          e = ValueError (OwnershipConflict file (Agent.id a) (Agent.id b)) ∧
          a ∈ seen ++ agents ∧ b ∈ seen ++ agents ∧
          file ∈ agent_files a ∧ file ∈ agent_files b
    end.
Proof.
  induction agents as [|agent agents IH]; intros seen m Hdom Hown Hnd; simpl.
  - by rewrite app_nil_r.
  - pose proof (ownership_files_spec (Agent.id agent) (agent_files agent) m) as Hfiles.
    unfold agent_files at 1 in Hfiles.
    destruct (res_fold _ m (Agent.files_to_create agent ++ Agent.files_to_modify agent))
      as [m'|e]; simpl.
    + destruct Hfiles as (Hnd1 & Hfree & Hm').
      assert (Hnd' : NoDup (concat (agent_files <$> seen ++ [agent]))).
      { rewrite fmap_app, concat_app. simpl. rewrite app_nil_r.
        apply NoDup_app. split; [done|]. split; [|done].
        intros f Hf Hf'. apply Hdom in Hf as [o Ho]. rewrite (Hfree f Hf') in Ho. done. }
      specialize (IH (seen ++ [agent]) m').
      rewrite <- app_assoc in IH. simpl in IH. apply IH; [| |done].
      * intros f. rewrite (Hm' f), fmap_app, concat_app. simpl. rewrite app_nil_r.
        rewrite elem_of_app, <- Hdom.
        destruct (decide (f ∈ agent_files agent)); [|tauto].
        split; [by right|by eexists].
      * intros f owner. rewrite (Hm' f).
        destruct (decide (f ∈ agent_files agent)) as [Hin|Hnin].
        -- intros [= <-]. exists agent. split; [apply elem_of_app; right; left|done].
        -- intros Hf. destruct (Hown f owner Hf) as (a & Ha & Hid & Hfa).
           exists a. split; [apply elem_of_app; by left|done].
    + destruct Hfiles as (file & owner & -> & Hfile & Hwhy).
      destruct Hwhy as [Hm|[-> Hdup]].
      * destruct (Hown file owner Hm) as (b & Hb & <- & Hfb).
        split.
        -- rewrite fmap_app, concat_app. intros Hall. apply NoDup_app in Hall as (_ & Hdisj & _).
           apply (Hdisj file).
           ++ apply elem_of_concat. exists (agent_files b).
              split; [apply list_elem_of_fmap; by exists b|done].
           ++ simpl. apply elem_of_app. by left.
        -- exists file, agent, b. split; [done|].
           split; [apply elem_of_app; right; left|].
           split; [apply elem_of_app; by left|done].
      * split.
        -- rewrite fmap_app, concat_app. intros Hall. apply NoDup_app in Hall as (_ & _ & Hall).
           simpl in Hall. apply NoDup_app in Hall as (Hall & _). done.
        -- exists file, agent, agent. split; [done|].
           split; [apply elem_of_app; right; left|].
           split; [apply elem_of_app; right; left|done].
Qed.

(** X2. The validator accepts exactly the lists of agents whose file lists,
    taken together, name no file twice. *)
Theorem validator_accepts_iff_distinct (agents : list Agent.t) :
  validate_no_conflicts agents = Ok tt ↔ NoDup (concat (agent_files <$> agents)).
Proof.
  pose proof (file_ownership_spec agents [] ∅) as H. simpl in H.
  unfold validate_no_conflicts, file_ownership_of.
  destruct (res_fold _ ∅ agents) as [m|e]; simpl.
  - split; [intros _|done]. apply H; [| |constructor].
    + intros f. rewrite lookup_empty. split; [by intros [? ?]|intros Hf; by apply elem_of_nil in Hf].
    + intros f owner. by rewrite lookup_empty.
  - split; [done|]. intros Hnd. exfalso.
    destruct H as [Hdup _]; [| |constructor|done].
    + intros f. rewrite lookup_empty. split; [by intros [? ?]|intros Hf; by apply elem_of_nil in Hf].
    + intros f owner. by rewrite lookup_empty.
Qed.

(** X3. When the validator raises, the error names a file and two agents of
    the list that both have it in their file lists (the same agent twice
    when one agent lists the file twice). *)
Theorem validator_error_names_both_owners (agents : list Agent.t) (e : exn) :
  validate_no_conflicts agents = Raise e →
  ∃ file a b,
    e = ValueError (OwnershipConflict file (Agent.id a) (Agent.id b)) ∧
    a ∈ agents ∧ b ∈ agents ∧ file ∈ agent_files a ∧ file ∈ agent_files b.
Proof.
  pose proof (file_ownership_spec agents [] ∅) as H. simpl in H.
  unfold validate_no_conflicts, file_ownership_of.
  destruct (res_fold _ ∅ agents) as [m|e']; simpl; [done|].
  intros [= <-]. apply H; [| |constructor].
  - intros f. rewrite lookup_empty. split; [by intros [? ?]|intros Hf; by apply elem_of_nil in Hf].
  - intros f owner. by rewrite lookup_empty.
Qed.

Lemma rstrip_rstrip (s : string) : rstrip (rstrip s) = rstrip s.
Proof.
  induction s as [|c s IH]; [done|]. cbn [rstrip].
  destruct (rstrip s) as [|d r] eqn:Hr.
  - destruct (is_space c) eqn:Hc; [done|]. cbn [rstrip]. by rewrite Hc.
  - cbn [rstrip]. cbn [rstrip] in IH. by rewrite IH.
Qed.

Lemma lstrip_rstrip (s : string) : lstrip (rstrip (lstrip s)) = rstrip (lstrip s).
Proof.
  induction s as [|c s IH]; [done|]. cbn [lstrip].
  destruct (is_space c) eqn:Hc; [exact IH|].
  cbn [rstrip]. destruct (rstrip s); [rewrite Hc|]; cbn [lstrip]; by rewrite Hc.
Qed.

Lemma strip_strip (s : string) : strip (strip s) = strip s.
Proof. unfold strip. by rewrite lstrip_rstrip, rstrip_rstrip. Qed.

(** X4. [extract_requirements] never returns an empty list, and none of the
    requirements it returns has white space at either end. *)
Theorem requirements_nonempty_and_stripped (description : string) :
  extract_requirements description ≠ [] ∧
  Forall (fun requirement => strip requirement = requirement)
    (extract_requirements description).
Proof.
  unfold extract_requirements.
  assert (H : ∀ lines acc,
    Forall (fun r => strip r = r) acc →
    Forall (fun r => strip r = r)
      (fold_left
         (fun requirements line =>
            match match_numbered line with
            | Some group1 => requirements ++ [strip group1]
            | None => requirements
            end) lines acc)).
  { induction lines as [|line lines IH]; intros acc Hacc; [done|]. cbn [fold_left].
    apply IH. destruct (match_numbered line); [|done].
    apply Forall_app. split; [done|]. constructor; [apply strip_strip|constructor]. }
  specialize (H (split_on newline description) [] (Forall_nil_2 _)).
  destruct (fold_left _ (split_on newline description) []) as [|r rs].
  - split; [done|]. constructor; [apply strip_strip|constructor].
  - split; [done|exact H].
Qed.

Lemma app_String (c : ascii) (s t : string) : String c s +:+ t = String c (s +:+ t).
Proof. reflexivity. Qed.

Lemma split_on_free (c : ascii) (s : string) : str_free c s → split_on c s = [s].
Proof.
  unfold str_free. induction s as [|d s IH]; [done|]. cbn [str_all split_on].
  intros H. apply andb_prop in H as [Hd Hs].
  apply negb_true_iff, bool_decide_eq_false in Hd.
  rewrite decide_False by done. by rewrite (IH Hs).
Qed.

Lemma split_on_app (c : ascii) (s t : string) :
  str_free c s → split_on c (s +:+ String c t) = s :: split_on c t.
Proof.
  unfold str_free. induction s as [|d s IH]; intros H.
  - change (EmptyString +:+ String c t) with (String c t).
    cbn [split_on]. by rewrite decide_True.
  - cbn [str_all] in H. apply andb_prop in H as [Hd Hs].
    apply negb_true_iff, bool_decide_eq_false in Hd.
    rewrite app_String. cbn [split_on]. rewrite decide_False by done.
    by rewrite (IH Hs).
Qed.

Lemma split_on_concat (c : ascii) (lines : list string) :
  lines ≠ [] → Forall (str_free c) lines →
  split_on c (String.concat (String c EmptyString) lines) = lines.
Proof.
  induction lines as [|l lines IH]; [done|]. intros _ Hall.
  apply Forall_cons in Hall as [Hl Hall].
  destruct lines as [|l' lines]; [by apply split_on_free|].
  cbn [String.concat]. change (String c EmptyString +:+ ?t) with (String c t).
  cbn [String.concat] in IH.
  rewrite split_on_app by done. f_equal. by apply IH.
Qed.

Lemma str_all_app (p : ascii → bool) (s t : string) :
  str_all p (s +:+ t) = str_all p s && str_all p t.
Proof. induction s as [|c s IH]; [done|]. rewrite app_String. cbn. by rewrite IH, andb_assoc. Qed.

Lemma digit_not_space (c : ascii) : is_digit c = true → is_space c = false.
Proof.
  unfold is_digit, is_space. cbv zeta. intros H.
  apply andb_prop in H as [H1 H2]. apply Nat.leb_le in H1, H2.
  apply orb_false_intro; apply andb_false_intro2; apply Nat.leb_gt; lia.
Qed.

Lemma lstrip_length (s : string) : (String.length (lstrip s) ≤ String.length s)%nat.
Proof. induction s as [|c s IH]; [done|]. cbn. destruct (is_space c); cbn; lia. Qed.

Lemma rstrip_length (s : string) : (String.length (rstrip s) ≤ String.length s)%nat.
Proof.
  induction s as [|c s IH]; [done|]. cbn [rstrip].
  destruct (rstrip s); [destruct (is_space c)|]; cbn in *; lia.
Qed.

(** A stripped, non-empty text starts with something else than white
    space. *)
Lemma stripped_head (c : ascii) (s : string) :
  strip (String c s) = String c s → is_space c = false.
Proof.
  unfold strip. cbn [lstrip]. destruct (is_space c); [|done]. intros H.
  pose proof (rstrip_length (lstrip s)) as H1. pose proof (lstrip_length s) as H2.
  rewrite H in H1. cbn in H1. lia.
Qed.

Lemma take_line_free (s : string) : str_free newline s → take_line s = s.
Proof.
  unfold str_free. induction s as [|c s IH]; [done|]. cbn [str_all take_line]. intros H.
  apply andb_prop in H as [Hc Hs]. apply negb_true_iff, bool_decide_eq_false in Hc.
  rewrite decide_False by done. by rewrite (IH Hs).
Qed.

Lemma span_digits_number (n rest : string) (c : ascii) :
  str_all is_digit n = true → is_digit c = false →
  span_digits (n +:+ String c rest) = (n, String c rest).
Proof.
  intros Hn Hc. induction n as [|d n IH].
  - change (EmptyString +:+ String c rest) with (String c rest).
    cbn [span_digits]. by rewrite Hc.
  - cbn [str_all] in Hn. apply andb_prop in Hn as [Hd Hn].
    rewrite app_String. cbn [span_digits]. rewrite Hd, (IH Hn). done.
Qed.

Lemma match_numbered_item (number text : string) :
  is_number number → plain_requirement text →
  match_numbered (number +:+ ". " +:+ text) = Some text.
Proof.
  intros [Hne Hdigits] (Htext & Hstrip & Hfree & _). unfold match_numbered.
  destruct number as [|d number]; [done|]. clear Hne.
  pose proof Hdigits as Hd. cbn [str_all] in Hd. apply andb_prop in Hd as [Hd _].
  assert (Hl : lstrip (String d number +:+ ". " +:+ text)
               = String d number +:+ ". " +:+ text).
  { rewrite app_String. cbn [lstrip]. by rewrite (digit_not_space d Hd). }
  rewrite Hl. change (". " +:+ text) with (String "." (String " " text)).
  rewrite (span_digits_number (String d number) (String " " text) "." Hdigits eq_refl).
  rewrite decide_True by done.
  destruct text as [|c text]; [done|].
  cbn [spaces_then_group]. change (is_space " ") with true. cbv iota.
  rewrite (stripped_head _ _ Hstrip).
  unfold dot_plus. rewrite (take_line_free _ Hfree). done.
Qed.

(** X5. A numbered list of plain requirements is read back item by item. *)
Theorem numbered_requirements_read_back (items : list (string * string)) :
  items ≠ [] →
  Forall (fun item => is_number item.1 ∧ plain_requirement item.2) items →
  extract_requirements (numbered_text items) = snd <$> items.
Proof.
  intros Hne Hitems. unfold extract_requirements, numbered_text.
  rewrite split_on_concat.
  - assert (H : ∀ acc,
      fold_left
        (fun requirements line =>
           match match_numbered line with
           | Some group1 => requirements ++ [strip group1]
           | None => requirements
           end)
        ((fun '(number, text) => number +:+ ". " +:+ text) <$> items) acc
      = acc ++ (snd <$> items)).
    { clear Hne. induction Hitems as [|[number text] items [Hn Ht] _ IH]; intros acc.
      - by rewrite app_nil_r.
      - cbn [fst snd] in Hn, Ht.
        cbn [fmap list_fmap fold_left]. rewrite (match_numbered_item _ _ Hn Ht).
        change (list_fmap _ _ ?f ?l) with (f <$> l). rewrite IH.
        destruct Ht as (_ & -> & _). by rewrite <- app_assoc. }
    rewrite H. destruct items; [done|]. reflexivity.
  - by destruct items.
  - apply Forall_fmap. eapply Forall_impl; [exact Hitems|].
    intros [number text] [[_ Hn] (_ & _ & Hfree & _)]. cbn in *.
    unfold str_free. rewrite !str_all_app. rewrite Hfree.
    apply andb_true_intro. split; [|reflexivity].
    clear -Hn. induction number as [|d number IH]; [done|].
    cbn [str_all] in *. apply andb_prop in Hn as [Hd Hn]. rewrite (IH Hn), andb_true_r.
    apply negb_true_iff, bool_decide_eq_false. intros ->. discriminate.
Qed.

Lemma numbered_requirements_read_back_witness :
  extract_requirements
    (numbered_text [("1", "Implement JWT auth login"); ("2", "Add API endpoint")])
  = ["Implement JWT auth login"; "Add API endpoint"].
Proof.
  apply (numbered_requirements_read_back
           [("1", "Implement JWT auth login"); ("2", "Add API endpoint")]).
  - discriminate.
  - repeat constructor; discriminate.
Defined.

Lemma dict_set_entry {V : Type} (k k' : string) (v v' : V) (d : pydict V) :
  (k', v') ∈ dict_set k v d → (k' = k ∧ v' = v) ∨ (k', v') ∈ d.
Proof.
  induction d as [|[k0 v0] d IH]; cbn [dict_set].
  - intros H. apply list_elem_of_singleton in H. injection H as -> ->. by left.
  - destruct (decide (k0 = k)) as [->|Hne]; intros H.
    + apply elem_of_cons in H as [H|H]; [injection H as -> ->; by left|].
      right. by right.
    + apply elem_of_cons in H as [H|H]; [right; rewrite H; left|].
      destruct (IH H) as [?|?]; [by left|right; by right].
Qed.

Lemma dict_set_elem_keys {V : Type} (k k' : string) (v : V) (d : pydict V) :
  k' ∈ dict_keys (dict_set k v d) ↔ k' = k ∨ k' ∈ dict_keys d.
Proof.
  rewrite dict_set_keys. case_decide as Hk.
  - split; [by right|]. intros [->|?]; done.
  - rewrite elem_of_app, list_elem_of_singleton. tauto.
Qed.

(** The inner loop of [extract_file_operations_from_requirement]. *)
Lemma pattern_files_fold (domain requirement : string) (files : pydict string) :
  ∀ operations,
    let result :=
      fold_left
        (fun operations '(file, operation) =>
           dict_set file (FileOperation.mk operation domain requirement) operations)
        files operations in
    (NoDup (dict_keys operations) → NoDup (dict_keys result)) ∧
    (∀ file op, (file, op) ∈ result →
       (file, op) ∈ operations ∨
       ∃ operation, op = FileOperation.mk operation domain requirement ∧
                    (file, operation) ∈ files) ∧
    (∀ file, file ∈ dict_keys result ↔
             file ∈ dict_keys operations ∨ file ∈ dict_keys files).
Proof.
  induction files as [|[f o] files IH]; intros operations; cbn [fold_left].
  - split; [done|]. split; [intros file op H; by left|].
    intros file. split; [by left|]. intros [?|H]; [done|by apply elem_of_nil in H].
  - destruct (IH (dict_set f (FileOperation.mk o domain requirement) operations))
      as (Hnd & Hfrom & Hkeys).
    split; [intros H; by apply Hnd, dict_set_NoDup|]. split.
    + intros file op H. destruct (Hfrom file op H) as [Hin|(o' & -> & Hin)].
      * apply dict_set_entry in Hin as [[-> ->]|Hin]; [|by left].
        right. exists o. split; [done|left].
      * right. exists o'. split; [done|by right].
    + intros file. rewrite (Hkeys file), dict_set_elem_keys.
      unfold dict_keys at 3 4. cbn [fmap list_fmap fst]. rewrite elem_of_cons.
      tauto.
Qed.

(** The outer loop of [extract_file_operations_from_requirement]. *)
Lemma matching_patterns_fold (requirement : string) (patterns : list Pattern.t) :
  ∀ operations,
    let result :=
      fold_left
        (fun operations pattern =>
           fold_left
             (fun operations '(file, operation) =>
                dict_set file
                  (FileOperation.mk operation (Pattern.domain pattern) requirement)
                  operations)
             (Pattern.files pattern) operations)
        patterns operations in
    (NoDup (dict_keys operations) → NoDup (dict_keys result)) ∧
    (∀ file op, (file, op) ∈ result →
       (file, op) ∈ operations ∨
       ∃ pattern operation,
         pattern ∈ patterns ∧
         op = FileOperation.mk operation (Pattern.domain pattern) requirement ∧
         (file, operation) ∈ Pattern.files pattern) ∧
    (∀ file, file ∈ dict_keys result ↔
       file ∈ dict_keys operations ∨
       ∃ pattern, pattern ∈ patterns ∧ file ∈ dict_keys (Pattern.files pattern)).
Proof.
  induction patterns as [|p patterns IH]; intros operations; cbn [fold_left].
  - split; [done|]. split; [intros file op H; by left|].
    intros file. split; [by left|]. intros [?|(p & Hp & _)]; [done|by apply elem_of_nil in Hp].
  - destruct (pattern_files_fold (Pattern.domain p) requirement (Pattern.files p) operations)
      as (Hnd1 & Hfrom1 & Hkeys1).
    destruct (IH (fold_left
                    (fun operations '(file, operation) =>
                       dict_set file
                         (FileOperation.mk operation (Pattern.domain p) requirement)
                         operations)
                    (Pattern.files p) operations))
      as (Hnd & Hfrom & Hkeys).
    split; [intros H; by apply Hnd, Hnd1|]. split.
    + intros file op H. destruct (Hfrom file op H) as [Hin|(p' & o & Hp' & -> & Hin)].
      * destruct (Hfrom1 file op Hin) as [?|(o & -> & Ho)]; [by left|].
        right. exists p, o. split; [left|done].
      * right. exists p', o. split; [by right|done].
    + intros file. rewrite (Hkeys file), (Hkeys1 file). split.
      * intros [[?|Hf]|(p' & Hp' & Hf)]; [by left| |].
        -- right. exists p. split; [left|done].
        -- right. exists p'. split; [by right|done].
      * intros [?|(p' & Hp' & Hf)]; [left; by left|].
        apply elem_of_cons in Hp' as [->|Hp']; [left; by right|].
        right. by exists p'.
Qed.

(** Where an extracted operation comes from. *)
Lemma extracted_operation_source (table : list Pattern.t) (requirement file : string)
    (op : FileOperation.t) :
  (file, op) ∈ extract_file_operations_with table requirement →
  ∃ pattern operation,
    pattern ∈ table ∧
    Pattern.condition pattern (lower requirement) = true ∧
    op = FileOperation.mk operation (Pattern.domain pattern) requirement ∧
    (file, operation) ∈ Pattern.files pattern.
Proof.
  unfold extract_file_operations_with. cbv zeta. intros Hin.
  destruct (matching_patterns_fold requirement
              (filter (fun p => Pattern.condition p (lower requirement) = true) table) [])
    as (_ & Hfrom & _).
  destruct (Hfrom file op Hin) as [Hnil|(p & o & Hp & -> & Ho)].
  - by apply elem_of_nil in Hnil.
  - apply list_elem_of_filter in Hp as [Hc Hp]. by exists p, o.
Qed.

(** X6. The operations extracted from one requirement of ASCII text: every
    one of them comes from a rule whose condition holds of the lower-cased
    requirement, with that rule's domain and the requirement itself; every
    file of such a rule is there; no file is there twice. *)
Theorem file_operations_come_from_matching_rules (table : list Pattern.t)
    (requirement : string) :
  ascii_text requirement →
  NoDup (dict_keys (extract_file_operations_with table requirement)) ∧
  (∀ file op,
     (file, op) ∈ extract_file_operations_with table requirement →
     FileOperation.requirement op = requirement ∧
     ∃ pattern,
       pattern ∈ table ∧
       Pattern.condition pattern (lower requirement) = true ∧
       (file, FileOperation.operation op) ∈ Pattern.files pattern ∧
       FileOperation.domain op = Pattern.domain pattern) ∧
  (∀ pattern file,
     pattern ∈ table →
     Pattern.condition pattern (lower requirement) = true →
     file ∈ dict_keys (Pattern.files pattern) →
     file ∈ dict_keys (extract_file_operations_with table requirement)).
Proof.
  intros _. split; [|split].
  - unfold extract_file_operations_with. cbv zeta.
    apply (matching_patterns_fold requirement _ []). constructor.
  - intros file op Hin.
    destruct (extracted_operation_source _ _ _ _ Hin) as (p & o & Hp & Hc & -> & Ho).
    split; [done|]. by exists p.
  - intros p file Hp Hc Hf. unfold extract_file_operations_with. cbv zeta.
    apply (matching_patterns_fold requirement _ []). right. exists p.
    split; [|done]. by apply list_elem_of_filter.
Qed.

Lemma file_operations_come_from_matching_rules_witness :
  NoDup (dict_keys (extract_file_operations_with patterns "Add a login form")) ∧
  (∀ file op,
     (file, op) ∈ extract_file_operations_with patterns "Add a login form" →
     FileOperation.requirement op = "Add a login form" ∧
     ∃ pattern,
       pattern ∈ patterns ∧
       Pattern.condition pattern (lower "Add a login form") = true ∧
       (file, FileOperation.operation op) ∈ Pattern.files pattern ∧
       FileOperation.domain op = Pattern.domain pattern) ∧
  (∀ pattern file,
     pattern ∈ patterns →
     Pattern.condition pattern (lower "Add a login form") = true →
     file ∈ dict_keys (Pattern.files pattern) →
     file ∈ dict_keys (extract_file_operations_with patterns "Add a login form")).
Proof.
  apply (file_operations_come_from_matching_rules patterns "Add a login form").
  reflexivity.
Defined.

(** What every agent made by [generate_exclusive_agents] has, given what
    [create_agent_for_domain] gives each of them. *)
Lemma generate_agents_each (so : SetOrder) (P : string → list string → Agent.t → Prop)
    (all0 : pydict (list OpEntry.t)) :
  (∀ self domain files agent,
     Decomposer.all_file_operations self = all0 →
     create_agent_for_domain so self domain files = Ok agent →
     P domain files agent) →
  ∀ items agents0 self0 agents self',
    Decomposer.all_file_operations self0 = all0 →
    res_fold
      (fun '(agents, self) '(domain, files) =>
         agent ←! create_agent_for_domain so self domain files;
         Ok (agents ++ [agent],
             Decomposer.with_agent_ownership
               (dict_set (Agent.id agent) files (Decomposer.agent_ownership self))
               self))
      (agents0, self0) items = Ok (agents, self') →
    ∃ new,
      agents = agents0 ++ new ∧
      Forall2 (fun agent kv => P kv.1 kv.2 agent) new items ∧
      Decomposer.exclusive_domains self' = Decomposer.exclusive_domains self0 ∧
      Decomposer.all_file_operations self' = all0.
Proof.
  intros HP. induction items as [|[domain files] items IH];
    intros agents0 self0 agents self' Hall; cbn [res_fold].
  - intros [= <- <-]. exists []. by rewrite app_nil_r.
  - destruct (create_agent_for_domain so self0 domain files) as [agent|e] eqn:Hagent;
      cbn [res_bind]; [|done].
    intros Hrun. apply IH in Hrun as (new & -> & Hnew & Hdomains & Hall'); [|exact Hall].
    exists (agent :: new). split; [by rewrite <- app_assoc|].
    split; [|split; [exact Hdomains | exact Hall']].
    constructor; [|exact Hnew]. by apply (HP self0).
Qed.

Lemma domain_config_id (domain : string) :
  WorkDomain.id (domain_config domain) = domain +:+ "_agent".
Proof.
  unfold domain_config, domain_configs. cbn [dict_get].
  repeat (case_decide; [subst; reflexivity|]). reflexivity.
Qed.

Lemma create_agent_id (so : SetOrder) (self : Decomposer.t) (domain : string)
    (files : list string) (agent : Agent.t) :
  create_agent_for_domain so self domain files = Ok agent →
  Agent.id agent = domain +:+ "_agent".
Proof.
  unfold create_agent_for_domain. cbv zeta.
  destruct (split_files _ files) as [[c m]|]; cbn [res_bind]; [|done].
  destruct (get_requirements_for_domain so self domain); cbn [res_bind]; [|done].
  intros [= <-]. apply domain_config_id.
Qed.

Lemma append_inj_l (s1 s2 t : string) : s1 +:+ t = s2 +:+ t → s1 = s2.
Proof.
  intros H.
  assert (Hlen : ∀ a b, String.length (a +:+ b) = (String.length a + String.length b)%nat).
  { intros a b. induction a as [|c a IH]; [done|]. rewrite app_String. cbn. by rewrite IH. }
  revert s2 H. induction s1 as [|c s1 IH]; intros [|d s2] H.
  - done.
  - apply (f_equal String.length) in H. rewrite !Hlen in H. cbn in H. lia.
  - apply (f_equal String.length) in H. rewrite !Hlen in H. cbn in H. lia.
  - rewrite !app_String in H. injection H as -> H. f_equal. by apply IH.
Qed.

Lemma split_files_created (all : pydict (list OpEntry.t)) (files : list string) :
  all_created all →
  ∀ c0 m0 c m,
    res_fold
      (fun '(files_to_create, files_to_modify) file =>
         operations ←! dict_index file all;
         match operations with
         | first :: _ =>
             if decide (FileOperation.operation (OpEntry.operation first) = "CREATE")
             then Ok (files_to_create ++ [file], files_to_modify)
             else Ok (files_to_create, files_to_modify ++ [file])
         | [] => Ok (files_to_create, files_to_modify ++ [file])
         end)
      (c0, m0) files = Ok (c, m) →
    c = c0 ++ files ∧ m = m0.
Proof.
  intros Hall. induction files as [|file files IH]; intros c0 m0 c m; cbn [res_fold].
  - intros [= <- <-]. by rewrite app_nil_r.
  - unfold dict_index. destruct (dict_get file all) as [operations|] eqn:Hget;
      cbn [res_bind]; [|done].
    apply dict_get_Some_elem in Hget. destruct (Hall _ _ Hget) as [Hne Hcreate].
    destruct operations as [|first operations]; [done|].
    apply Forall_cons in Hcreate as [Hfirst _]. rewrite decide_True by done.
    cbn [res_bind]. intros Hrun. apply IH in Hrun as [-> ->].
    by rewrite <- app_assoc.
Qed.

Lemma create_agent_created (so : SetOrder) (self : Decomposer.t) (domain : string)
    (files : list string) (agent : Agent.t) :
  all_created (Decomposer.all_file_operations self) →
  create_agent_for_domain so self domain files = Ok agent →
  Agent.files_to_create agent = files ∧ Agent.files_to_modify agent = [].
Proof.
  intros Hall. unfold create_agent_for_domain. cbv zeta.
  destruct (split_files _ files) as [[c m]|] eqn:Hsplit; cbn [res_bind]; [|done].
  apply (split_files_created _ _ Hall) in Hsplit as [-> ->].
  destruct (get_requirements_for_domain so self domain); cbn [res_bind]; [|done].
  by intros [= <-].
Qed.

Lemma record_operations_created (table : list Pattern.t) (requirements : list string)
    (all : pydict (list OpEntry.t)) :
  creates_only table → all_created all →
  all_created (record_operations table requirements all).
Proof.
  intros Htable. unfold record_operations. revert all.
  induction requirements as [|requirement requirements IH]; intros all Hall; [done|].
  cbn [fold_left]. apply IH. clear IH.
  assert (Hsource : ∀ file op,
            (file, op) ∈ extract_file_operations_with table requirement →
            FileOperation.operation op = "CREATE").
  { intros file op Hin.
    destruct (extracted_operation_source _ _ _ _ Hin) as (p & o & Hp & _ & -> & Ho).
    exact (Htable p file o Hp Ho). }
  revert Hsource. generalize (extract_file_operations_with table requirement).
  intros operations. revert all Hall.
  induction operations as [|[file op] operations IH]; intros all Hall Hsource; [done|].
  cbn [fold_left]. apply IH; [|intros f o Hin; apply (Hsource f o); by right].
  intros f l Hin. apply dict_append_entry in Hin as [Hin|[-> (l0 & -> & Hl0)]].
  - exact (Hall _ _ Hin).
  - split; [by destruct l0|]. apply Forall_app. split.
    + destruct Hl0 as [->|Hl0]; [constructor|exact (proj2 (Hall _ _ Hl0))].
    + constructor; [|constructor]. cbn. apply (Hsource file). left.
Qed.

(** A pattern-based run from a fresh decomposer, with what each stage
    leaves behind. *)
Lemma pattern_run (table : list Pattern.t) (so : SetOrder) (self : Decomposer.t)
    (issue : LinearIssue.t) :
  Decomposer.linear_issue self = Some issue →
  Decomposer.all_file_operations self = [] →
  Decomposer.exclusive_domains self = [] →
  ∃ agents self3 plan order,
    pattern_based_analysis table so self
    = Ok (plan, save_deployment_plan plan (LinearIssue.id issue) self3) ∧
    Decomposer.all_file_operations self3
    = record_operations table (LinearIssue.requirements issue) [] ∧
    NoDup (dict_keys (Decomposer.exclusive_domains self3)) ∧
    Forall2
      (fun agent kv =>
         Agent.id agent = kv.1 +:+ "_agent" ∧
         (all_created (Decomposer.all_file_operations self3) →
          Agent.files_to_create agent = kv.2 ∧ Agent.files_to_modify agent = []))
      agents (Decomposer.exclusive_domains self3) ∧
    plan_agents plan = agent_to_dict <$> agents ∧
    calculate_merge_order agents = Ok order ∧
    (yaml_get "integrationPlan" plan ≫= yaml_get "mergeOrder") = Some (ystrs order) ∧
    ∃ self1 self2,
      analyze_file_operations table self = Ok self1 ∧
      create_exclusive_domains (build_dependency_graph self1) = Ok self2 ∧
      generate_exclusive_agents so self2 = Ok (agents, self3) ∧
      validate_no_conflicts agents = Ok tt ∧
      generate_deployment_plan self3 agents = Ok plan.
Proof.
  intros Hissue Hall Hdomains.
  destruct (pattern_based_analysis_stages table so self issue Hissue)
    as (self1 & self2 & agents & self3 & plan & H1 & H2 & H3 & H4 & H5 & H6 & _ & _ & _ & _ & Hi3).
  { rewrite Hall. split; constructor. }
  { exact Hdomains. }
  pose proof H1 as S1. pose proof H2 as S2. pose proof H3 as S3.
  unfold analyze_file_operations, Decomposer.issue in H1. rewrite Hissue in H1.
  cbn [res_bind] in H1. injection H1 as <-. rewrite Hall in H2.
  destruct (create_exclusive_domains_ok
              (build_dependency_graph
                 (Decomposer.with_all_file_operations
                    (record_operations table (LinearIssue.requirements issue) []) self)))
    as (groups & H2' & Hnd & _).
  { apply record_operations_well_formed. split; constructor. }
  { exact Hdomains. }
  rewrite H2 in H2'. injection H2' as ->.
  unfold generate_exclusive_agents in H3.
  assert (HP : ∀ s d f a,
            Decomposer.all_file_operations s
            = record_operations table (LinearIssue.requirements issue) [] →
            create_agent_for_domain so s d f = Ok a →
            Agent.id a = d +:+ "_agent" ∧
            (all_created (record_operations table (LinearIssue.requirements issue) []) →
             Agent.files_to_create a = f ∧ Agent.files_to_modify a = [])).
  { intros s d f a Hs Ha. split; [exact (create_agent_id _ _ _ _ _ Ha)|].
    intros Hc. apply (create_agent_created so s d f a); [by rewrite Hs | exact Ha]. }
  pose proof (fun Hall0 =>
                generate_agents_each so _ _ HP _ _ _ _ _ Hall0 H3) as Heach.
  destruct (Heach eq_refl)
    as (new & Hagents & Hnew & He3 & Ha3).
  cbn [app] in Hagents. subst new.
  destruct (generate_deployment_plan_ok self3 issue agents Hi3)
    as (plan' & order & Hplan' & Horder & Hip & Hagents & _).
  rewrite H5 in Hplan'. injection Hplan' as <-.
  exists agents, self3, plan, order.
  split; [exact H6|]. split; [exact Ha3|]. rewrite He3, Ha3.
  split; [exact Hnd|]. split; [exact Hnew|]. split; [exact Hagents|].
  split; [exact Horder|]. split; [by rewrite Hip|].
  eexists _, _. split; [exact S1|]. split; [exact S2|]. split; [exact S3|].
  split; [exact H4|exact H5].
Qed.

Lemma loaded_fresh (issue_id : string) (cache : option IssueData.t) (use_hybrid : bool) :
  Decomposer.all_file_operations
    (load_linear_issue issue_id cache (Decomposer.init use_hybrid)) = [] ∧
  Decomposer.exclusive_domains
    (load_linear_issue issue_id cache (Decomposer.init use_hybrid)) = [].
Proof. by destruct cache. Qed.

(** X7. The plan that the stages of the pattern-based pipeline build, one
    after the other, out of a loaded issue whose requirements are ASCII
    text: the agent of a domain is named [<domain>_agent], and the merge
    order of the plan built is a rearrangement of these names over the
    exclusive domains, with no name twice. The writing of the plan comes
    after these stages and is no part of the statement. *)
Theorem merge_order_names_each_domain_once (table : list Pattern.t) (so : SetOrder)
    (issue_id : string) (cache : option IssueData.t) (use_hybrid : bool) :
  (∀ issue,
     Decomposer.linear_issue
       (load_linear_issue issue_id cache (Decomposer.init use_hybrid)) = Some issue →
     Forall ascii_text (LinearIssue.requirements issue)) →
  ∃ self1 self2 agents self3 plan order,
    analyze_file_operations table
      (load_linear_issue issue_id cache (Decomposer.init use_hybrid)) = Ok self1 ∧
    create_exclusive_domains (build_dependency_graph self1) = Ok self2 ∧
    generate_exclusive_agents so self2 = Ok (agents, self3) ∧
    validate_no_conflicts agents = Ok tt ∧
    generate_deployment_plan self3 agents = Ok plan ∧
    (yaml_get "integrationPlan" plan ≫= yaml_get "mergeOrder") = Some (ystrs order) ∧
    order ≡ₚ (fun domain => domain +:+ "_agent")
               <$> dict_keys (Decomposer.exclusive_domains self3) ∧
    NoDup order.
Proof.
  intros _.
  destruct (loaded_decomposer issue_id cache use_hybrid) as (issue & Hissue & _).
  destruct (loaded_fresh issue_id cache use_hybrid) as [Hall Hdomains].
  destruct (pattern_run table so _ issue Hissue Hall Hdomains)
    as (agents & self3 & plan & order & _ & _ & Hnd & Heach & _ & Horder & Hmerge
        & self1 & self2 & S1 & S2 & S3 & S4 & S5).
  exists self1, self2, agents, self3, plan, order.
  split; [exact S1|]. split; [exact S2|]. split; [exact S3|]. split; [exact S4|].
  split; [exact S5|]. split; [exact Hmerge|].
  assert (Hids : agent_ids agents
                 = (fun domain => domain +:+ "_agent")
                     <$> dict_keys (Decomposer.exclusive_domains self3)).
  { clear -Heach. unfold agent_ids, dict_keys.
    induction Heach as [|agent [domain files] agents items [Hid _] _ IH]; [done|].
    cbn [fmap list_fmap fst]. cbn [fst] in Hid. rewrite Hid. f_equal. exact IH. }
  destruct (merge_loop_total agents []) as (order' & Horder' & Hperm).
  unfold calculate_merge_order in Horder. rewrite Horder in Horder'.
  injection Horder' as <-. cbn [app] in Hperm. rewrite Hids in Hperm.
  split; [exact Hperm|]. rewrite Hperm.
  apply NoDup_fmap_2; [|exact Hnd]. intros d1 d2. apply append_inj_l.
Qed.

Lemma merge_order_names_each_domain_once_witness :
  ∃ self1 self2 agents self3 plan order,
    analyze_file_operations patterns
      (load_linear_issue "ISSUE-1"
         (Some (IssueData.mk None None (Some "Add a login form"))) (Decomposer.init false))
    = Ok self1 ∧
    create_exclusive_domains (build_dependency_graph self1) = Ok self2 ∧
    generate_exclusive_agents first_seen_order self2 = Ok (agents, self3) ∧
    validate_no_conflicts agents = Ok tt ∧
    generate_deployment_plan self3 agents = Ok plan ∧
    (yaml_get "integrationPlan" plan ≫= yaml_get "mergeOrder") = Some (ystrs order) ∧
    order ≡ₚ (fun domain => domain +:+ "_agent")
               <$> dict_keys (Decomposer.exclusive_domains self3) ∧
    NoDup order.
Proof.
  apply (merge_order_names_each_domain_once patterns first_seen_order "ISSUE-1"
           (Some (IssueData.mk None None (Some "Add a login form"))) false).
  intros issue [= <-]. repeat constructor.
Defined.

(** X8. With a rule table that only creates files, as [patterns] does, the
    agent of each domain of a pattern-based plan has the files of that
    domain, in the same order, as its [filesToCreate] and nothing as its
    [filesToModify]. *)
Theorem pattern_plan_creates_domain_files (table : list Pattern.t) (so : SetOrder)
    (issue_id : string) (cache : option IssueData.t) (use_hybrid : bool) :
  creates_only table →
  ∃ plan self',
    pattern_based_analysis table so
      (load_linear_issue issue_id cache (Decomposer.init use_hybrid)) = Ok (plan, self') ∧
    Forall2
      (fun agent kv =>
         yaml_get "filesToCreate" agent = Some (ystrs kv.2) ∧
         yaml_get "filesToModify" agent = Some (ystrs []))
      (plan_agents plan) (Decomposer.exclusive_domains self').
Proof.
  intros Htable.
  destruct (loaded_decomposer issue_id cache use_hybrid) as (issue & Hissue & _).
  destruct (loaded_fresh issue_id cache use_hybrid) as [Hall Hdomains].
  destruct (pattern_run table so _ issue Hissue Hall Hdomains)
    as (agents & self3 & plan & order & Hrun & Hall3 & _ & Heach & Hagents & _).
  exists plan, (save_deployment_plan plan (LinearIssue.id issue) self3).
  split; [exact Hrun|]. rewrite Hagents.
  change (Decomposer.exclusive_domains
            (save_deployment_plan plan (LinearIssue.id issue) self3))
    with (Decomposer.exclusive_domains self3).
  assert (Hcreated : all_created (Decomposer.all_file_operations self3)).
  { rewrite Hall3. apply record_operations_created; [exact Htable|].
    intros f l Hin. by apply elem_of_nil in Hin. }
  apply Forall2_fmap_l. eapply Forall2_impl; [exact Heach|].
  intros agent [domain files] [_ Hfiles]. destruct (Hfiles Hcreated) as [Hc Hm].
  unfold compose. cbn [snd] in *.
  change (yaml_get "filesToCreate" (agent_to_dict agent))
    with (Some (ystrs (Agent.files_to_create agent))).
  change (yaml_get "filesToModify" (agent_to_dict agent))
    with (Some (ystrs (Agent.files_to_modify agent))).
  by rewrite Hc, Hm.
Qed.

Lemma patterns_creates_only : creates_only patterns.
Proof.
  intros pattern file operation Hp Hf. unfold patterns in Hp.
  repeat (apply elem_of_cons in Hp as [->|Hp];
          [cbn [Pattern.files] in Hf;
           repeat (apply elem_of_cons in Hf as [[= _ <-]|Hf]; [reflexivity|]);
           by apply elem_of_nil in Hf|]).
  by apply elem_of_nil in Hp.
Qed.

Lemma pattern_plan_creates_domain_files_witness :
  ∃ plan self',
    pattern_based_analysis patterns first_seen_order
      (load_linear_issue "ISSUE-1"
         (Some (IssueData.mk None None (Some "Add a login form"))) (Decomposer.init false))
    = Ok (plan, self') ∧
    Forall2
      (fun agent kv =>
         yaml_get "filesToCreate" agent = Some (ystrs kv.2) ∧
         yaml_get "filesToModify" agent = Some (ystrs []))
      (plan_agents plan) (Decomposer.exclusive_domains self').
Proof.
  apply (pattern_plan_creates_domain_files patterns first_seen_order "ISSUE-1"
           (Some (IssueData.mk None None (Some "Add a login form"))) false).
  exact patterns_creates_only.
Defined.






(** ** The dependency graph *)

Lemma dict_set_fold {V : Type} (value : string → V) (files : list string) :
  ∀ graph : pydict V,
    let result := fold_left (fun graph file => dict_set file (value file) graph) files graph in
    (NoDup (dict_keys graph) → NoDup (dict_keys result)) ∧
    (∀ file, file ∈ dict_keys result ↔ file ∈ dict_keys graph ∨ file ∈ files) ∧
    (∀ file v, (file, v) ∈ result → (file, v) ∈ graph ∨ (file ∈ files ∧ v = value file)).
Proof.
  induction files as [|f files IH]; intros graph; cbn [fold_left].
  - split; [done|]. split.
    + intros file. split; [by left|]. intros [?|H]; [done|by apply elem_of_nil in H].
    + intros file v H. by left.
  - destruct (IH (dict_set f (value f) graph)) as (Hnd & Hkeys & Hentries).
    split; [intros H; by apply Hnd, dict_set_NoDup|]. split.
    + intros file. rewrite (Hkeys file), dict_set_elem_keys, elem_of_cons. tauto.
    + intros file v H. destruct (Hentries file v H) as [Hin|[Hin ->]].
      * apply dict_set_entry in Hin as [[-> ->]|Hin]; [right; split; [left|done]|by left].
      * right. split; [by right|done].
Qed.

(** X10. The dependency graph built over a fresh decomposer has one entry for
    each recorded file and for nothing else; the dependencies of a file are
    recorded files, and never the file itself. *)
Theorem dependency_graph_over_recorded_files (self : Decomposer.t) :
  Decomposer.dependency_graph self = [] →
  NoDup (dict_keys (Decomposer.dependency_graph (build_dependency_graph self))) ∧
  (∀ file,
     file ∈ dict_keys (Decomposer.dependency_graph (build_dependency_graph self)) ↔
     file ∈ dict_keys (Decomposer.all_file_operations self)) ∧
  (∀ file dependencies other_file,
     (file, dependencies) ∈ Decomposer.dependency_graph (build_dependency_graph self) →
     other_file ∈ dependencies →
     other_file ≠ file ∧ other_file ∈ dict_keys (Decomposer.all_file_operations self)).
Proof.
  intros Hfresh. unfold build_dependency_graph. cbv zeta.
  cbn [Decomposer.dependency_graph Decomposer.with_dependency_graph]. rewrite Hfresh.
  match goal with
  | |- context [fold_left (fun graph file => dict_set file (@?value file) graph) ?files []] =>
      destruct (dict_set_fold value files []) as (Hnd & Hkeys & Hentries)
  end.
  cbv zeta in Hnd, Hkeys, Hentries.
  split; [apply Hnd; constructor|]. split.
  - intros file. rewrite (Hkeys file). split; [intros [H|H]; [by apply elem_of_nil in H|done]|by right].
  - intros file dependencies other_file Hin Hother.
    destruct (Hentries file dependencies Hin) as [Hnil|[_ ->]]; [by apply elem_of_nil in Hnil|].
    apply list_elem_of_In, in_flat_map in Hother as (rule & _ & Hother).
    destruct (rule_matches rule file); [|done].
    apply in_flat_map in Hother as (other & Hfile & Hother).
    destruct (decide (other ≠ file)) as [Hne|]; [|done].
    apply in_flat_map in Hother as (dep & _ & Hother).
    destruct (_ || _); [|done]. destruct Hother as [<-|[]].
    split; [done|]. by apply list_elem_of_In.
Qed.

Lemma dependency_graph_over_recorded_files_witness :
  NoDup (dict_keys (Decomposer.dependency_graph
                      (build_dependency_graph (analyzed_example)))) ∧
  (∀ file,
     file ∈ dict_keys (Decomposer.dependency_graph (build_dependency_graph analyzed_example)) ↔
     file ∈ dict_keys (Decomposer.all_file_operations analyzed_example)) ∧
  (∀ file dependencies other_file,
     (file, dependencies)
     ∈ Decomposer.dependency_graph (build_dependency_graph analyzed_example) →
     other_file ∈ dependencies →
     other_file ≠ file ∧
     other_file ∈ dict_keys (Decomposer.all_file_operations analyzed_example)).
Proof.
  apply (dependency_graph_over_recorded_files analyzed_example). reflexivity.
Defined.

(** ** Test contracts and [pathlib] *)

Lemma app_empty_r (s : string) : s +:+ EmptyString = s.
Proof. induction s as [|c s IH]; [done|]. rewrite app_String. by rewrite IH. Qed.

Lemma app_assoc_str (s t u : string) : (s +:+ t) +:+ u = s +:+ (t +:+ u).
Proof. induction s as [|c s IH]; [done|]. rewrite !app_String. by rewrite IH. Qed.

Lemma split_on_nonempty (c : ascii) (s : string) : split_on c s ≠ [].
Proof.
  induction s as [|d s IH]; [done|]. cbn [split_on].
  destruct (decide (d = c)); [done|]. by destruct (split_on c s).
Qed.

(** [(s + sep + t).split(sep) == s.split(sep) + t.split(sep)] *)
Lemma split_on_sep (c : ascii) (s t : string) :
  split_on c (s +:+ String c t) = split_on c s ++ split_on c t.
Proof.
  induction s as [|d s IH].
  - change (EmptyString +:+ String c t) with (String c t).
    cbn [split_on]. by rewrite decide_True.
  - rewrite app_String. cbn [split_on]. destruct (decide (d = c)); [by rewrite IH|].
    rewrite IH. pose proof (split_on_nonempty c s). by destruct (split_on c s).
Qed.

Lemma str_free_nonempty_dot_ext (base ext : string) :
  ext ≠ EmptyString → base +:+ "." +:+ ext ≠ ".".
Proof.
  intros Hext. destruct base as [|c base].
  - change (EmptyString +:+ "." +:+ ext) with (String "." ext). intros [= ->]. done.
  - rewrite app_String. intros [= -> H]. by destruct base.
Qed.

Lemma path_name_simple (prefix name : string) :
  dir_prefix prefix → name ≠ EmptyString → name ≠ "." → str_free "/" name →
  path_name (prefix +:+ name) = name.
Proof.
  intros Hprefix Hne Hdot Hfree. unfold path_name.
  destruct Hprefix as [->|[dir ->]].
  - change (EmptyString +:+ name) with name. rewrite (split_on_free _ _ Hfree).
    rewrite filter_cons_True by done. done.
  - rewrite app_assoc_str. change ("/" +:+ name) with (String "/" name).
    rewrite split_on_sep, (split_on_free _ _ Hfree), filter_app.
    rewrite (filter_cons_True _ name) by done. rewrite filter_nil.
    apply last_last.
Qed.

Lemma rsplit_dot_free (s : string) : str_free "." s → rsplit_dot s = None.
Proof.
  unfold str_free. induction s as [|c s IH]; [done|]. cbn [str_all rsplit_dot].
  intros H. apply andb_prop in H as [Hc Hs].
  apply negb_true_iff, bool_decide_eq_false in Hc.
  rewrite (IH Hs). by rewrite decide_False.
Qed.

Lemma rsplit_dot_app (base s pre suf : string) :
  rsplit_dot s = Some (pre, suf) → rsplit_dot (base +:+ s) = Some (base +:+ pre, suf).
Proof.
  intros H. induction base as [|c base IH]; [done|].
  rewrite !app_String. cbn [rsplit_dot]. by rewrite IH.
Qed.

Lemma app_length_str (s t : string) :
  String.length (s +:+ t) = (String.length s + String.length t)%nat.
Proof. induction s as [|c s IH]; [done|]. rewrite app_String. cbn. by rewrite IH. Qed.

Lemma split_suffix_simple (base ext : string) :
  base ≠ EmptyString → ext ≠ EmptyString → str_free "." ext →
  split_suffix (base +:+ "." +:+ ext) = (base, "." +:+ ext).
Proof.
  intros Hbase Hext Hfree. unfold split_suffix.
  rewrite (rsplit_dot_app base ("." +:+ ext) EmptyString ("." +:+ ext)).
  - rewrite app_empty_r.
    destruct base as [|c base]; [done|]. destruct ext as [|d ext]; [done|]. done.
  - change ("." +:+ ext) with (String "." ext). cbn [rsplit_dot].
    rewrite (rsplit_dot_free _ Hfree). by rewrite decide_True.
Qed.

(** X11. There are at most three test contracts, one for each of the first
    three files. The contract of a file [<dir>/<base>.<ext>] keeps the base
    name and drops the directory: it is [<base>.test.tsx] when the extension
    is [tsx] and [<base>.test.ts] for every other extension. *)
Theorem test_contracts_keep_base_names (domain : string) :
  (∀ files,
     length (generate_test_contracts domain files) = min 3 (length files)) ∧
  (∀ prefix base ext,
     dir_prefix prefix →
     base ≠ EmptyString → str_free "/" base →
     ext ≠ EmptyString → str_free "/" ext → str_free "." ext →
     generate_test_contracts domain [prefix +:+ base +:+ "." +:+ ext]
     = [base +:+ (if decide (ext = "tsx") then ".test.tsx" else ".test.ts")]).
Proof.
  split.
  - intros files. unfold generate_test_contracts.
    rewrite length_fmap, length_take. lia.
  - intros prefix base ext Hprefix Hbase Hbfree Hext Hefree Hdot.
    unfold generate_test_contracts. cbn [take fmap list_fmap]. cbv zeta.
    unfold path_suffix, path_stem.
    rewrite (path_name_simple prefix (base +:+ "." +:+ ext)).
    + rewrite (split_suffix_simple _ _ Hbase Hext Hdot). cbn [fst snd].
      destruct (decide (ext = "tsx")) as [->|Hne].
      * by rewrite decide_True.
      * rewrite decide_False; [done|]. intros [= ?]. done.
    + exact Hprefix.
    + intros H. apply (f_equal String.length) in H. rewrite !app_length_str in H.
      destruct ext; [done|]. cbn in H. lia.
    + by apply str_free_nonempty_dot_ext.
    + unfold str_free in *. rewrite !str_all_app, Hbfree, Hefree. reflexivity.
Qed.

Lemma test_contracts_keep_base_names_witness :
  generate_test_contracts "ui" ["components/ui/Button.tsx"] = ["Button.test.tsx"].
Proof.
  destruct (test_contracts_keep_base_names "ui") as [_ Hname].
  apply (Hname "components/ui/" "Button" "tsx").
  - right. by exists "components/ui".
  - discriminate.
  - reflexivity.
  - discriminate.
  - reflexivity.
  - reflexivity.
Defined.

(** ** The spawn stage *)

Lemma unique_agents_fold (agents : list PlanAgent.t) :
  ∀ acc,
    let result :=
      fold_left
        (fun agents agent =>
           match PlanAgent.agentId agent with
           | Some agent_id =>
               if negb (bool_decide (agent_id = EmptyString))
                  && negb (bool_decide (agent_id ∈ agents))
               then agents ++ [agent_id] else agents
           | None => agents
           end)
        agents acc in
    (NoDup acc → NoDup result) ∧
    (∀ agent_id, agent_id ∈ result ↔
       agent_id ∈ acc ∨
       (agent_id ≠ EmptyString ∧
        ∃ a, a ∈ agents ∧ PlanAgent.agentId a = Some agent_id)) ∧
    acc `prefix_of` result.
Proof.
  induction agents as [|a agents IH]; intros acc; cbn [fold_left].
  - split; [done|]. split; [|done].
    intros agent_id. split; [by left|]. intros [?|(_ & a & Ha & _)]; [done|].
    by apply elem_of_nil in Ha.
  - destruct (PlanAgent.agentId a) as [id|] eqn:Hid.
    + destruct (negb (bool_decide (id = EmptyString)) && negb (bool_decide (id ∈ acc)))
        eqn:Hnew.
      * apply andb_prop in Hnew as [Hne Hfresh].
        apply negb_true_iff, bool_decide_eq_false in Hne, Hfresh.
        destruct (IH (acc ++ [id])) as (Hnd & Hmem & Hpre).
        split; [|split].
        -- intros Hacc. apply Hnd. apply NoDup_app. split; [done|].
           split; [|apply NoDup_singleton].
           intros x Hx Hx'. apply list_elem_of_singleton in Hx'. by subst.
        -- intros agent_id. rewrite (Hmem agent_id), elem_of_app, list_elem_of_singleton.
           split.
           ++ intros [[?| ->]|(Hn & b & Hb & Hbid)]; [by left| |].
              ** right. split; [done|]. exists a. split; [left|done].
              ** right. split; [done|]. exists b. split; [by right|done].
           ++ intros [?|(Hn & b & Hb & Hbid)]; [left; by left|].
              apply elem_of_cons in Hb as [->|Hb].
              ** rewrite Hid in Hbid. injection Hbid as ->. left. by right.
              ** right. split; [done|]. by exists b.
        -- etrans; [|exact Hpre]. by apply prefix_app_r.
      * destruct (IH acc) as (Hnd & Hmem & Hpre).
        split; [done|]. split; [|done].
        intros agent_id. rewrite (Hmem agent_id). split.
        -- intros [?|(Hn & b & Hb & Hbid)]; [by left|].
           right. split; [done|]. exists b. split; [by right|done].
        -- intros [?|(Hn & b & Hb & Hbid)]; [by left|].
           apply elem_of_cons in Hb as [->|Hb].
           ++ rewrite Hid in Hbid. injection Hbid as ->. left.
              apply andb_false_iff in Hnew as [Hnew|Hnew];
                apply negb_false_iff, bool_decide_eq_true in Hnew; done.
           ++ right. split; [done|]. by exists b.
    + destruct (IH acc) as (Hnd & Hmem & Hpre).
      split; [done|]. split; [|done].
      intros agent_id. rewrite (Hmem agent_id). split.
      * intros [?|(Hn & b & Hb & Hbid)]; [by left|].
        right. split; [done|]. exists b. split; [by right|done].
      * intros [?|(Hn & b & Hb & Hbid)]; [by left|].
        apply elem_of_cons in Hb as [->|Hb]; [by rewrite Hid in Hbid|].
        right. split; [done|]. by exists b.
Qed.

(** X12. [get_unique_agents] returns every non-empty agent id of the plan
    and nothing else, each id once; and agents added at the end of a plan
    leave the ids found before them where they were. *)
Theorem unique_agents_once_in_first_order (plan : Plan.t) :
  NoDup (get_unique_agents plan) ∧
  (∀ agent_id,
     agent_id ∈ get_unique_agents plan ↔
     agent_id ≠ EmptyString ∧
     ∃ a, a ∈ default [] (Plan.parallelAgents plan) ∧
          PlanAgent.agentId a = Some agent_id) ∧
  (∀ more,
     get_unique_agents plan
     `prefix_of`
     get_unique_agents
       (Plan.mk (Plan.taskId plan) (Plan.taskTitle plan)
          (Some (default [] (Plan.parallelAgents plan) ++ more)))).
Proof.
  unfold get_unique_agents.
  destruct (unique_agents_fold (default [] (Plan.parallelAgents plan)) [])
    as (Hnd & Hmem & _).
  split; [apply Hnd; constructor|]. split.
  - intros agent_id. rewrite (Hmem agent_id). split; [|by right].
    intros [H|H]; [by apply elem_of_nil in H|done].
  - intros more. cbn [Plan.parallelAgents from_option id]. rewrite fold_left_app.
    apply (unique_agents_fold more).
Qed.

Lemma agent_info_fold (agent_id : string) (agents : list PlanAgent.t) :
  ∀ dependencies can_start,
    fold_left
      (fun '(dependencies, can_start_immediately) pa =>
         if bool_decide (PlanAgent.agentId pa = Some agent_id) then
           let deps := default [] (PlanAgent.dependencies pa) in
           if negb (bool_decide (deps = []))
           then (dependencies ++ deps, false)
           else (dependencies, can_start_immediately)
         else (dependencies, can_start_immediately))
      agents (dependencies, can_start)
    = (fold_left (fun acc a => acc ++ default [] (PlanAgent.dependencies a))
         (filter (fun a => PlanAgent.agentId a = Some agent_id) agents) dependencies,
       can_start
       && forallb (fun a => (length (default [] (PlanAgent.dependencies a)) =? 0)%nat)
            (filter (fun a => PlanAgent.agentId a = Some agent_id) agents)).
Proof.
  induction agents as [|a agents IH]; intros dependencies can_start; cbn [fold_left].
  - by rewrite andb_true_r.
  - destruct (decide (PlanAgent.agentId a = Some agent_id)) as [Hid|Hid].
    + rewrite bool_decide_eq_true_2 by done. rewrite filter_cons_True by done.
      cbn [fold_left forallb]. cbv zeta.
      destruct (default [] (PlanAgent.dependencies a)) as [|d deps] eqn:Hdeps.
      * cbn [negb bool_decide decide_rel]. rewrite bool_decide_eq_true_2 by done.
        cbn [negb]. rewrite IH, app_nil_r. done.
      * rewrite bool_decide_eq_false_2 by done. cbn [negb]. rewrite IH.
        cbn [length Nat.eqb andb]. by rewrite andb_false_r.
    + rewrite bool_decide_eq_false_2 by done. rewrite filter_cons_False by done.
      apply IH.
Qed.

(** X13. The coordination status and the agent context are computed by two
    different loops, and agree: for every agent the status has the same
    [canStartImmediately] and the same [dependencies] as the context of that
    agent, and the branch [<task_id>-<agent_id>]. *)
Theorem coordination_status_agrees_with_context (so : SetOrder)
    (created_at last_updated now : string) (plan : Plan.t) (agents : list string)
    (task_id : string) :
  Forall
    (fun info =>
       ∀ branch_name worktree_path,
         let context :=
           create_agent_context so now plan (AgentInfo.agentId info)
             branch_name worktree_path in
         AgentInfo.canStartImmediately info = AgentContext.canStartImmediately context ∧
         AgentInfo.dependencies info = AgentContext.dependencies context ∧
         AgentInfo.branchName info = task_id +:+ "-" +:+ AgentInfo.agentId info)
    (StatusData.agents
       (create_coordination_status so created_at last_updated plan agents task_id)) ∧
  AgentInfo.agentId
  <$> StatusData.agents
        (create_coordination_status so created_at last_updated plan agents task_id)
  = agents.
Proof.
  unfold create_coordination_status. cbn [StatusData.agents]. split.
  - apply Forall_fmap, Forall_forall. intros agent_id _ branch_name worktree_path.
    unfold compose, agent_info, create_agent_context.
    rewrite agent_info_fold. cbv zeta.
    cbn [AgentInfo.canStartImmediately AgentInfo.dependencies AgentInfo.branchName
         AgentInfo.agentId AgentContext.canStartImmediately AgentContext.dependencies].
    done.
  - rewrite <- list_fmap_compose. rewrite <- (list_fmap_id agents) at 2.
    apply list_fmap_ext. intros i agent_id _.
    unfold compose, agent_info. by destruct (fold_left _ _ _).
Qed.

(** *** The order of strings *)

Lemma str_le_trans (a b c : string) : str_le a b → str_le b c → str_le a c.
Proof.
  unfold str_le, String.leb. revert b c.
  induction a as [|x a IH]; intros [|y b] [|z c]; cbn [String.compare]; try done.
  unfold Ascii.compare.
  destruct (N.compare_spec (N_of_ascii x) (N_of_ascii y)) as [Hxy|Hxy|Hxy];
    destruct (N.compare_spec (N_of_ascii y) (N_of_ascii z)) as [Hyz|Hyz|Hyz];
    destruct (N.compare_spec (N_of_ascii x) (N_of_ascii z)) as [Hxz|Hxz|Hxz];
    try done; try lia.
  apply IH.
Qed.

Lemma str_le_antisym (a b : string) : str_le a b → str_le b a → a = b.
Proof. apply String.leb_antisym. Qed.

Lemma str_le_total (a b : string) : str_le a b ∨ str_le b a.
Proof. apply String.leb_total. Qed.

Lemma sorted_permutation (l1 l2 : list string) : l1 ≡ₚ l2 → sorted l1 = sorted l2.
Proof.
  intros Hperm. unfold sorted.
  apply (@Sorted_unique _ str_le str_le_trans str_le_antisym).
  - apply (@Sorted_merge_sort _ str_le _ str_le_total).
  - apply (@Sorted_merge_sort _ str_le _ str_le_total).
  - by rewrite !merge_sort_Permutation.
Qed.

Lemma set_to_list_permutation (so1 so2 : SetOrder) (l : list string) :
  set_to_list so1 l ≡ₚ set_to_list so2 l.
Proof.
  apply NoDup_Permutation; [apply set_to_list_NoDup..|].
  intros x. by rewrite !set_to_list_elem.
Qed.

(** X14. The work list [files_to_work_on.txt] does not depend on the order
    in which the process iterates over its sets: its lines are the distinct
    entries of the file list, in ascending order. *)
Theorem work_list_ignores_set_order (so1 so2 : SetOrder)
    (context1 context2 : AgentContext.t) (agent_data : list PlanAgent.t) :
  AgentFiles.files_to_work_on (create_agent_files so1 context1 agent_data)
  = AgentFiles.files_to_work_on (create_agent_files so2 context2 agent_data) ∧
  ∃ lines,
    AgentFiles.files_to_work_on (create_agent_files so1 context1 agent_data)
    = join_lines lines ∧
    Sorted str_le lines ∧ NoDup lines ∧
    ∀ line, line ∈ lines ↔ line ∈ files_list_of agent_data.
Proof.
  unfold create_agent_files. cbv zeta. cbn [AgentFiles.files_to_work_on]. split.
  - f_equal. apply sorted_permutation, set_to_list_permutation.
  - eexists. split; [reflexivity|]. split; [|split].
    + apply (@Sorted_merge_sort _ str_le _ str_le_total).
    + unfold sorted. rewrite merge_sort_Permutation. apply set_to_list_NoDup.
    + intros line. unfold sorted. rewrite merge_sort_Permutation.
      apply set_to_list_elem.
Qed.

(** ** From the spawn stage to the integration stage *)

Lemma rstrip_spaces (s : string) : str_all is_space s = true → rstrip s = EmptyString.
Proof.
  induction s as [|c s IH]; [done|]. cbn [str_all rstrip]. intros H.
  apply andb_prop in H as [Hc Hs]. by rewrite (IH Hs), Hc.
Qed.

Lemma rstrip_app_spaces (s tail : string) :
  str_all is_space tail = true → rstrip (s +:+ tail) = rstrip s.
Proof.
  intros Htail. induction s as [|c s IH].
  - change (EmptyString +:+ tail) with tail. by apply rstrip_spaces.
  - rewrite app_String. cbn [rstrip]. by rewrite IH.
Qed.

Lemma rstrip_app_stripped (prefix f : string) :
  f ≠ EmptyString → rstrip f = f → rstrip (prefix +:+ f) = prefix +:+ f.
Proof.
  intros Hne Hf. induction prefix as [|c prefix IH]; [done|].
  rewrite app_String. cbn [rstrip]. rewrite IH.
  destruct (prefix +:+ f) eqn:Happ; [|done].
  destruct prefix; [|done]. by destruct f.
Qed.

Lemma stripped_rstrip (f : string) : strip f = f → rstrip f = f.
Proof.
  destruct f as [|c f]; [done|]. intros H. pose proof (stripped_head _ _ H) as Hc.
  unfold strip in H. cbn [lstrip] in H. by rewrite Hc in H.
Qed.

(** A marked line, with or without its line end, is stripped to the marker
    and the path. *)
Lemma strip_marked (c : ascii) (marker f tail : string) :
  is_space c = false → f ≠ EmptyString → strip f = f →
  str_all is_space tail = true →
  strip ((String c marker +:+ f) +:+ tail) = String c marker +:+ f.
Proof.
  intros Hc Hne Hf Htail. unfold strip. rewrite !app_String. cbn [lstrip]. rewrite Hc.
  rewrite <- !app_String. rewrite (rstrip_app_spaces _ _ Htail).
  apply rstrip_app_stripped; [done|by apply stripped_rstrip].
Qed.

Lemma replace_go_absent (old new s : string) :
  str_in old s = false → replace_go old new 0 s = s.
Proof.
  induction s as [|c s IH]; [done|]. cbn [str_in replace_go]. intros H.
  apply orb_false_elim in H as [Hp Hs]. rewrite Hp. by rewrite (IH Hs).
Qed.

Lemma clean_created (f : string) :
  str_in "CREATE: " f = false → str_in "MODIFY: " f = false →
  str_replace "MODIFY: " EmptyString (str_replace "CREATE: " EmptyString ("CREATE: " +:+ f))
  = f.
Proof.
  intros Hc Hm.
  assert (H1 : str_replace "CREATE: " EmptyString ("CREATE: " +:+ f) = f).
  { unfold str_replace.
    change ("CREATE: " +:+ f)
      with (String "C" (String "R" (String "E" (String "A" (String "T" (String "E"
              (String ":" (String " " f)))))))).
    cbn. replace (String.prefix EmptyString f) with true by (by destruct f).
    by apply replace_go_absent. }
  rewrite H1. unfold str_replace. by apply replace_go_absent.
Qed.

Lemma clean_modified (f : string) :
  str_in "CREATE: " f = false → str_in "MODIFY: " f = false →
  str_replace "MODIFY: " EmptyString (str_replace "CREATE: " EmptyString ("MODIFY: " +:+ f))
  = f.
Proof.
  intros Hc Hm.
  assert (H1 : str_replace "CREATE: " EmptyString ("MODIFY: " +:+ f) = "MODIFY: " +:+ f).
  { unfold str_replace.
    change ("MODIFY: " +:+ f)
      with (String "M" (String "O" (String "D" (String "I" (String "F" (String "Y"
              (String ":" (String " " f)))))))).
    cbn. by rewrite replace_go_absent. }
  rewrite H1. unfold str_replace.
  change ("MODIFY: " +:+ f)
    with (String "M" (String "O" (String "D" (String "I" (String "F" (String "Y"
            (String ":" (String " " f)))))))).
  cbn. replace (String.prefix EmptyString f) with true by (by destruct f).
  by apply replace_go_absent.
Qed.

Lemma universal_newlines_free (s : string) :
  str_free carriage_return s → universal_newlines s = s.
Proof.
  unfold str_free. induction s as [|c s IH]; [done|]. cbn [str_all universal_newlines].
  intros H. apply andb_prop in H as [Hc Hs].
  apply negb_true_iff, bool_decide_eq_false in Hc.
  rewrite decide_False by done. by rewrite (IH Hs).
Qed.

Lemma lines_keepends_app (line rest : string) :
  str_free newline line →
  lines_keepends (line +:+ String newline rest)
  = (line +:+ String newline EmptyString) :: lines_keepends rest.
Proof.
  unfold str_free. induction line as [|c line IH]; intros H.
  - change (EmptyString +:+ ?x) with x. cbn [lines_keepends]. by rewrite decide_True.
  - cbn [str_all] in H. apply andb_prop in H as [Hc Hl].
    apply negb_true_iff, bool_decide_eq_false in Hc.
    rewrite !app_String. cbn [lines_keepends]. rewrite decide_False by done.
    by rewrite (IH Hl).
Qed.

Lemma lines_keepends_last (line : string) :
  line ≠ EmptyString → str_free newline line → lines_keepends line = [line].
Proof.
  unfold str_free. induction line as [|c line IH]; [done|]. intros _ H.
  cbn [str_all] in H. apply andb_prop in H as [Hc Hl].
  apply negb_true_iff, bool_decide_eq_false in Hc.
  cbn [lines_keepends]. rewrite decide_False by done.
  destruct line as [|d line]; [done|]. by rewrite IH.
Qed.

Lemma join_lines_cons (line next : string) (lines : list string) :
  join_lines (line :: next :: lines)
  = line +:+ String newline (join_lines (next :: lines)).
Proof. reflexivity. Qed.

Lemma str_free_join (c : ascii) (lines : list string) :
  c ≠ newline → Forall (str_free c) lines → str_free c (join_lines lines).
Proof.
  intros Hc. induction 1 as [|line lines Hline Hlines IH]; [done|].
  destruct lines as [|next lines]; [exact Hline|].
  rewrite join_lines_cons. unfold str_free in *. rewrite str_all_app, Hline.
  cbn [str_all andb]. rewrite IH, andb_true_r.
  apply negb_true_iff, bool_decide_eq_false. congruence.
Qed.

Lemma sum_lists_elem (field : PlanAgent.t → option (list string))
    (agent_data : list PlanAgent.t) (x : string) :
  x ∈ sum_lists field agent_data ↔
  ∃ a, a ∈ agent_data ∧ x ∈ default [] (field a).
Proof.
  unfold sum_lists.
  assert (H : ∀ acc,
    x ∈ fold_left (fun acc a => acc ++ default [] (field a)) agent_data acc ↔
    x ∈ acc ∨ ∃ a, a ∈ agent_data ∧ x ∈ default [] (field a)).
  { induction agent_data as [|a agent_data IH]; intros acc; cbn [fold_left].
    - split; [by left|]. intros [?|(a & Ha & _)]; [done|by apply elem_of_nil in Ha].
    - rewrite IH, elem_of_app. split.
      + intros [[?|?]|(b & Hb & Hx)]; [by left| |].
        * right. exists a. split; [left|done].
        * right. exists b. split; [by right|done].
      + intros [?|(b & Hb & Hx)]; [left; by left|].
        apply elem_of_cons in Hb as [->|Hb]; [left; by right|].
        right. by exists b. }
  rewrite H. split; [|by right]. intros [Hnil|?]; [by apply elem_of_nil in Hnil|done].
Qed.

Lemma files_list_of_elem (agent_data : list PlanAgent.t) (line : string) :
  line ∈ files_list_of agent_data ↔
  (∃ f, f ∈ sum_lists PlanAgent.filesToCreate agent_data ∧ line = "CREATE: " +:+ f) ∨
  (∃ f, f ∈ sum_lists PlanAgent.filesToModify agent_data ∧ line = "MODIFY: " +:+ f).
Proof.
  unfold files_list_of.
  assert (H : ∀ acc,
    line ∈ fold_left
             (fun files_list a =>
                (files_list
                   ++ ((fun f => "CREATE: " +:+ f) <$> default [] (PlanAgent.filesToCreate a)))
                  ++ ((fun f => "MODIFY: " +:+ f) <$> default [] (PlanAgent.filesToModify a)))
             agent_data acc ↔
    line ∈ acc ∨
    (∃ a f, a ∈ agent_data ∧ f ∈ default [] (PlanAgent.filesToCreate a)
            ∧ line = "CREATE: " +:+ f) ∨
    (∃ a f, a ∈ agent_data ∧ f ∈ default [] (PlanAgent.filesToModify a)
            ∧ line = "MODIFY: " +:+ f)).
  { induction agent_data as [|a agent_data IH]; intros acc; cbn [fold_left].
    - split; [by left|].
      intros [?|[(a & f & Ha & _)|(a & f & Ha & _)]]; [done| |]; by apply elem_of_nil in Ha.
    - rewrite IH, !elem_of_app, !list_elem_of_fmap. split.
      + intros [[[?|(f & -> & Hf)]|(f & -> & Hf)]|[(b & f & Hb & Hf & ->)|(b & f & Hb & Hf & ->)]].
        * by left.
        * right. left. exists a, f. split; [left|done].
        * right. right. exists a, f. split; [left|done].
        * right. left. exists b, f. split; [by right|done].
        * right. right. exists b, f. split; [by right|done].
      + intros [?|[(b & f & Hb & Hf & ->)|(b & f & Hb & Hf & ->)]].
        * left. left. by left.
        * apply elem_of_cons in Hb as [->|Hb].
          -- left. left. right. by exists f.
          -- right. left. by exists b, f.
        * apply elem_of_cons in Hb as [->|Hb].
          -- left. right. by exists f.
          -- right. right. by exists b, f. }
  rewrite H. split.
  - intros [Hnil|[(a & f & Ha & Hf & ->)|(a & f & Ha & Hf & ->)]].
    + by apply elem_of_nil in Hnil.
    + left. exists f. split; [|done]. apply sum_lists_elem. by exists a.
    + right. exists f. split; [|done]. apply sum_lists_elem. by exists a.
  - intros [(f & Hf & ->)|(f & Hf & ->)]; apply sum_lists_elem in Hf as (a & Ha & Hf).
    + right. left. by exists a, f.
    + right. right. by exists a, f.
Qed.

Lemma marked_line_free (line f : string) :
  marked_line line f → line ≠ EmptyString ∧ str_free newline line ∧
  str_free carriage_return line.
Proof.
  intros [(_ & _ & Hn & Hr & _) [-> | ->]]; (split; [done|]);
    unfold str_free in *; rewrite !str_all_app, Hn, Hr; done.
Qed.

(** ["/".join(p.split("/")) == p] *)
Lemma concat_split_on (c : ascii) (s : string) :
  String.concat (String c EmptyString) (split_on c s) = s.
Proof.
  induction s as [|d s IH]; [done|]. cbn [split_on].
  pose proof (split_on_nonempty c s) as Hne.
  destruct (decide (d = c)) as [->|Hd].
  - destruct (split_on c s) as [|x l]; [done|].
    cbn [String.concat] in *. by rewrite IH.
  - destruct (split_on c s) as [|x [|y l]]; [done| |]; cbn [String.concat] in *.
    + by rewrite IH.
    + by rewrite app_String, IH.
Qed.

Lemma filter_all {A : Type} (P : A → Prop) `{∀ x, Decision (P x)} (l : list A) :
  Forall P l → filter P l = l.
Proof.
  induction 1 as [|x l Hx _ IH]; [done|]. by rewrite filter_cons_True, IH.
Qed.

(** pathlib prints a plain path as it is written. *)
Lemma Path_plain (f : string) : plain_path f → Path f = f.
Proof.
  intros (Hne & _ & _ & _ & _ & _ & Hrel & _ & Hnormal).
  unfold Path, path_root, path_parts, path_str. rewrite Hrel. cbv zeta.
  rewrite (filter_all _ _ Hnormal).
  change (EmptyString +:+ ?t) with t. rewrite concat_split_on.
  by rewrite bool_decide_eq_false_2.
Qed.

Lemma copy_file_marked (w : World.t) (workspace_dir line f tail : string)
    (h : list event) :
  marked_line line f → str_all is_space tail = true →
  copy_file w workspace_dir (line +:+ tail) h
  = (Return tt,
     h ++ (if World.path_exists w h (path_join workspace_dir f)
           then [Copy (path_join workspace_dir f) f] else [])).
Proof.
  intros [Hplain Hline] Htail.
  pose proof Hplain as (Hne & Hstrip & _ & _ & Hc & Hm & _).
  unfold copy_file. cbv zeta.
  assert (Hs : strip (line +:+ tail) = line).
  { destruct Hline as [-> | ->].
    - by apply (strip_marked "C" "REATE: " f tail).
    - by apply (strip_marked "M" "ODIFY: " f tail). }
  rewrite Hs.
  assert (Hclean : str_replace "MODIFY: " EmptyString
                     (str_replace "CREATE: " EmptyString line) = f).
  { destruct Hline as [-> | ->]; [by apply clean_created|by apply clean_modified]. }
  rewrite Hclean, (Path_plain f Hplain).
  rewrite bool_decide_eq_false_2 by (by destruct Hline as [-> | ->]).
  rewrite io_bind_observe.
  destruct (World.path_exists w h (path_join workspace_dir f)); [reflexivity|].
  unfold io_ret. by rewrite app_nil_r.
Qed.

Lemma copy_files_marked (w : World.t) (workspace_dir : string) (h0 : list event)
    (lines files : list string) :
  stable_workspace w workspace_dir →
  Forall2 marked_line lines files →
  ∀ h,
    copy_files w workspace_dir (lines_keepends (join_lines lines)) h
    = (Return tt,
       h ++ flat_map
              (fun f =>
                 if World.path_exists w h0 (path_join workspace_dir f)
                 then [Copy (path_join workspace_dir f) f] else [])
              files).
Proof.
  intros Hstable. unfold copy_files.
  induction 1 as [|line f lines files Hline Hrest IH]; intros h.
  - cbn. unfold io_ret. by rewrite app_nil_r.
  - destruct (marked_line_free _ _ Hline) as (Hne & Hfree & _).
    destruct Hrest as [|next f' lines files Hnext Hrest].
    + change (join_lines [line]) with line. rewrite (lines_keepends_last _ Hne Hfree).
      cbn [io_for flat_map].
      rewrite <- (app_empty_r line) at 1.
      rewrite (io_bind_returns _ _ _ _ _
                 (copy_file_marked w workspace_dir line f EmptyString h Hline eq_refl)).
      unfold io_ret. rewrite (Hstable h h0). by rewrite app_nil_r.
    + rewrite join_lines_cons, (lines_keepends_app _ _ Hfree).
      cbn [io_for flat_map].
      rewrite (io_bind_returns _ _ _ _ _
                 (copy_file_marked w workspace_dir line f (String newline EmptyString) h
                    Hline eq_refl)).
      rewrite IH, (Hstable h h0). by rewrite <- app_assoc.
Qed.

(** The copying loop on the work list of the spawn stage. *)
Lemma copy_files_of_work_list (w : World.t) (so : SetOrder)
    (agent_context : AgentContext.t) (agent_data : list PlanAgent.t)
    (workspace_dir : string) (h : list event) :
  Forall plain_path
    (sum_lists PlanAgent.filesToCreate agent_data
       ++ sum_lists PlanAgent.filesToModify agent_data) →
  stable_workspace w workspace_dir →
  ∃ copies,
    copy_files w workspace_dir
      (file_lines (AgentFiles.files_to_work_on
                     (create_agent_files so agent_context agent_data))) h
    = (Return tt, h ++ copies) ∧
    ∀ e,
      e ∈ copies ↔
      ∃ f,
        f ∈ sum_lists PlanAgent.filesToCreate agent_data
              ++ sum_lists PlanAgent.filesToModify agent_data ∧
        World.path_exists w h (path_join workspace_dir f) = true ∧
        e = Copy (path_join workspace_dir f) f.
Proof.
  intros Hplain Hstable. rewrite Forall_forall in Hplain.
  unfold create_agent_files. cbv zeta. cbn [AgentFiles.files_to_work_on].
  set (lines := sorted (set_to_list so (files_list_of agent_data))).
  assert (Hlines : ∀ line, line ∈ lines ↔ line ∈ files_list_of agent_data).
  { intros line. subst lines. unfold sorted. rewrite merge_sort_Permutation.
    apply set_to_list_elem. }
  clearbody lines.
  set (path_of := fun line =>
         str_replace "MODIFY: " EmptyString (str_replace "CREATE: " EmptyString line)).
  assert (Heach : ∀ line, line ∈ lines → marked_line line (path_of line)).
  { intros line Hline.
    apply Hlines, files_list_of_elem in Hline as [(f & Hf & ->)|(f & Hf & ->)].
    - assert (Hp : plain_path f) by (apply Hplain, elem_of_app; by left).
      subst path_of. cbv beta.
      rewrite clean_created by apply Hp. split; [done|by left].
    - assert (Hp : plain_path f) by (apply Hplain, elem_of_app; by right).
      subst path_of. cbv beta.
      rewrite clean_modified by apply Hp. split; [done|by right]. }
  assert (Hmarked : Forall2 marked_line lines (path_of <$> lines)).
  { apply Forall2_fmap_r, Forall_Forall2_diag, Forall_forall. intros line Hline.
    unfold compose. by apply Heach. }
  unfold file_lines. rewrite universal_newlines_free.
  2: { apply str_free_join; [discriminate|].
       apply Forall_forall. intros line Hline.
       apply (marked_line_free _ _ (Heach line Hline)). }
  eexists. split; [apply (copy_files_marked w workspace_dir h _ _ Hstable Hmarked)|].
  intros e. rewrite list_elem_of_In, in_flat_map. split.
  - intros (f & Hf & He). apply list_elem_of_In, list_elem_of_fmap in Hf as (line & -> & Hline).
    apply Hlines, files_list_of_elem in Hline as [(f & Hf & ->)|(f & Hf & ->)].
    + assert (Hp : plain_path f) by (apply Hplain, elem_of_app; by left).
      subst path_of. cbv beta in He. rewrite clean_created in He by apply Hp.
      exists f. split; [apply elem_of_app; by left|].
      destruct (World.path_exists w h (path_join workspace_dir f)); [|done].
      destruct He as [<-|[]]. done.
    + assert (Hp : plain_path f) by (apply Hplain, elem_of_app; by right).
      subst path_of. cbv beta in He. rewrite clean_modified in He by apply Hp.
      exists f. split; [apply elem_of_app; by right|].
      destruct (World.path_exists w h (path_join workspace_dir f)); [|done].
      destruct He as [<-|[]]. done.
  - intros (f & Hf & Hexists & ->). exists f. split.
    + apply list_elem_of_In, list_elem_of_fmap.
      assert (Hp : plain_path f) by by apply Hplain.
      apply elem_of_app in Hf as [Hf|Hf].
      * exists ("CREATE: " +:+ f). subst path_of. cbv beta.
        rewrite clean_created by apply Hp. split; [done|].
        apply Hlines, files_list_of_elem. left. by exists f.
      * exists ("MODIFY: " +:+ f). subst path_of. cbv beta.
        rewrite clean_modified by apply Hp. split; [done|].
        apply Hlines, files_list_of_elem. right. by exists f.
    + rewrite Hexists. by left.
Qed.

(** X15. The work list that the spawn stage writes for an agent is read back
    by the integration stage path by path, when the paths are relative
    paths of ASCII text written as pathlib prints them: when the copying
    loop of [integrate_agent] has gone through the lines of
    [files_to_work_on.txt], it has copied the files the plan gave the agent
    to create or to modify, as far as they exist in the workspace, each to
    the path the plan gave, and nothing else. *)
Theorem integration_copies_what_spawn_listed (w : World.t) (so : SetOrder)
    (agent_context : AgentContext.t) (agent_data : list PlanAgent.t)
    (workspace_dir : string) (h h' : list event) :
  Forall plain_path
    (sum_lists PlanAgent.filesToCreate agent_data
       ++ sum_lists PlanAgent.filesToModify agent_data) →
  stable_workspace w workspace_dir →
  copy_files w workspace_dir
    (file_lines (AgentFiles.files_to_work_on
                   (create_agent_files so agent_context agent_data))) h
  = (Return tt, h') →
  ∃ copies,
    h' = h ++ copies ∧
    ∀ e,
      e ∈ copies ↔
      ∃ f,
        f ∈ sum_lists PlanAgent.filesToCreate agent_data
              ++ sum_lists PlanAgent.filesToModify agent_data ∧
        World.path_exists w h (path_join workspace_dir f) = true ∧
        e = Copy (path_join workspace_dir f) f.
Proof.
  intros Hplain Hstable Hrun.
  destruct (copy_files_of_work_list w so agent_context agent_data workspace_dir h
              Hplain Hstable) as (copies & Hcopies & Heach).
  rewrite Hcopies in Hrun. injection Hrun as <-. by exists copies.
Qed.

(** ** The validation stage *)

(** The inner loop of [check_file_conflicts], over the files seen so far. *)
Lemma conflict_lines_fold (agent : string) (lines : list string) :
  ∀ (seen : list string) (file_agents : gmap string string) (conflicts_found : bool),
    (∀ f, is_Some (file_agents !! f) ↔ f ∈ seen) →
    (conflicts_found = false ↔ NoDup seen) →
    ∃ file_agents' conflicts_found',
      fold_left
        (fun '(file_agents, conflicts_found) line =>
           let file := strip line in
           if bool_decide (file = EmptyString)
           then (file_agents, conflicts_found)
           else
             let clean_file :=
               str_replace "MODIFY: " EmptyString
                 (str_replace "CREATE: " EmptyString file) in
             match (file_agents : gmap string string) !! clean_file with
             | Some _ => (file_agents, true)
             | None => (<[clean_file := agent]> file_agents, conflicts_found)
             end)
        lines (file_agents, conflicts_found)
      = (file_agents', conflicts_found') ∧
      (∀ f, is_Some (file_agents' !! f) ↔ f ∈ seen ++ listed_files lines) ∧
      (conflicts_found' = false ↔ NoDup (seen ++ listed_files lines)).
Proof.
  induction lines as [|line lines IH]; intros seen m c Hdom Hc; cbn [fold_left].
  - exists m, c. unfold listed_files. cbn [omap]. rewrite app_nil_r. done.
  - unfold listed_files. cbn [omap list_omap]. cbv zeta.
    destruct (bool_decide (strip line = EmptyString)); [by apply IH|].
    set (clean := str_replace "MODIFY: " EmptyString
                    (str_replace "CREATE: " EmptyString (strip line))).
    fold (listed_files lines).
    replace (seen ++ clean :: listed_files lines)
      with ((seen ++ [clean]) ++ listed_files lines) by (by rewrite <- app_assoc).
    destruct (m !! clean) as [owner|] eqn:Hm.
    + apply IH.
      * intros f. rewrite Hdom, elem_of_app, list_elem_of_singleton.
        split; [by left|]. intros [?| ->]; [done|]. apply Hdom. by eexists.
      * split; [done|]. intros Hnd. apply NoDup_app in Hnd as (_ & Hdisj & _).
        exfalso. apply (Hdisj clean); [apply Hdom; by eexists|left].
    + apply IH.
      * intros f. rewrite elem_of_app, list_elem_of_singleton, <- Hdom.
        destruct (decide (f = clean)) as [->|Hne].
        -- rewrite lookup_insert_eq. split; [by right|by eexists].
        -- rewrite lookup_insert_ne by done. split; [by left|]. intros [?|?]; done.
      * rewrite Hc. split.
        -- intros Hnd. apply NoDup_app. split; [done|]. split; [|apply NoDup_singleton].
           intros f Hf Hf'. apply list_elem_of_singleton in Hf' as ->.
           apply Hdom in Hf as [o Ho]. by rewrite Hm in Ho.
        -- intros Hnd. by apply NoDup_app in Hnd as (? & _).
Qed.

(** X16. When [check_file_conflicts] returns and the work lists are ASCII
    text, it reports a conflict exactly if the work lists of the agents,
    read one after the other, name some file twice. *)
Theorem conflict_check_is_exact (files_to_work_on : string → option (list string))
    (completed_agents : list string) (agent_to_worktree : pydict string)
    (conflicts_found : bool) :
  ascii_lists files_to_work_on →
  check_file_conflicts files_to_work_on completed_agents agent_to_worktree
  = Ok conflicts_found →
  (conflicts_found = false ↔
   NoDup (all_listed_files files_to_work_on completed_agents agent_to_worktree)).
Proof.
  intros _. unfold check_file_conflicts, all_listed_files.
  match goal with
  | |- context [res_fold ?body _ completed_agents] =>
      assert (H : ∀ (agents seen : list string) (m m' : gmap string string) (c c' : bool),
        (∀ f, is_Some (m !! f) ↔ f ∈ seen) →
        (c = false ↔ NoDup seen) →
        res_fold body (m, c) agents = Ok (m', c') →
        (c' = false ↔
         NoDup (seen ++ concat
                  ((fun agent =>
                      match dict_get agent agent_to_worktree with
                      | Some worktree_path =>
                          match files_to_work_on
                                  (path_join
                                     (path_join (path_join worktree_path "workspaces")
                                        agent)
                                     "files_to_work_on.txt") with
                          | Some lines => listed_files lines
                          | None => []
                          end
                      | None => []
                      end) <$> agents))))
  end.
  { induction agents as [|agent agents IH]; intros seen m m' c c' Hdom Hc.
    - cbn. rewrite app_nil_r. by intros [= <- <-].
    - cbn [res_fold fmap list_fmap concat]. unfold dict_index.
      destruct (dict_get agent agent_to_worktree) as [worktree_path|]; [|done].
      cbn [res_bind]. cbv zeta.
      destruct (files_to_work_on _) as [lines|].
      + destruct (conflict_lines_fold agent lines seen m c Hdom Hc)
          as (m1 & c1 & Hfold & Hdom1 & Hc1).
        cbv zeta in Hfold. rewrite Hfold. cbn [res_bind].
        intros Hrun. rewrite app_assoc. exact (IH _ m1 m' c1 c' Hdom1 Hc1 Hrun).
      + cbn [res_bind app]. by apply IH. }
  destruct (res_fold _ _ completed_agents) as [[m' c']|e] eqn:Hrun; [|done].
  cbn [res_bind]. intros [= <-].
  apply (H completed_agents [] ∅ m' false c'); [| |exact Hrun].
  - intros f. rewrite lookup_empty.
    split; [by intros [? ?]|intros Hf; by apply elem_of_nil in Hf].
  - split; [constructor|done].
Qed.

Lemma conflict_check_is_exact_witness :
  true = false ↔
  NoDup (all_listed_files
           (fun path =>
              if decide (path = "trees/a/workspaces/a/files_to_work_on.txt")
              then Some ["CREATE: src/a.ts"; "MODIFY: src/b.ts"]
              else if decide (path = "trees/b/workspaces/b/files_to_work_on.txt")
                   then Some ["MODIFY: src/a.ts"] else None)
           ["a"; "b"] [("a", "trees/a"); ("b", "trees/b")]).
Proof.
  apply (conflict_check_is_exact
           (fun path =>
              if decide (path = "trees/a/workspaces/a/files_to_work_on.txt")
              then Some ["CREATE: src/a.ts"; "MODIFY: src/b.ts"]
              else if decide (path = "trees/b/workspaces/b/files_to_work_on.txt")
                   then Some ["MODIFY: src/a.ts"] else None)
           ["a"; "b"] [("a", "trees/a"); ("b", "trees/b")]).
  - intros path lines. cbv beta.
    repeat case_decide; intros [= <-]; repeat constructor.
  - vm_compute. reflexivity.
Defined.

(** ** The commit stage *)

Lemma filter_length_le {A : Type} (P Q : A → Prop) `{∀ x, Decision (P x)}
    `{∀ x, Decision (Q x)} (l : list A) :
  (∀ x, P x → Q x) →
  (length (filter P l) ≤ length (filter Q l))%nat ∧
  (length (filter P l) = length (filter Q l) → Forall (fun x => Q x → P x) l) ∧
  (length (filter Q l) = 0%nat → Forall (fun x => ¬ Q x) l) ∧
  ((length (filter P l) < length (filter Q l))%nat → Exists (fun x => Q x ∧ ¬ P x) l).
Proof.
  intros HPQ. induction l as [|x l (Hle & Heq & Hzero & Hlt)].
  { repeat split; try done. cbn. lia. }
  destruct (decide (P x)) as [HP|HP].
  - rewrite (filter_cons_True P) by done. rewrite (filter_cons_True Q) by auto.
    cbn [length]. split; [lia|]. split; [|split; [lia|]].
    + intros Hlen. constructor; [done|]. apply Heq. lia.
    + intros Hlen. apply Exists_cons_tl, Hlt. lia.
  - rewrite (filter_cons_False P) by done. destruct (decide (Q x)) as [HQ|HQ].
    + rewrite (filter_cons_True Q) by done. cbn [length]. split; [lia|].
      split; [lia|]. split; [lia|]. intros _. by apply Exists_cons_hd.
    + rewrite (filter_cons_False Q) by done. split; [done|]. split; [|split].
      * intros Hlen. constructor; [done|]. by apply Heq.
      * intros Hlen. constructor; [done|]. by apply Hzero.
      * intros Hlen. by apply Exists_cons_tl, Hlt.
Qed.

(** X17. [validate_agent_completion] returns only when the checklist has at
    least one item and every line with an open box [[ ]] also has a checked
    one; the two numbers it returns are then equal. In every other case,
    the missing file included, the process ends with status 1. *)
Theorem completion_requires_every_item_checked (checklist : option string) :
  match validate_agent_completion checklist with
  | Return (completed, total) =>
      completed = total ∧ (0 < total)%nat ∧
      ∃ content,
        checklist = Some content ∧
        Forall (fun line => str_in "[ ]" line = true → str_in "[x]" line = true)
          (split_on newline (strip content))
  | Exit code =>
      code = 1%Z ∧
      (checklist = None ∨
       ∃ content,
         checklist = Some content ∧
         (Forall (fun line => str_in "[ ]" line = false ∧ str_in "[x]" line = false)
            (split_on newline (strip content)) ∨
          Exists (fun line => str_in "[ ]" line = true ∧ str_in "[x]" line = false)
            (split_on newline (strip content))))
  | Uncaught _ => False
  end.
Proof.
  unfold validate_agent_completion. destruct checklist as [content|]; [|split; [done|by left]].
  cbv zeta. set (lines := split_on newline (strip content)).
  destruct (filter_length_le
              (fun line => str_in "[x]" line = true)
              (fun line => str_in "[ ]" line || str_in "[x]" line = true) lines)
    as (Hle & Heq & Hzero & Hless).
  { intros line ->. apply orb_true_r. }
  destruct (length (filter (fun line => str_in "[ ]" line || str_in "[x]" line = true) lines)
            =? 0)%nat eqn:Htotal.
  - apply Nat.eqb_eq in Htotal. split; [done|]. right. exists content. split; [done|].
    left. eapply Forall_impl; [exact (Hzero Htotal)|]. intros line Hline. cbv beta in Hline.
    by destruct (str_in "[ ]" line), (str_in "[x]" line).
  - apply Nat.eqb_neq in Htotal.
    destruct (length (filter (fun line => str_in "[x]" line = true) lines)
              <? length (filter (fun line => str_in "[ ]" line || str_in "[x]" line = true)
                           lines))%nat eqn:Hlt.
    + apply Nat.ltb_lt in Hlt. split; [done|]. right. exists content. split; [done|].
      right. eapply Exists_impl; [exact (Hless Hlt)|]. intros line [Hq Hp].
      cbv beta in Hq, Hp. by destruct (str_in "[ ]" line), (str_in "[x]" line).
    + apply Nat.ltb_ge in Hlt. split; [lia|]. split; [lia|]. exists content. split; [done|].
      eapply Forall_impl; [apply Heq; lia|]. intros line Hline Hopen. cbv beta in Hline.
      apply Hline. by rewrite Hopen.
Qed.

(** ** The integration stage, in any world *)

Lemma copies_are_steps (workspace_dir : string) (copies : list event) :
  copies_from workspace_dir copies → Forall is_step copies.
Proof. intros H. eapply Forall_impl; [exact H|]. by intros e (clean_path & ->). Qed.

(** What one call of [integrate_agent] adds to the history. *)
Lemma integrate_agent_events (w : World.t) (agent workspace_dir : string)
    (h : list event) :
  ∃ o events,
    integrate_agent w agent workspace_dir h = (o, h ++ events) ∧
    Forall is_step events ∧
    (commits events = [] ∨ ∃ msg, commits events = [msg] ∧ commit_of agent msg) ∧
    (o = Return true ∨ o = Return false ∨ o = Uncaught "CalledProcessError").
Proof.
  pose proof (integrate_agent_outcome w agent workspace_dir h) as Ho.
  destruct (integrate_agent w agent workspace_dir h) as [o h'].
  cbn [fst snd] in Ho.
  inversion Ho as [Hskip | cs Hcs Hpnpm | cs cmd Hcs Hcmd Hrc | cs cmd Hcs Hcmd Hrc
                  | cs cmd files Hcs Hcmd Hrc | cs cmd files Hcs Hcmd Hrc]; subst.
  - exists (Return true), []. rewrite app_nil_r. repeat split; auto.
  - exists (Return true), cs. repeat split; auto.
    + by apply (copies_are_steps workspace_dir).
    + left. by apply (commits_copies workspace_dir).
  - exists (Return false), (cs ++ [Run cmd]). repeat split; auto.
    + apply Forall_app. split; [by apply (copies_are_steps workspace_dir)|by repeat constructor].
    + left. by rewrite commits_app, (commits_copies _ _ Hcs), (commits_test_command _ Hcmd).
  - exists (Uncaught "CalledProcessError"), (cs ++ [Run cmd; Run ["git"; "add"; "-A"]]).
    repeat split; auto.
    + apply Forall_app. split; [by apply (copies_are_steps workspace_dir)|by repeat constructor].
    + left. change [Run cmd; Run ["git"; "add"; "-A"]]
        with ([Run cmd] ++ [Run ["git"; "add"; "-A"]]).
      by rewrite !commits_app, (commits_copies _ _ Hcs), (commits_test_command _ Hcmd).
  - exists (Uncaught "CalledProcessError"),
      (cs ++ [Run cmd; Run ["git"; "add"; "-A"];
              Run ["git"; "commit"; "-m"; commit_message agent files]]).
    repeat split; auto.
    + apply Forall_app. split; [by apply (copies_are_steps workspace_dir)|by repeat constructor].
    + right. exists (commit_message agent files). split; [|by exists files].
      change [Run cmd; Run ["git"; "add"; "-A"];
              Run ["git"; "commit"; "-m"; commit_message agent files]]
        with ([Run cmd] ++ [Run ["git"; "add"; "-A"];
                            Run ["git"; "commit"; "-m"; commit_message agent files]]).
      by rewrite !commits_app, (commits_copies _ _ Hcs), (commits_test_command _ Hcmd).
  - exists (Return true),
      (cs ++ [Run cmd; Run ["git"; "add"; "-A"];
              Run ["git"; "commit"; "-m"; commit_message agent files]]).
    repeat split; auto.
    + apply Forall_app. split; [by apply (copies_are_steps workspace_dir)|by repeat constructor].
    + right. exists (commit_message agent files). split; [|by exists files].
      change [Run cmd; Run ["git"; "add"; "-A"];
              Run ["git"; "commit"; "-m"; commit_message agent files]]
        with ([Run cmd] ++ [Run ["git"; "add"; "-A"];
                            Run ["git"; "commit"; "-m"; commit_message agent files]]).
      by rewrite !commits_app, (commits_copies _ _ Hcs), (commits_test_command _ Hcmd).
Qed.

(** What the loop over the integration order adds to the history: steps
    only, with the commits of some of the agents, in the order of the
    list. *)
Lemma integrate_agents_events (w : World.t) (order : list string) :
  ∀ h, ∃ o events committed,
    integrate_agents w order h = (o, h ++ events) ∧
    Forall is_step events ∧
    committed `sublist_of` order ∧
    Forall2 commit_of committed (commits events) ∧
    (o = Return tt ∨ o = Exit 1 ∨ o = Uncaught "CalledProcessError").
Proof.
  unfold integrate_agents. induction order as [|agent order IH]; intros h; cbn [io_for].
  - exists (Return tt), [], []. unfold io_ret. rewrite app_nil_r.
    repeat split; auto.
  - destruct (integrate_agent_events w agent (path_join "workspaces" agent) h)
      as (o1 & e1 & H1 & Hs1 & Hc1 & Ho1).
    assert (Hcommitted : ∃ c1, c1 `sublist_of` [agent] ∧ Forall2 commit_of c1 (commits e1)).
    { destruct Hc1 as [->|(msg & -> & Hmsg)].
      - exists []. split; [apply sublist_nil_l|constructor].
      - exists [agent]. split; [done|]. by repeat constructor. }
    destruct Hcommitted as (c1 & Hsub1 & Hf1).
    destruct Ho1 as [->|[->| ->]].
    + destruct (IH (h ++ e1)) as (o & e2 & c2 & H2 & Hs2 & Hsub2 & Hf2 & Ho).
      exists o, (e1 ++ e2), (c1 ++ c2). split; [|split; [|split; [|split]]].
      * erewrite io_bind_returns; [|erewrite io_bind_returns; [|exact H1]; reflexivity].
        rewrite H2. by rewrite app_assoc.
      * by apply Forall_app.
      * change (agent :: order) with ([agent] ++ order). by apply sublist_app.
      * rewrite commits_app. by apply Forall2_app.
      * exact Ho.
    + exists (Exit 1), e1, c1. split; [|split; [|split; [|split]]].
      * apply io_bind_exits. erewrite io_bind_returns; [|exact H1]. reflexivity.
      * exact Hs1.
      * etrans; [exact Hsub1|]. change (agent :: order) with ([agent] ++ order).
        by apply sublist_inserts_r.
      * exact Hf1.
      * auto.
    + exists (Uncaught "CalledProcessError"), e1, c1. split; [|split; [|split; [|split]]].
      * unfold io_bind. rewrite H1. reflexivity.
      * exact Hs1.
      * etrans; [exact Hsub1|]. change (agent :: order) with ([agent] ++ order).
        by apply sublist_inserts_r.
      * exact Hf1.
      * auto.
Qed.

Lemma quality_check_events (w : World.t) (cmd : list string) (h : list event) :
  commits [Run cmd] = [] →
  ∃ passed runs,
    quality_check w cmd h = (Return passed, h ++ runs) ∧
    Forall is_step runs ∧ commits runs = [] ∧
    (runs = [] ∨ runs = [Run cmd]) ∧
    (World.command_exists w h "pnpm" = true →
     runs = [Run cmd] ∧ passed = (World.returncode w h cmd =? 0)%Z).
Proof.
  intros Hcmd. unfold quality_check, check_command_exists. rewrite io_bind_observe.
  destruct (World.command_exists w h "pnpm").
  - rewrite io_bind_run. cbn [andb].
    exists (World.returncode w h cmd =? 0)%Z, [Run cmd].
    repeat split; auto. by repeat constructor.
  - exists true, []. unfold io_ret. rewrite app_nil_r.
    split; [done|]. split; [constructor|]. split; [done|]. split; [by left|done].
Qed.

(** What [run_quality_checks] adds to the history: at most the three
    commands, and a result for each of the three checks. *)
Lemma run_quality_checks_events (w : World.t) (h : list event) :
  ∃ tests linting typecheck runs,
    run_quality_checks w h
    = (Return [("tests", tests); ("linting", linting); ("typecheck", typecheck)],
       h ++ runs) ∧
    Forall is_step runs ∧ commits runs = [].
Proof.
  unfold run_quality_checks.
  destruct (quality_check_events w ["pnpm"; "test"] h eq_refl)
    as (tests & r1 & H1 & Hs1 & Hc1 & _).
  destruct (quality_check_events w ["pnpm"; "lint"] (h ++ r1) eq_refl)
    as (linting & r2 & H2 & Hs2 & Hc2 & _).
  destruct (quality_check_events w ["pnpm"; "typecheck"] ((h ++ r1) ++ r2) eq_refl)
    as (typecheck & r3 & H3 & Hs3 & Hc3 & _).
  exists tests, linting, typecheck, (r1 ++ r2 ++ r3).
  rewrite (io_bind_returns _ _ _ _ _ H1), (io_bind_returns _ _ _ _ _ H2),
    (io_bind_returns _ _ _ _ _ H3).
  unfold io_ret. rewrite <- !app_assoc. split; [done|].
  split; [by repeat apply Forall_app_2|].
  by rewrite !commits_app, Hc1, Hc2, Hc3.
Qed.

(** The shape of every run of [integrate_in_order]: the creation of the
    branch, then steps only, among them the commits of some agents in the
    order of the list, and after them, if the run returns, the report and
    the status, written once the tests and the type check have passed. *)
Lemma integrate_in_order_shape (w : World.t) (skip_tests : bool) (file : string)
    (order : list string) (h : list event) :
  ∃ o steps reports committed,
    integrate_in_order w skip_tests file order h
    = (o, h ++ Run ["git"; "checkout"; "-b"; "integration-" +:+ World.now w h]
            :: steps ++ reports) ∧
    Forall is_step steps ∧
    committed `sublist_of` order ∧
    Forall2 commit_of committed (commits steps) ∧
    commits reports = [] ∧
    (reports = [] ∨
     o = Return tt ∧
     ∃ path quality_results,
       reports = [ WriteReport path ("integration-" +:+ World.now w h) file order
                     quality_results;
                   WriteStatus
                     (path_join (World.validation_dir w) "integration-status.yaml")
                     ("integration-" +:+ World.now w h) path ] ∧
       dict_get "tests" quality_results = Some true ∧
       dict_get "typecheck" quality_results = Some true).
Proof.
  unfold integrate_in_order. rewrite io_bind_observe. io_simpl. rewrite io_bind_run.
  cbn [andb].
  destruct (World.returncode w h ["git"; "checkout"; "-b"; "integration-" +:+ World.now w h]
            =? 0)%Z; cbn [negb].
  2: { exists (Uncaught "CalledProcessError"), [], [], []. cbn [app].
       repeat split; auto; try constructor. apply sublist_nil_l. }
  set (h1 := h ++ [Run ["git"; "checkout"; "-b"; "integration-" +:+ World.now w h]]).
  destruct (integrate_agents_events w order h1) as (o1 & e1 & c1 & H1 & Hs1 & Hsub & Hf & Ho1).
  assert (Happ : ∀ l, h ++ Run ["git"; "checkout"; "-b"; "integration-" +:+ World.now w h] :: l
                      = h1 ++ l).
  { intros l. subst h1. by rewrite <- app_assoc. }
  destruct Ho1 as [->|[->| ->]].
  2: { exists (Exit 1), e1, [], c1. rewrite app_nil_r, Happ.
       split; [by apply io_bind_exits|]. repeat split; auto. }
  2: { exists (Uncaught "CalledProcessError"), e1, [], c1. rewrite app_nil_r, Happ.
       split; [unfold io_bind; by rewrite H1|]. repeat split; auto. }
  rewrite (io_bind_returns _ _ _ _ _ H1).
  assert (Hquality : ∃ quality_results runs,
    (if negb skip_tests then run_quality_checks w
     else io_ret [("tests", true); ("typecheck", true)]) (h1 ++ e1)
    = (Return quality_results, (h1 ++ e1) ++ runs) ∧
    Forall is_step runs ∧ commits runs = [] ∧
    ∃ tests typecheck,
      dict_get "tests" quality_results = Some tests ∧
      dict_get "typecheck" quality_results = Some typecheck).
  { destruct skip_tests; cbn [negb].
    - exists [("tests", true); ("typecheck", true)], []. unfold io_ret.
      rewrite app_nil_r. repeat split; auto. by exists true, true.
    - destruct (run_quality_checks_events w (h1 ++ e1))
        as (tests & linting & typecheck & runs & Hq & Hsq & Hcq).
      exists [("tests", tests); ("linting", linting); ("typecheck", typecheck)], runs.
      repeat split; auto. by exists tests, typecheck. }
  destruct Hquality as (q & runs & Hq & Hsq & Hcq & tests & typecheck & Ht & Hty).
  rewrite (io_bind_returns _ _ _ _ _ Hq), Ht, Hty. cbn [default from_option id].
  assert (Hsteps : Forall is_step (e1 ++ runs)) by by apply Forall_app.
  assert (Hcommits : Forall2 commit_of c1 (commits (e1 ++ runs)))
    by (by rewrite commits_app, Hcq, app_nil_r).
  destruct tests; cbn [negb].
  2: { exists (Exit 1), (e1 ++ runs), [], c1. rewrite app_nil_r, Happ, app_assoc.
       split; [reflexivity|]. repeat split; auto. }
  destruct typecheck; cbn [negb].
  2: { exists (Exit 1), (e1 ++ runs), [], c1. rewrite app_nil_r, Happ, app_assoc.
       split; [reflexivity|]. repeat split; auto. }
  rewrite io_bind_observe. io_simpl. rewrite !io_bind_emit. unfold io_ret.
  rewrite <- !app_assoc.
  eexists (Return tt), (e1 ++ runs), _, c1. split.
  { rewrite Happ. rewrite <- (app_assoc e1 runs). reflexivity. }
  split; [exact Hsteps|]. split; [exact Hsub|]. split; [exact Hcommits|].
  split; [reflexivity|]. right. split; [done|]. eexists _, q.
  split; [reflexivity|]. by split.
Qed.

(** X18. Where the integration order of a plan is a list of agent names,
    the integration stage touches nothing unless validation has passed and
    the plan it found gives such an order; the first thing it then does is
    to create the integration branch. *)
Theorem integration_acts_only_on_a_validated_plan (w : World.t) (skip_tests : bool)
    (h h' : list event) (o : outcome unit) :
  names_in_order w →
  integrate_parallel_work w skip_tests h = (o, h') →
  h' ≠ h →
  ∃ vs file plan order events,
    World.validation_status w = Some vs ∧
    validation_passed vs = true ∧
    World.deployment_plan w = Some (file, Some plan) ∧
    integration_order_of plan = Some order ∧
    h' = h ++ Run ["git"; "checkout"; "-b"; "integration-" +:+ World.now w h] :: events.
Proof.
  intros Hnames. unfold integrate_parallel_work, sys_exit.
  destruct (World.validation_status w) as [vs|]; [|by intros [= _ <-]].
  destruct (validation_passed vs) eqn:Hpassed; cbn [negb]; [|by intros [= _ <-]].
  destruct (World.deployment_plan w) as [[file [plan|]]|] eqn:Hplan;
    [| by intros [= _ <-] ..].
  destruct (yaml_has "integration_order" plan) eqn:Hhas;
    [|rewrite orb_true_r; by intros [= _ <-]].
  destruct (negb (yaml_truthy plan)); [by intros [= _ <-]|]. cbn [negb orb].
  destruct (Hnames file plan Hplan Hhas) as [order Horder]. rewrite Horder.
  destruct (integrate_in_order_shape w skip_tests file order h)
    as (o' & steps & reports & _ & Hrun & _).
  rewrite Hrun. intros [= _ <-] _.
  by exists vs, file, plan, order, (steps ++ reports).
Qed.

Lemma integration_acts_only_on_a_validated_plan_witness :
  ∃ vs file plan order events,
    World.validation_status (all_green "plan.yaml" (YDict [("integration_order", ystrs ["x"])]))
    = Some vs ∧
    validation_passed vs = true ∧
    World.deployment_plan (all_green "plan.yaml" (YDict [("integration_order", ystrs ["x"])]))
    = Some (file, Some plan) ∧
    integration_order_of plan = Some order ∧
    (integrate_parallel_work
       (all_green "plan.yaml" (YDict [("integration_order", ystrs ["x"])])) false []).2
    = [] ++ Run ["git"; "checkout"; "-b";
                 "integration-"
                 +:+ World.now
                       (all_green "plan.yaml" (YDict [("integration_order", ystrs ["x"])]))
                       []] :: events.
Proof.
  apply (integration_acts_only_on_a_validated_plan
           (all_green "plan.yaml" (YDict [("integration_order", ystrs ["x"])])) false []
           (integrate_parallel_work
              (all_green "plan.yaml" (YDict [("integration_order", ystrs ["x"])])) false []).2
           (integrate_parallel_work
              (all_green "plan.yaml" (YDict [("integration_order", ystrs ["x"])])) false []).1).
  - intros file plan [= <- <-] _. by eexists.
  - by destruct (integrate_parallel_work _ _ _).
  - vm_compute. discriminate.
Defined.

Lemma commits_checkout (branch : string) (events : list event) :
  commits (Run ["git"; "checkout"; "-b"; branch] :: events) = commits events.
Proof. reflexivity. Qed.

(** X19. Whatever happens during a run, the commits that the integration
    stage makes or attempts are commits of agents of the integration order,
    one for an agent at most at each of its places in the list, in the
    order of the list. *)
Theorem commits_follow_the_integration_order (w : World.t) (skip_tests : bool)
    (file : string) (plan : yaml) (vs : option yaml) (order : list string) :
  World.validation_status w = Some vs →
  validation_passed vs = true →
  World.deployment_plan w = Some (file, Some plan) →
  integration_order_of plan = Some order →
  ∃ committed,
    committed `sublist_of` order ∧
    Forall2 commit_of committed (commits (integrate_parallel_work w skip_tests []).2).
Proof.
  intros Hvs Hpassed Hplan Horder.
  rewrite (plan_with_order_integrated w skip_tests file plan vs order) by done.
  destruct (integrate_in_order_shape w skip_tests file order [])
    as (o & steps & reports & committed & Hrun & _ & Hsub & Hcommits & Hreports & _).
  rewrite Hrun. cbn [snd app]. exists committed. split; [exact Hsub|].
  by rewrite commits_checkout, commits_app, Hreports, app_nil_r.
Qed.

Lemma commits_follow_the_integration_order_witness :
  ∃ committed,
    committed `sublist_of` ["x"; "y"; "z"] ∧
    Forall2 commit_of committed
      (commits
         (integrate_parallel_work
            (second_run_fails "plan.yaml"
               (YDict [("integration_order", ystrs ["x"; "y"; "z"])]))
            false []).2).
Proof.
  apply (commits_follow_the_integration_order
           (second_run_fails "plan.yaml"
              (YDict [("integration_order", ystrs ["x"; "y"; "z"])]))
           false "plan.yaml" (YDict [("integration_order", ystrs ["x"; "y"; "z"])])
           (Some passed_status) ["x"; "y"; "z"]); reflexivity.
Defined.

(** X20. Where the integration order of a plan is a list of agent names, a
    report is written only by a run that returns, after the final tests and
    the type check have passed: the report of a run never records a failed
    test suite or a failed type check. It names the plan file the stage
    found and the integration order of that plan, and the status written
    into the validation directory points to it. *)
Theorem report_records_passed_gates (w : World.t) (skip_tests : bool)
    (o : outcome unit) (h' : list event) (path branch plan_path : string)
    (order : list string) (quality_results : pydict bool) :
  names_in_order w →
  integrate_parallel_work w skip_tests [] = (o, h') →
  WriteReport path branch plan_path order quality_results ∈ h' →
  o = Return tt ∧
  dict_get "tests" quality_results = Some true ∧
  dict_get "typecheck" quality_results = Some true ∧
  (∃ plan,
     World.deployment_plan w = Some (plan_path, Some plan) ∧
     integration_order_of plan = Some order) ∧
  WriteStatus (path_join (World.validation_dir w) "integration-status.yaml") branch path
  ∈ h'.
Proof.
  intros Hnames. unfold integrate_parallel_work, sys_exit.
  destruct (World.validation_status w) as [vs|];
    [|intros [= _ <-] Hin; by apply elem_of_nil in Hin].
  destruct (validation_passed vs); cbn [negb];
    [|intros [= _ <-] Hin; by apply elem_of_nil in Hin].
  destruct (World.deployment_plan w) as [[file [plan|]]|] eqn:Hplan;
    [| intros [= _ <-] Hin; by apply elem_of_nil in Hin ..].
  destruct (yaml_has "integration_order" plan) eqn:Hhas;
    [|rewrite orb_true_r; intros [= _ <-] Hin; by apply elem_of_nil in Hin].
  destruct (negb (yaml_truthy plan));
    [intros [= _ <-] Hin; by apply elem_of_nil in Hin|]. cbn [negb orb].
  destruct (Hnames file plan Hplan Hhas) as [order' Horder]. rewrite Horder.
  destruct (integrate_in_order_shape w skip_tests file order' [])
    as (o' & steps & reports & _ & Hrun & Hsteps & _ & _ & _ & Hreports).
  rewrite Hrun. cbn [app]. intros [= <- <-] Hin.
  apply elem_of_cons in Hin as [[=]|Hin].
  apply elem_of_app in Hin as [Hin|Hin].
  { rewrite Forall_forall in Hsteps. by destruct (Hsteps _ Hin). }
  destruct Hreports as [->|(-> & p & q & -> & Htests & Htype)];
    [by apply elem_of_nil in Hin|].
  apply elem_of_cons in Hin as [Hin|Hin].
  - injection Hin as -> -> -> -> ->. split; [done|]. split; [done|]. split; [done|].
    split; [by exists plan|]. right. apply elem_of_app. right. right. left.
  - apply list_elem_of_singleton in Hin. discriminate.
Qed.

Lemma report_records_passed_gates_witness :
  (integrate_parallel_work
     (all_green "plan.yaml" (YDict [("integration_order", ystrs ["x"])])) false []).1
  = Return tt ∧
  dict_get "tests" [("tests", true); ("linting", true); ("typecheck", true)] = Some true ∧
  dict_get "typecheck" [("tests", true); ("linting", true); ("typecheck", true)]
  = Some true ∧
  (∃ plan,
     World.deployment_plan
       (all_green "plan.yaml" (YDict [("integration_order", ystrs ["x"])]))
     = Some ("plan.yaml", Some plan) ∧
     integration_order_of plan = Some ["x"]) ∧
  WriteStatus "shared/coordination/integration-status.yaml" "integration-20250101-000000"
    "shared/reports/integration-report-20250101-000000.md"
  ∈ (integrate_parallel_work
       (all_green "plan.yaml" (YDict [("integration_order", ystrs ["x"])])) false []).2.
Proof.
  apply (report_records_passed_gates
           (all_green "plan.yaml" (YDict [("integration_order", ystrs ["x"])])) false).
  - intros file plan [= <- <-] _. by eexists.
  - by destruct (integrate_parallel_work _ _ _).
  - apply (bool_decide_unpack _). vm_compute. exact I.
Defined.

Lemma integrate_agent_passing (w : World.t) (agent workspace_dir : string)
    (h : list event) :
  (∀ h cmd, cmd ≠ ["pnpm"; "lint"] → World.returncode w h cmd = 0%Z) →
  (∀ h p, World.path_exists w h p = true) →
  (∀ h, World.command_exists w h "pnpm" = true) →
  ∃ events msg,
    integrate_agent w agent workspace_dir h = (Return true, h ++ events) ∧
    Forall is_step events ∧
    commits events = [msg] ∧ commit_of agent msg.
Proof.
  intros Hrc Hpath Hpnpm.
  pose proof (integrate_agent_outcome w agent workspace_dir h) as Ho.
  destruct (integrate_agent w agent workspace_dir h) as [o h'].
  cbn [fst snd] in Ho.
  assert (Htest : ∀ cmd, cmd ∈ test_commands → cmd ≠ ["pnpm"; "lint"]).
  { intros cmd Hcmd ->. repeat (apply elem_of_cons in Hcmd as [[=]|Hcmd]).
    by apply elem_of_nil in Hcmd. }
  inversion Ho as [Hskip | cs Hcs Hnone | cs cmd Hcs Hcmd Hfail | cs cmd Hcs Hcmd Hfail
                  | cs cmd files Hcs Hcmd Hfail | cs cmd files Hcs Hcmd Hok]; subst.
  - by rewrite Hpath in Hskip.
  - by rewrite Hpnpm in Hnone.
  - by rewrite (Hrc _ _ (Htest _ Hcmd)) in Hfail.
  - by rewrite Hrc in Hfail.
  - by rewrite Hrc in Hfail.
  - eexists _, (commit_message agent files). split; [reflexivity|].
    split; [|split; [|by exists files]].
    + apply Forall_app. split; [by apply (copies_are_steps workspace_dir)|by repeat constructor].
    + change [Run cmd; Run ["git"; "add"; "-A"];
              Run ["git"; "commit"; "-m"; commit_message agent files]]
        with ([Run cmd] ++ [Run ["git"; "add"; "-A"];
                            Run ["git"; "commit"; "-m"; commit_message agent files]]).
      by rewrite !commits_app, (commits_copies _ _ Hcs), (commits_test_command _ Hcmd).
Qed.

Lemma integrate_agents_passing (w : World.t) (order : list string) :
  (∀ h cmd, cmd ≠ ["pnpm"; "lint"] → World.returncode w h cmd = 0%Z) →
  (∀ h p, World.path_exists w h p = true) →
  (∀ h, World.command_exists w h "pnpm" = true) →
  ∀ h, ∃ events,
    integrate_agents w order h = (Return tt, h ++ events) ∧
    Forall is_step events ∧
    Forall2 commit_of order (commits events).
Proof.
  intros Hrc Hpath Hpnpm. unfold integrate_agents.
  induction order as [|agent order IH]; intros h; cbn [io_for].
  - exists []. unfold io_ret. rewrite app_nil_r. by repeat split.
  - destruct (integrate_agent_passing w agent (path_join "workspaces" agent) h Hrc Hpath Hpnpm)
      as (e1 & msg & H1 & Hs1 & Hc1 & Hmsg).
    destruct (IH (h ++ e1)) as (e2 & H2 & Hs2 & Hc2).
    exists (e1 ++ e2). split; [|split].
    + erewrite io_bind_returns; [|erewrite io_bind_returns; [|exact H1]; reflexivity].
      rewrite H2. by rewrite app_assoc.
    + by apply Forall_app.
    + rewrite commits_app, Hc1. by constructor.
Qed.

Lemma quality_check_run (w : World.t) (cmd : list string) (h : list event) :
  World.command_exists w h "pnpm" = true →
  quality_check w cmd h = (Return (World.returncode w h cmd =? 0)%Z, h ++ [Run cmd]).
Proof.
  intros Hpnpm. unfold quality_check, check_command_exists.
  rewrite io_bind_observe, Hpnpm. by rewrite io_bind_run.
Qed.

Lemma run_quality_checks_pnpm (w : World.t) (h : list event) :
  (∀ h, World.command_exists w h "pnpm" = true) →
  run_quality_checks w h
  = (Return
       [ ("tests", (World.returncode w h ["pnpm"; "test"] =? 0)%Z);
         ("linting",
           (World.returncode w (h ++ [Run ["pnpm"; "test"]]) ["pnpm"; "lint"] =? 0)%Z);
         ("typecheck",
           (World.returncode w ((h ++ [Run ["pnpm"; "test"]]) ++ [Run ["pnpm"; "lint"]])
              ["pnpm"; "typecheck"] =? 0)%Z) ],
     h ++ [Run ["pnpm"; "test"]; Run ["pnpm"; "lint"]; Run ["pnpm"; "typecheck"]]).
Proof.
  intros Hpnpm. unfold run_quality_checks.
  rewrite (io_bind_returns _ _ _ _ _ (quality_check_run w _ _ (Hpnpm _))).
  rewrite (io_bind_returns _ _ _ _ _ (quality_check_run w _ _ (Hpnpm _))).
  rewrite (io_bind_returns _ _ _ _ _ (quality_check_run w _ _ (Hpnpm _))).
  unfold io_ret. by rewrite <- !app_assoc.
Qed.

(** X21. A failure of the linter does not block the integration: when
    nothing else fails, every agent of the order is committed and the run
    returns, with a report that records the linter's failure next to the
    passed tests and type check. *)
Theorem lint_failure_does_not_block (w : World.t) (file : string) (plan : yaml)
    (vs : option yaml) (order : list string) :
  World.validation_status w = Some vs →
  validation_passed vs = true →
  World.deployment_plan w = Some (file, Some plan) →
  integration_order_of plan = Some order →
  green_but_lint w →
  ∃ h path branch,
    integrate_parallel_work w false [] = (Return tt, h) ∧
    Forall2 commit_of order (commits h) ∧
    WriteReport path branch file order
      [("tests", true); ("linting", false); ("typecheck", true)] ∈ h.
Proof.
  intros Hvs Hpassed Hplan Horder Hw.
  assert (Hrc : ∀ h cmd, cmd ≠ ["pnpm"; "lint"] → World.returncode w h cmd = 0%Z)
    by (intros h cmd; apply (Hw h)).
  assert (Hlint : ∀ h, World.returncode w h ["pnpm"; "lint"] ≠ 0%Z)
    by (intros h; apply (Hw h)).
  assert (Hpath : ∀ h p, World.path_exists w h p = true)
    by (intros h p; apply (Hw h)).
  assert (Hpnpm : ∀ h, World.command_exists w h "pnpm" = true)
    by (intros h; apply (Hw h)).
  rewrite (plan_with_order_integrated w false file plan vs order) by done.
  unfold integrate_in_order. rewrite io_bind_observe. io_simpl. rewrite io_bind_run.
  rewrite Hrc by discriminate. cbn [andb negb Z.eqb app].
  destruct (integrate_agents_passing w order Hrc Hpath Hpnpm
              [Run ["git"; "checkout"; "-b"; "integration-" +:+ World.now w []]])
    as (events & Hrun & _ & Hcommits).
  rewrite (io_bind_returns _ _ _ _ _ Hrun).
  io_simpl.
  rewrite (io_bind_returns _ _ _ _ _ (run_quality_checks_pnpm w _ Hpnpm)).
  rewrite (Hrc _ ["pnpm"; "test"]), (Hrc _ ["pnpm"; "typecheck"]) by discriminate.
  destruct (World.returncode w _ ["pnpm"; "lint"] =? 0)%Z eqn:Hl;
    [apply Z.eqb_eq in Hl; by apply Hlint in Hl|].
  change (dict_get "tests" [("tests", (0 =? 0)%Z); ("linting", false);
                            ("typecheck", (0 =? 0)%Z)]) with (Some true).
  change (dict_get "typecheck" [("tests", (0 =? 0)%Z); ("linting", false);
                                ("typecheck", (0 =? 0)%Z)]) with (Some true).
  cbn [default from_option id negb].
  rewrite io_bind_observe. io_simpl. rewrite !io_bind_emit. unfold io_ret.
  eexists _, _, _. split; [reflexivity|]. split.
  - rewrite !commits_app. cbn [commits omap list_omap app]. by rewrite !app_nil_r.
  - apply elem_of_app. left. apply elem_of_app. right. left.
Qed.

Lemma lint_fails_green_but_lint (file : string) (plan : yaml) :
  green_but_lint (lint_fails file plan).
Proof.
  intros h. split; [|split; [|split]]; try done.
  intros cmd Hcmd. cbn. by rewrite decide_False.
Qed.

Lemma lint_failure_does_not_block_witness :
  ∃ h path branch,
    integrate_parallel_work
      (lint_fails "plan.yaml" (YDict [("integration_order", ystrs ["x"; "y"])])) false []
    = (Return tt, h) ∧
    Forall2 commit_of ["x"; "y"] (commits h) ∧
    WriteReport path branch "plan.yaml" ["x"; "y"]
      [("tests", true); ("linting", false); ("typecheck", true)] ∈ h.
Proof.
  apply (lint_failure_does_not_block
           (lint_fails "plan.yaml" (YDict [("integration_order", ystrs ["x"; "y"])]))
           "plan.yaml" (YDict [("integration_order", ystrs ["x"; "y"])])
           (Some passed_status) ["x"; "y"]).
  - reflexivity.
  - reflexivity.
  - reflexivity.
  - reflexivity.
  - apply lint_fails_green_but_lint.
Defined.

Lemma integrate_agents_skipped (w : World.t) (order : list string) (h : list event) :
  (∀ h p, World.path_exists w h p = false) →
  integrate_agents w order h = (Return tt, h).
Proof.
  intros Hpath. unfold integrate_agents.
  induction order as [|agent order IH]; cbn [io_for]; [done|].
  assert (Hskip : integrate_agent w agent (path_join "workspaces" agent) h = (Return true, h)).
  { unfold integrate_agent. rewrite io_bind_observe, Hpath. reflexivity. }
  erewrite io_bind_returns; [|erewrite io_bind_returns; [|exact Hskip]; reflexivity].
  exact IH.
Qed.

(** X22. An agent of the integration order that has left no workspace is
    passed over without a word: when no agent has a workspace, the run
    copies and commits nothing, runs the final checks and returns, and its
    report still names every agent of the order as integrated; the status
    goes into the validation directory. *)
Theorem missing_workspaces_are_reported_integrated (w : World.t) (file : string)
    (plan : yaml) (vs : option yaml) (order : list string) :
  World.validation_status w = Some vs →
  validation_passed vs = true →
  World.deployment_plan w = Some (file, Some plan) →
  integration_order_of plan = Some order →
  no_workspaces w →
  ∃ path,
    integrate_parallel_work w false []
    = (Return tt,
       [ Run ["git"; "checkout"; "-b"; "integration-" +:+ World.now w []];
         Run ["pnpm"; "test"]; Run ["pnpm"; "lint"]; Run ["pnpm"; "typecheck"];
         WriteReport path ("integration-" +:+ World.now w []) file order
           [("tests", true); ("linting", true); ("typecheck", true)];
         WriteStatus (path_join (World.validation_dir w) "integration-status.yaml")
           ("integration-" +:+ World.now w []) path ]).
Proof.
  intros Hvs Hpassed Hplan Horder Hw.
  assert (Hrc : ∀ h cmd, World.returncode w h cmd = 0%Z) by (intros h; apply (Hw h)).
  assert (Hpath : ∀ h p, World.path_exists w h p = false) by (intros h; apply (Hw h)).
  assert (Hpnpm : ∀ h, World.command_exists w h "pnpm" = true) by (intros h; apply (Hw h)).
  rewrite (plan_with_order_integrated w false file plan vs order) by done.
  unfold integrate_in_order. rewrite io_bind_observe. io_simpl. rewrite io_bind_run.
  rewrite Hrc. cbn [andb negb Z.eqb app].
  rewrite (io_bind_returns _ _ _ _ _ (integrate_agents_skipped w order _ Hpath)).
  io_simpl.
  rewrite (io_bind_returns _ _ _ _ _ (run_quality_checks_pnpm w _ Hpnpm)).
  rewrite !Hrc.
  change (dict_get "tests" [("tests", (0 =? 0)%Z); ("linting", (0 =? 0)%Z);
                            ("typecheck", (0 =? 0)%Z)]) with (Some true).
  change (dict_get "typecheck" [("tests", (0 =? 0)%Z); ("linting", (0 =? 0)%Z);
                                ("typecheck", (0 =? 0)%Z)]) with (Some true).
  cbn [default from_option id negb].
  rewrite io_bind_observe. io_simpl. rewrite !io_bind_emit. unfold io_ret.
  eexists. reflexivity.
Qed.

Lemma missing_workspaces_are_reported_integrated_witness :
  ∃ path,
    integrate_parallel_work
      (nothing_to_integrate "plan.yaml" (YDict [("integration_order", ystrs ["x"; "y"])]))
      false []
    = (Return tt,
       [ Run ["git"; "checkout"; "-b";
              "integration-"
              +:+ World.now
                    (nothing_to_integrate "plan.yaml"
                       (YDict [("integration_order", ystrs ["x"; "y"])])) []];
         Run ["pnpm"; "test"]; Run ["pnpm"; "lint"]; Run ["pnpm"; "typecheck"];
         WriteReport path
           ("integration-"
            +:+ World.now
                  (nothing_to_integrate "plan.yaml"
                     (YDict [("integration_order", ystrs ["x"; "y"])])) [])
           "plan.yaml" ["x"; "y"]
           [("tests", true); ("linting", true); ("typecheck", true)];
         WriteStatus "shared/coordination/integration-status.yaml"
           ("integration-"
            +:+ World.now
                  (nothing_to_integrate "plan.yaml"
                     (YDict [("integration_order", ystrs ["x"; "y"])])) [])
           path ]).
Proof.
  apply (missing_workspaces_are_reported_integrated
           (nothing_to_integrate "plan.yaml"
              (YDict [("integration_order", ystrs ["x"; "y"])]))
           "plan.yaml" (YDict [("integration_order", ystrs ["x"; "y"])])
           (Some passed_status) ["x"; "y"]).
  - reflexivity.
  - reflexivity.
  - reflexivity.
  - reflexivity.
  - intros h. by repeat split.
Defined.

(** ** From the validation stage to the integration stage *)

(** X23. The integration stage reads from the validation status the flag
    that the validation stage wrote into it: a status written for a failed
    validation makes the integration stage leave with status 1 before it
    does anything, and lists no validated agent. *)
Theorem validation_status_gates_integration (now coordination_dir : string)
    (passed : bool) (completed_agents : list string) (worktrees_dir : string) :
  validation_passed
    (Some (create_validation_status now coordination_dir passed completed_agents
             worktrees_dir)) = passed ∧
  yaml_get "agents_validated"
    (create_validation_status now coordination_dir false completed_agents worktrees_dir)
  = Some (ystrs []) ∧
  ∀ (w : World.t) (skip_tests : bool) (h : list event),
    World.validation_status w
    = Some (Some (create_validation_status now coordination_dir false completed_agents
                    worktrees_dir)) →
    integrate_parallel_work w skip_tests h = (Exit 1, h).
Proof.
  split; [by destruct passed|]. split; [reflexivity|].
  intros w skip_tests h Hstatus. unfold integrate_parallel_work. by rewrite Hstatus.
Qed.

(** ** Witnesses *)

Lemma validator_error_names_both_owners_witness :
  ∃ file a b,
    ValueError (OwnershipConflict "src/app.ts" "ui_agent" "api_agent")
    = ValueError (OwnershipConflict file (Agent.id a) (Agent.id b)) ∧
    a ∈ llm_agent <$> LlmResult.agents overlapping_llm_result ∧
    b ∈ llm_agent <$> LlmResult.agents overlapping_llm_result ∧
    file ∈ agent_files a ∧ file ∈ agent_files b.
Proof.
  apply (validator_error_names_both_owners
           (llm_agent <$> LlmResult.agents overlapping_llm_result)).
  vm_compute. reflexivity.
Defined.

Lemma integration_copies_what_spawn_listed_witness :
  ∃ copies,
    (copy_files (all_green "plan.yaml" YNull) "workspaces/ui_agent"
       (file_lines
          (AgentFiles.files_to_work_on
             (create_agent_files first_seen_order
                (create_agent_context first_seen_order "now" (Plan.mk None None None)
                   "ui_agent" "branch" "tree")
                [PlanAgent.mk (Some "ui_agent") None (Some ["src/b.tsx"; "src/a.tsx"])
                   (Some ["src/index.ts"]) None None None]))) []).2
    = [] ++ copies ∧
    ∀ e,
      e ∈ copies ↔
      ∃ f,
        f ∈ sum_lists PlanAgent.filesToCreate
              [PlanAgent.mk (Some "ui_agent") None (Some ["src/b.tsx"; "src/a.tsx"])
                 (Some ["src/index.ts"]) None None None]
            ++ sum_lists PlanAgent.filesToModify
                 [PlanAgent.mk (Some "ui_agent") None (Some ["src/b.tsx"; "src/a.tsx"])
                    (Some ["src/index.ts"]) None None None] ∧
        World.path_exists (all_green "plan.yaml" YNull) []
          (path_join "workspaces/ui_agent" f) = true ∧
        e = Copy (path_join "workspaces/ui_agent" f) f.
Proof.
  apply (integration_copies_what_spawn_listed (all_green "plan.yaml" YNull)
           first_seen_order
           (create_agent_context first_seen_order "now" (Plan.mk None None None)
              "ui_agent" "branch" "tree")
           [PlanAgent.mk (Some "ui_agent") None (Some ["src/b.tsx"; "src/a.tsx"])
              (Some ["src/index.ts"]) None None None]
           "workspaces/ui_agent" []).
  - repeat constructor; discriminate.
  - intros h h' f. reflexivity.
  - vm_compute. reflexivity.
Defined.

(** ** From the spawn stage to the commit stage *)

(** A line that survives the reading of the whole list: it starts and ends
    with something other than white space and holds no line end. *)
Lemma join_lines_rstrip (lines : list string) :
  lines ≠ [] →
  Forall (fun line => line ≠ EmptyString ∧ rstrip line = line) lines →
  join_lines lines ≠ EmptyString ∧ rstrip (join_lines lines) = join_lines lines.
Proof.
  induction lines as [|line [|next lines] IH]; [done| |]; intros _ Hall.
  - apply Forall_inv in Hall. unfold join_lines. cbn [String.concat]. done.
  - rewrite join_lines_cons. inversion Hall as [|? ? [Hne Hr] Hrest]; subst.
    destruct (IH ltac:(done) Hrest) as [Hne' Hr'].
    split.
    + destruct line; [done|]. by rewrite app_String.
    + apply rstrip_app_stripped; [done|]. cbn [rstrip]. rewrite Hr'.
      by destruct (join_lines (next :: lines)).
Qed.

Lemma work_list_read_back (lines : list string) :
  lines ≠ [] →
  Forall (fun line =>
            (∃ c s, line = String c s ∧ is_space c = false) ∧
            rstrip line = line ∧ str_free newline line ∧
            str_free carriage_return line) lines →
  split_on newline (strip (read_text (join_lines lines))) = lines.
Proof.
  intros Hne Hall. unfold read_text. rewrite universal_newlines_free.
  2: { apply str_free_join; [discriminate|]. eapply Forall_impl; [exact Hall|].
       by intros line (_ & _ & _ & ?). }
  assert (Hstrip : strip (join_lines lines) = join_lines lines).
  { unfold strip.
    assert (Hl : lstrip (join_lines lines) = join_lines lines).
    { destruct lines as [|line lines]; [done|].
      apply Forall_inv in Hall as ((c & s & -> & Hc) & _).
      destruct lines as [|next lines].
      - unfold join_lines. cbn [String.concat lstrip]. by rewrite Hc.
      - rewrite join_lines_cons, app_String. cbn [lstrip]. by rewrite Hc. }
    rewrite Hl. apply join_lines_rstrip; [done|].
    eapply Forall_impl; [exact Hall|].
    intros line ((c & s & -> & _) & Hr & _). done. }
  rewrite Hstrip. apply split_on_concat; [done|].
  eapply Forall_impl; [exact Hall|]. by intros line (_ & _ & ? & _).
Qed.

Lemma created_line (f : string) :
  bare_path f →
  startswith ("CREATE: " +:+ f) "CREATE:" = true ∧
  strip (str_replace "CREATE:" EmptyString ("CREATE: " +:+ f)) = f.
Proof.
  intros (Hne & Hstrip & _ & _ & Hc & _).
  change ("CREATE: " +:+ f)
    with (String "C" (String "R" (String "E" (String "A" (String "T" (String "E"
            (String ":" (String " " f)))))))).
  split; [unfold startswith; cbn; by destruct f|].
  unfold str_replace. cbn.
  replace (String.prefix EmptyString (String " " f)) with true by done.
  rewrite (replace_go_absent _ _ _ Hc).
  change (EmptyString +:+ String " " f) with (String " " f).
  unfold strip. cbn [lstrip]. exact Hstrip.
Qed.

Lemma modified_line (f : string) :
  bare_path f →
  startswith ("MODIFY: " +:+ f) "CREATE:" = false ∧
  startswith ("MODIFY: " +:+ f) "MODIFY:" = true ∧
  strip (str_replace "MODIFY:" EmptyString ("MODIFY: " +:+ f)) = f.
Proof.
  intros (Hne & Hstrip & _ & _ & _ & Hm & _).
  change ("MODIFY: " +:+ f)
    with (String "M" (String "O" (String "D" (String "I" (String "F" (String "Y"
            (String ":" (String " " f)))))))).
  split; [done|]. split; [unfold startswith; cbn; by destruct f|].
  unfold str_replace. cbn.
  replace (String.prefix EmptyString (String " " f)) with true by done.
  rewrite (replace_go_absent _ _ _ Hm).
  change (EmptyString +:+ String " " f) with (String " " f).
  unfold strip. cbn [lstrip]. exact Hstrip.
Qed.

Lemma marked_bare_line (marker f : string) (c : ascii) :
  is_space c = false → str_free newline (String c marker) →
  str_free carriage_return (String c marker) →
  bare_path f →
  (∃ c' s, String c marker +:+ f = String c' s ∧ is_space c' = false) ∧
  rstrip (String c marker +:+ f) = String c marker +:+ f ∧
  str_free newline (String c marker +:+ f) ∧
  str_free carriage_return (String c marker +:+ f).
Proof.
  intros Hc Hn Hr (Hne & Hstrip & Hfn & Hfr & _). split; [|split; [|split]].
  - rewrite app_String. by eexists _, _.
  - apply rstrip_app_stripped; [done|by apply stripped_rstrip].
  - unfold str_free in *. by rewrite str_all_app, Hn, Hfn.
  - unfold str_free in *. by rewrite str_all_app, Hr, Hfr.
Qed.

(** What the commit stage reads from the work list that the spawn stage
    has written. *)
Lemma spawned_work_list (so : SetOrder) (agent_context : AgentContext.t)
    (agent_data : list PlanAgent.t) :
  Forall bare_path
    (sum_lists PlanAgent.filesToCreate agent_data
       ++ sum_lists PlanAgent.filesToModify agent_data) →
  ∃ lines,
    split_on newline
      (strip (read_text (AgentFiles.files_to_work_on
                           (create_agent_files so agent_context agent_data))))
    = (if decide (lines = []) then [EmptyString] else lines) ∧
    NoDup lines ∧
    ∀ line, line ∈ lines ↔
      (∃ f, f ∈ sum_lists PlanAgent.filesToCreate agent_data ∧ bare_path f ∧
            line = "CREATE: " +:+ f) ∨
      (∃ f, f ∈ sum_lists PlanAgent.filesToModify agent_data ∧ bare_path f ∧
            line = "MODIFY: " +:+ f).
Proof.
  intros Hbare. rewrite Forall_forall in Hbare.
  unfold create_agent_files. cbv zeta. cbn [AgentFiles.files_to_work_on].
  set (lines := sorted (set_to_list so (files_list_of agent_data))).
  assert (Hlines : ∀ line, line ∈ lines ↔ line ∈ files_list_of agent_data).
  { intros line. subst lines. unfold sorted. rewrite merge_sort_Permutation.
    apply set_to_list_elem. }
  assert (Hnd : NoDup lines).
  { subst lines. unfold sorted. rewrite merge_sort_Permutation.
    apply set_to_list_NoDup. }
  clearbody lines. exists lines.
  assert (Hiff : ∀ line, line ∈ lines ↔
      (∃ f, f ∈ sum_lists PlanAgent.filesToCreate agent_data ∧ bare_path f ∧
            line = "CREATE: " +:+ f) ∨
      (∃ f, f ∈ sum_lists PlanAgent.filesToModify agent_data ∧ bare_path f ∧
            line = "MODIFY: " +:+ f)).
  { intros line. rewrite Hlines, files_list_of_elem. split.
    - intros [(f & Hf & ->)|(f & Hf & ->)]; [left|right]; exists f;
        (split; [done|]); (split; [|done]); apply Hbare, elem_of_app; auto.
    - intros [(f & Hf & _ & ->)|(f & Hf & _ & ->)]; [left|right]; by exists f. }
  split; [|split; [done|exact Hiff]].
  case_decide as Hempty.
  - subst lines. reflexivity.
  - apply work_list_read_back; [done|]. apply Forall_forall. intros line Hline.
    apply Hiff in Hline as [(f & _ & Hf & ->)|(f & _ & Hf & ->)].
    + by apply (marked_bare_line "REATE: " f "C").
    + by apply (marked_bare_line "ODIFY: " f "M").
Qed.

Lemma count_missing (p : string → bool) (lines : list string) :
  ∀ n,
    fold_left (fun missing line => if p line then S missing else missing) lines n
    = (n + length (filter (fun line => p line = true) lines))%nat.
Proof.
  induction lines as [|line lines IH]; intros n; [simpl; lia|].
  cbn [fold_left]. rewrite IH, filter_cons. destruct (p line) eqn:Hp.
  - rewrite decide_True by done. simpl. lia.
  - rewrite decide_False by (by intros [=]). done.
Qed.

(** The two ways [verify_files] ends on the work list of the spawn
    stage. *)
Lemma verify_files_outcome (path_exists : string → bool)
    (so : SetOrder) (agent_context : AgentContext.t) (agent_data : list PlanAgent.t) :
  Forall bare_path
    (sum_lists PlanAgent.filesToCreate agent_data
       ++ sum_lists PlanAgent.filesToModify agent_data) →
  let files_list :=
    read_text (AgentFiles.files_to_work_on
                 (create_agent_files so agent_context agent_data)) in
  (verify_files path_exists (Some files_list) = Return tt ∧
   ∀ f, f ∈ sum_lists PlanAgent.filesToCreate agent_data → path_exists f = true) ∨
  (verify_files path_exists (Some files_list) = Exit 1 ∧
   ∃ f, f ∈ sum_lists PlanAgent.filesToCreate agent_data ∧ path_exists f = false).
Proof.
  intros Hbare files_list. subst files_list.
  destruct (spawned_work_list so agent_context agent_data Hbare)
    as (lines & Hsplit & _ & Hlines).
  unfold verify_files. cbv zeta. rewrite Hsplit.
  set (p := fun line =>
         if startswith line "CREATE:"
         then negb (path_exists (strip (str_replace "CREATE:" EmptyString line)))
         else false).
  assert (Hfold : ∀ ls n,
    fold_left
      (fun missing_files line =>
         if startswith line "CREATE:" then
           if negb (path_exists (strip (str_replace "CREATE:" EmptyString line)))
           then S missing_files else missing_files
         else missing_files) ls n
    = fold_left (fun missing line => if p line then S missing else missing) ls n).
  { induction ls as [|l ls IH]; intros n; [done|]. cbn [fold_left]. rewrite IH.
    subst p. cbv beta. by destruct (startswith l "CREATE:"). }
  rewrite Hfold, count_missing.
  assert (Hcount :
    length (filter (fun line => p line = true)
              (if decide (lines = []) then [EmptyString] else lines))
    = length (filter (fun line => p line = true) lines)).
  { case_decide as He; [subst lines; done|done]. }
  rewrite Hcount. clear Hcount Hfold Hsplit.
  destruct (filter (fun line => p line = true) lines) as [|line rest] eqn:Hfilter.
  - left. split; [done|]. intros f Hf.
    assert (Hb : bare_path f).
    { rewrite Forall_forall in Hbare. apply Hbare, elem_of_app. by left. }
    assert (Hline : "CREATE: " +:+ f ∈ lines).
    { apply Hlines. left. by exists f. }
    destruct (path_exists f) eqn:Hex; [done|]. exfalso.
    assert (Hin : "CREATE: " +:+ f ∈ filter (fun line => p line = true) lines).
    { apply list_elem_of_filter. split; [|done]. subst p. cbv beta.
      destruct (created_line f Hb) as [-> ->]. by rewrite Hex. }
    rewrite Hfilter in Hin. by apply elem_of_nil in Hin.
  - right. split; [done|].
    assert (Hin : line ∈ filter (fun line => p line = true) lines).
    { rewrite Hfilter. left. }
    apply list_elem_of_filter in Hin as [Hp Hline].
    apply Hlines in Hline as [(f & Hf & Hb & ->)|(f & Hf & Hb & ->)].
    + exists f. split; [done|]. subst p. cbv beta in Hp.
      destruct (created_line f Hb) as [H1 H2]. rewrite H1, H2 in Hp.
      by destruct (path_exists f).
    + subst p. cbv beta in Hp.
      destruct (modified_line f Hb) as [H1 _]. by rewrite H1 in Hp.
Qed.

(** X24. On the work list that the spawn stage has written for an agent:
    when [verify_files] returns, every file the plan gave the agent to
    create exists; when it leaves, it is with status 1, and one of the
    files to create, not one of those to modify, is missing. *)
Theorem verify_files_checks_the_files_to_create (path_exists : string → bool)
    (so : SetOrder) (agent_context : AgentContext.t) (agent_data : list PlanAgent.t) :
  Forall bare_path
    (sum_lists PlanAgent.filesToCreate agent_data
       ++ sum_lists PlanAgent.filesToModify agent_data) →
  let files_list :=
    read_text (AgentFiles.files_to_work_on
                 (create_agent_files so agent_context agent_data)) in
  (verify_files path_exists (Some files_list) = Return tt →
   ∀ f, f ∈ sum_lists PlanAgent.filesToCreate agent_data → path_exists f = true) ∧
  (∀ code,
     verify_files path_exists (Some files_list) = Exit code →
     code = 1%Z ∧
     ∃ f, f ∈ sum_lists PlanAgent.filesToCreate agent_data ∧ path_exists f = false).
Proof.
  intros Hbare files_list.
  destruct (verify_files_outcome path_exists so agent_context agent_data Hbare)
    as [[Hreturns Hall] | [Hexits Hmissing]]; fold files_list in Hreturns || fold files_list in Hexits.
  - split; [done|]. intros code Hcode. by rewrite Hreturns in Hcode.
  - split; [intros Hreturns; by rewrite Hexits in Hreturns|].
    intros code Hcode. rewrite Hexits in Hcode. by injection Hcode as <-.
Qed.

Lemma verify_files_checks_the_files_to_create_witness :
  ∃ f,
    f ∈ sum_lists PlanAgent.filesToCreate spawned_example ∧
    bool_decide (f = "src/a.tsx") = false.
Proof.
  apply (verify_files_checks_the_files_to_create
           (fun p => bool_decide (p = "src/a.tsx")) first_seen_order
           (create_agent_context first_seen_order "now" (Plan.mk None None None)
              "ui_agent" "branch" "tree")
           spawned_example) with (code := 1%Z).
  - repeat constructor; discriminate.
  - vm_compute. reflexivity.
Defined.

Lemma files_fold (lines : list string) :
  ∀ files_created files_modified,
    fold_left
      (fun '(files_created, files_modified) line =>
         if startswith line "CREATE:" then
           (files_created ++ [strip (str_replace "CREATE:" EmptyString line)],
            files_modified)
         else if startswith line "MODIFY:" then
           (files_created,
            files_modified ++ [strip (str_replace "MODIFY:" EmptyString line)])
         else (files_created, files_modified))
      lines (files_created, files_modified)
    = (files_created
         ++ omap (fun line =>
                    if startswith line "CREATE:"
                    then Some (strip (str_replace "CREATE:" EmptyString line))
                    else None) lines,
       files_modified
         ++ omap (fun line =>
                    if startswith line "CREATE:" then None
                    else if startswith line "MODIFY:"
                    then Some (strip (str_replace "MODIFY:" EmptyString line))
                    else None) lines).
Proof.
  induction lines as [|line lines IH]; intros fc fm.
  - cbn. by rewrite !app_nil_r.
  - cbn [fold_left omap list_omap].
    destruct (startswith line "CREATE:"); [|destruct (startswith line "MODIFY:")];
      rewrite IH; by rewrite <- ?app_assoc.
Qed.

Lemma NoDup_omap_inj {A B : Type} (f : A → option B) (l : list A) :
  (∀ x y z, x ∈ l → y ∈ l → f x = Some z → f y = Some z → x = y) →
  NoDup l → NoDup (omap f l).
Proof.
  intros Hinj Hnd. induction Hnd as [|x l Hx Hnd IH]; [constructor|].
  cbn [omap list_omap]. destruct (f x) as [z|] eqn:Hfx.
  - constructor.
    + intros Hz. apply list_elem_of_omap in Hz as (y & Hy & Hfy).
      assert (x = y).
      { apply (Hinj x y z); [left|by right|done|done]. }
      by subst y.
    + apply IH. intros a b c Ha Hb. apply Hinj; by right.
  - apply IH. intros a b c Ha Hb. apply Hinj; by right.
Qed.

(** X25. From the work list that the spawn stage has written for an agent,
    [create_coordination_files] reads the files back. When it returns, it
    has written its three documents: the validation status lists as created
    exactly the files that the plan gave the agent to create and as modified
    exactly those it gave the agent to modify, each once even when the plan
    lists it more than once, and the deployment plan carries their
    numbers. *)
Theorem commit_documents_list_the_agents_files (so : SetOrder)
    (agent_context : AgentContext.t) (agent_data : list PlanAgent.t)
    (timestamp stamp : string) (commit_hash : option string)
    (agent_info : ParsedContext.t) (validation : nat * nat)
    (written : list (string * yaml)) :
  Forall bare_path
    (sum_lists PlanAgent.filesToCreate agent_data
       ++ sum_lists PlanAgent.filesToModify agent_data) →
  let files_list :=
    read_text (AgentFiles.files_to_work_on
                 (create_agent_files so agent_context agent_data)) in
  create_coordination_files timestamp stamp commit_hash agent_info validation
    (Some files_list)
  = (written, Return tt) →
  ∃ files_created files_modified validation_status integration_status deployment_plan,
    written
    = [ ("shared/coordination/validation-status.yaml", validation_status);
        ("shared/coordination/integration-status.yaml", integration_status);
        ("shared/deployment-plans/" +:+ ParsedContext.agent_id agent_info
           +:+ "-deployment-plan.yaml", deployment_plan) ] ∧
    yaml_get "files_created" validation_status = Some (ystrs files_created) ∧
    yaml_get "files_modified" validation_status = Some (ystrs files_modified) ∧
    ((yaml_get "agents" deployment_plan
        ≫= yaml_get (ParsedContext.agent_id agent_info))
       ≫= yaml_get "files_created")
    = Some (YInt (Z.of_nat (length files_created))) ∧
    ((yaml_get "agents" deployment_plan
        ≫= yaml_get (ParsedContext.agent_id agent_info))
       ≫= yaml_get "files_modified")
    = Some (YInt (Z.of_nat (length files_modified))) ∧
    NoDup files_created ∧ NoDup files_modified ∧
    (∀ f, f ∈ files_created ↔ f ∈ sum_lists PlanAgent.filesToCreate agent_data) ∧
    (∀ f, f ∈ files_modified ↔ f ∈ sum_lists PlanAgent.filesToModify agent_data).
Proof.
  intros Hbare files_list Hwritten. subst files_list.
  destruct (spawned_work_list so agent_context agent_data Hbare)
    as (lines & Hsplit & Hnd & Hlines).
  rewrite Forall_forall in Hbare.
  set (cre := fun line =>
         if startswith line "CREATE:"
         then Some (strip (str_replace "CREATE:" EmptyString line)) else None).
  set (mod_ := fun line =>
         if startswith line "CREATE:" then None
         else if startswith line "MODIFY:"
         then Some (strip (str_replace "MODIFY:" EmptyString line)) else None).
  assert (Hfiles :
    work_list_files
      (Some (read_text (AgentFiles.files_to_work_on
                          (create_agent_files so agent_context agent_data))))
    = (omap cre lines, omap mod_ lines)).
  { unfold work_list_files. rewrite Hsplit, files_fold. fold cre. fold mod_.
    case_decide as He; [by subst lines|done]. }
  assert (Hcre : ∀ line f, line ∈ lines →
            (cre line = Some f ↔
             f ∈ sum_lists PlanAgent.filesToCreate agent_data ∧ line = "CREATE: " +:+ f)).
  { intros line f Hline. subst cre. cbv beta.
    apply Hlines in Hline as [(g & Hg & Hb & ->)|(g & Hg & Hb & ->)].
    - destruct (created_line g Hb) as [-> ->]. split.
      + intros [= ->]. done.
      + intros [Hf Heq]. f_equal.
        assert (String.length ("CREATE: " +:+ g) = String.length ("CREATE: " +:+ f))
          by by rewrite Heq.
        clear -Heq. by injection Heq.
    - destruct (modified_line g Hb) as [-> _]. split; [done|]. intros [_ Heq].
      exfalso. clear -Heq. by injection Heq. }
  assert (Hmod : ∀ line f, line ∈ lines →
            (mod_ line = Some f ↔
             f ∈ sum_lists PlanAgent.filesToModify agent_data ∧ line = "MODIFY: " +:+ f)).
  { intros line f Hline. subst mod_. cbv beta.
    apply Hlines in Hline as [(g & Hg & Hb & ->)|(g & Hg & Hb & ->)].
    - destruct (created_line g Hb) as [-> _]. split; [done|]. intros [_ Heq].
      exfalso. clear -Heq. by injection Heq.
    - destruct (modified_line g Hb) as (-> & -> & ->). split.
      + intros [= ->]. done.
      + intros [Hf Heq]. f_equal. clear -Heq. by injection Heq. }
  unfold create_coordination_files in Hwritten. cbv zeta in Hwritten.
  rewrite Hfiles in Hwritten. destruct commit_hash as [stdout|]; [|done].
  injection Hwritten as <-.
  eexists (omap cre lines), (omap mod_ lines), _, _, _.
  split; [reflexivity|]. split; [reflexivity|]. split; [reflexivity|].
  split.
  { cbn [yaml_get dict_get]. rewrite !decide_False by discriminate.
    rewrite decide_True by done. cbn [mbind option_bind yaml_get dict_get].
    rewrite decide_True by done. reflexivity. }
  split.
  { cbn [yaml_get dict_get]. rewrite !decide_False by discriminate.
    rewrite decide_True by done. cbn [mbind option_bind yaml_get dict_get].
    rewrite decide_True by done. reflexivity. }
  split; [|split; [|split]].
  - apply NoDup_omap_inj; [|done]. intros x y z Hx Hy Hfx Hfy.
    apply (Hcre _ _ Hx) in Hfx as [_ ->]. apply (Hcre _ _ Hy) in Hfy as [_ ->]. done.
  - apply NoDup_omap_inj; [|done]. intros x y z Hx Hy Hfx Hfy.
    apply (Hmod _ _ Hx) in Hfx as [_ ->]. apply (Hmod _ _ Hy) in Hfy as [_ ->]. done.
  - intros f. rewrite list_elem_of_omap. split.
    + intros (line & Hline & Hf). by apply (Hcre _ _ Hline) in Hf as [? _].
    + intros Hf. exists ("CREATE: " +:+ f).
      assert (Hline : "CREATE: " +:+ f ∈ lines).
      { apply Hlines. left. exists f. split; [done|]. split; [|done].
        apply Hbare, elem_of_app. by left. }
      split; [done|]. by apply Hcre.
  - intros f. rewrite list_elem_of_omap. split.
    + intros (line & Hline & Hf). by apply (Hmod _ _ Hline) in Hf as [? _].
    + intros Hf. exists ("MODIFY: " +:+ f).
      assert (Hline : "MODIFY: " +:+ f ∈ lines).
      { apply Hlines. right. exists f. split; [done|]. split; [|done].
        apply Hbare, elem_of_app. by right. }
      split; [done|]. by apply Hmod.
Qed.

Lemma commit_documents_list_the_agents_files_witness :
  let files_list :=
    read_text (AgentFiles.files_to_work_on
                 (create_agent_files first_seen_order
                    (create_agent_context first_seen_order "now" (Plan.mk None None None)
                       "ui_agent" "branch" "tree")
                    spawned_example)) in
  let agent_info :=
    ParsedContext.mk "ui_agent" (YStr "UI") (YStr "ISSUE-1") (YStr "Title")
      (YStr "ISSUE-1-ui_agent") YNull YNull (YList []) YNull in
  ∃ files_created files_modified validation_status integration_status deployment_plan,
    (create_coordination_files "2025-01-01T00:00:00" "20250101-000000" (Some "abc123")
       agent_info (2, 2)%nat (Some files_list)).1
    = [ ("shared/coordination/validation-status.yaml", validation_status);
        ("shared/coordination/integration-status.yaml", integration_status);
        ("shared/deployment-plans/" +:+ ParsedContext.agent_id agent_info
           +:+ "-deployment-plan.yaml", deployment_plan) ] ∧
    yaml_get "files_created" validation_status = Some (ystrs files_created) ∧
    yaml_get "files_modified" validation_status = Some (ystrs files_modified) ∧
    ((yaml_get "agents" deployment_plan
        ≫= yaml_get (ParsedContext.agent_id agent_info))
       ≫= yaml_get "files_created")
    = Some (YInt (Z.of_nat (length files_created))) ∧
    ((yaml_get "agents" deployment_plan
        ≫= yaml_get (ParsedContext.agent_id agent_info))
       ≫= yaml_get "files_modified")
    = Some (YInt (Z.of_nat (length files_modified))) ∧
    NoDup files_created ∧ NoDup files_modified ∧
    (∀ f, f ∈ files_created ↔ f ∈ sum_lists PlanAgent.filesToCreate spawned_example) ∧
    (∀ f, f ∈ files_modified ↔ f ∈ sum_lists PlanAgent.filesToModify spawned_example).
Proof.
  intros files_list agent_info.
  apply (commit_documents_list_the_agents_files first_seen_order
           (create_agent_context first_seen_order "now" (Plan.mk None None None)
              "ui_agent" "branch" "tree")
           spawned_example "2025-01-01T00:00:00" "20250101-000000" (Some "abc123")
           agent_info (2, 2)%nat).
  - repeat constructor; discriminate.
  - reflexivity.
Defined.

(** ** From the commit stage to the integration stage *)

(** X26. The deployment plan that [create_coordination_files] writes is one
    the integration stage accepts: when that plan is the plan found,
    validation is on record as passed and every step succeeds, the
    integration stage returns and has made one commit, that of the agent. *)
Theorem commit_plan_is_integrated (w : World.t) (skip_tests : bool) (vs : option yaml)
    (timestamp stamp stdout : string) (agent_info : ParsedContext.t)
    (validation : nat * nat) (files_list : option string)
    (written : list (string * yaml)) (file : string) (plan : yaml) :
  create_coordination_files timestamp stamp (Some stdout) agent_info validation files_list
  = (written, Return tt) →
  last written = Some (file, plan) →
  World.validation_status w = Some vs →
  validation_passed vs = true →
  World.deployment_plan w = Some (file, Some plan) →
  green w →
  file = "shared/deployment-plans/" +:+ ParsedContext.agent_id agent_info
         +:+ "-deployment-plan.yaml" ∧
  ∃ h message,
    integrate_parallel_work w skip_tests [] = (Return tt, h) ∧
    commits h = [message] ∧
    commit_of (ParsedContext.agent_id agent_info) message.
Proof.
  intros Hwritten Hlast Hvs Hpassed Hplan Hgreen.
  unfold create_coordination_files in Hwritten. cbv zeta in Hwritten.
  destruct (work_list_files files_list) as [files_created files_modified].
  injection Hwritten as <-. cbn [last] in Hlast. injection Hlast as <- <-.
  split; [reflexivity|].
  rewrite (plan_with_order_integrated w skip_tests _ _ vs
             [ParsedContext.agent_id agent_info] Hvs Hpassed Hplan)
    by reflexivity.
  destruct (integrate_in_order_green w skip_tests
              ("shared/deployment-plans/" +:+ ParsedContext.agent_id agent_info
               +:+ "-deployment-plan.yaml")
              [ParsedContext.agent_id agent_info] Hgreen)
    as (h & Hrun & Hcommits).
  inversion Hcommits as [|? message ? rest Hmessage Hrest Heq1 Heq2]; subst.
  inversion Hrest; subst.
  exists h, message. split; [done|]. split; [by symmetry|done].
Qed.

Lemma commit_plan_is_integrated_witness :
  "shared/deployment-plans/ui_agent-deployment-plan.yaml"
  = "shared/deployment-plans/" +:+ ParsedContext.agent_id committing_example
    +:+ "-deployment-plan.yaml" ∧
  ∃ h message,
    integrate_parallel_work
      (all_green "shared/deployment-plans/ui_agent-deployment-plan.yaml" committed_plan)
      false [] = (Return tt, h) ∧
    commits h = [message] ∧
    commit_of (ParsedContext.agent_id committing_example) message.
Proof.
  apply (commit_plan_is_integrated
           (all_green "shared/deployment-plans/ui_agent-deployment-plan.yaml"
              committed_plan)
           false (Some passed_status) "2025-01-01T00:00:00" "20250101-000000" "abc123"
           committing_example (2, 2)%nat None
           (create_coordination_files "2025-01-01T00:00:00" "20250101-000000"
              (Some "abc123") committing_example (2, 2)%nat None).1
           "shared/deployment-plans/ui_agent-deployment-plan.yaml" committed_plan);
    [reflexivity|reflexivity|reflexivity|reflexivity|reflexivity|apply all_green_green].
Defined.

(** ** A fresh checklist *)

Lemma prefix_app_l (p a t : string) :
  String.prefix p a = true → String.prefix p (a +:+ t) = true.
Proof.
  revert a. induction p as [|c p IH]; intros a; [by destruct a, t|].
  destruct a as [|c' a]; [done|]. rewrite app_String. cbn [String.prefix].
  destruct (ascii_dec c c'); [apply IH|done].
Qed.

Lemma str_in_app_l (p a t : string) :
  str_in p a = true → str_in p (a +:+ t) = true.
Proof.
  induction a as [|c a IH].
  - cbn [str_in]. rewrite orb_false_r. intros Hp. destruct p; [|done].
    destruct t; done.
  - rewrite app_String. cbn [str_in]. intros [Hp|Ha]%orb_true_iff.
    + apply (prefix_app_l _ _ t) in Hp. rewrite app_String in Hp. by rewrite Hp.
    + rewrite (IH Ha). by rewrite orb_true_r.
Qed.

Lemma str_in_tail (p : string) (c : ascii) (s : string) :
  str_in p s = true → str_in p (String c s) = true.
Proof. intros H. cbn [str_in]. rewrite H. by rewrite orb_true_r. Qed.

Lemma str_in_lstrip (p s : string) : str_in p (lstrip s) = true → str_in p s = true.
Proof.
  induction s as [|c s IH]; [done|]. cbn [lstrip].
  destruct (is_space c); [|done]. intros H. by apply str_in_tail, IH.
Qed.

Lemma rstrip_prefix (s : string) : ∃ t, s = rstrip s +:+ t.
Proof.
  induction s as [|c s [t IH]]; [by exists EmptyString|].
  cbn [rstrip]. destruct (rstrip s) as [|c' r] eqn:Hr.
  - destruct (is_space c).
    + by exists (String c s).
    + exists s. done.
  - exists t. rewrite app_String. by rewrite <- IH.
Qed.

Lemma str_in_rstrip (p s : string) : str_in p (rstrip s) = true → str_in p s = true.
Proof.
  intros H. destruct (rstrip_prefix s) as [t Ht]. rewrite Ht. by apply str_in_app_l.
Qed.

Lemma split_on_head (sep : ascii) (s : string) :
  ∃ line lines t, split_on sep s = line :: lines ∧ s = line +:+ t.
Proof.
  induction s as [|c s (line & lines & t & Hsplit & Hs)].
  - by exists EmptyString, [], EmptyString.
  - cbn [split_on]. case_decide.
    + by exists EmptyString, (split_on sep s), (String c s).
    + rewrite Hsplit. exists (String c line), lines, t. split; [done|].
      rewrite app_String. by rewrite <- Hs.
Qed.

Lemma str_in_split_on (p : string) (sep : ascii) (s line : string) :
  p ≠ EmptyString →
  line ∈ split_on sep s → str_in p line = true → str_in p s = true.
Proof.
  intros Hp. revert line. induction s as [|c s IH]; intros line.
  - cbn [split_on]. intros ->%list_elem_of_singleton. done.
  - cbn [split_on]. case_decide as Hc.
    + intros [->|Hin]%elem_of_cons Hline.
      * cbn in Hline. rewrite orb_false_r in Hline. by destruct p.
      * by apply str_in_tail, (IH line).
    + destruct (split_on_head sep s) as (first & lines & t & Hsplit & Hs).
      rewrite Hsplit. intros [->|Hin]%elem_of_cons Hline.
      * rewrite Hs, <- app_String. by apply str_in_app_l.
      * apply str_in_tail, (IH line); [|done]. rewrite Hsplit. by right.
Qed.

Lemma universal_newlines_head (s : string) (c : ascii) (rest : string) :
  c ≠ newline → universal_newlines s = String c rest → ∃ rest', s = String c rest'.
Proof.
  intros Hc. destruct s as [|c' s]; [done|]. cbn [universal_newlines].
  case_decide; [by intros [= <-]|]. intros [= <- _]. by eexists.
Qed.

Lemma universal_newlines_open (s : string) :
  str_in "[x" s = false → str_in "[x" (universal_newlines s) = false.
Proof.
  remember (String.length s) as n eqn:Hn. revert s Hn.
  induction (lt_wf n) as [n _ IH]. intros s -> Hs.
  destruct s as [|c s]; [done|].
  cbn [str_in] in Hs. apply orb_false_elim in Hs as [Hp Hs].
  cbn [universal_newlines]. case_decide as Hc.
  - cbn [str_in]. apply orb_false_intro; [done|].
    destruct s as [|c' s]; [done|]. case_decide.
    + cbn [str_in] in Hs. apply orb_false_elim in Hs as [_ Hs].
      apply (IH (String.length s)); [cbn; lia|done|done].
    + apply (IH (String.length (String c' s))); [cbn; lia|done|done].
  - cbn [str_in]. apply orb_false_intro.
    + destruct (String.prefix "[x" (String c (universal_newlines s))) eqn:Hpre; [|done].
      exfalso. cbn [String.prefix] in Hpre.
      destruct (ascii_dec "[" c) as [<-|]; [|done].
      destruct (universal_newlines s) as [|c' rest] eqn:Hu; [done|].
      cbn [String.prefix] in Hpre.
      destruct (ascii_dec "x" c') as [<-|]; [|done].
      destruct (universal_newlines_head s "x" rest ltac:(done) Hu) as [rest' ->].
      cbn in Hp. by destruct rest'.
    + apply (IH (String.length s)); [cbn; lia|done|done].
Qed.

Lemma str_in_closed (s : string) : str_in "[x]" s = true → str_in "[x" s = true.
Proof.
  induction s as [|c s IH]; [done|]. cbn [str_in].
  intros [Hp|Hs]%orb_true_iff.
  - apply orb_true_iff. left.
    destruct s as [|c' s]; cbn [String.prefix] in *;
      destruct (ascii_dec "[" c); try done.
    destruct (ascii_dec "x" c'); [|done]. by destruct s.
  - rewrite (IH Hs). by rewrite orb_true_r.
Qed.

Lemma open_free (a b : string) :
  str_free "[" a → str_in "[x" (a +:+ b) = str_in "[x" b.
Proof.
  unfold str_free. induction a as [|c a IH]; [done|].
  cbn [str_all]. intros [Hc Ha]%andb_true_iff. rewrite app_String. cbn [str_in].
  rewrite (IH Ha). cbn [String.prefix].
  destruct (ascii_dec "[" c) as [<-|]; [done|done].
Qed.

Lemma pretty_N_go_free (x : N) :
  ∀ s, str_free "[" s → str_free "[" (pretty_N_go x s).
Proof.
  induction (N.lt_wf_0 x) as [x _ IH]. intros s Hs.
  assert (x = 0 ∨ 0 < x)%N as [->|Hx] by lia; [by rewrite pretty_N_go_0|].
  rewrite pretty_N_go_step by done. apply IH; [by apply N.div_lt|].
  unfold str_free in *. cbn [str_all]. rewrite Hs, andb_true_r.
  unfold pretty_N_char. by repeat case_match.
Qed.

Lemma pretty_nat_free (n : nat) : str_free "[" (pretty n).
Proof.
  unfold pretty, pretty_nat, pretty, pretty_N. case_decide; [done|].
  by apply pretty_N_go_free.
Qed.

Lemma open_join (lines : list string) :
  Forall (fun line =>
            ∃ number criteria,
              line = number +:+ ". [ ] " +:+ criteria ∧
              str_free "[" number ∧ str_free "[" criteria) lines →
  str_in "[x" (join_lines lines) = false.
Proof.
  assert (Hline : ∀ number criteria rest,
    str_free "[" number → str_free "[" criteria →
    str_in "[x" ((number +:+ ". [ ] " +:+ criteria) +:+ rest) = str_in "[x" rest).
  { intros number criteria rest Hn Hc.
    rewrite !app_assoc_str. rewrite (open_free _ _ Hn).
    change (". [ ] " +:+ criteria +:+ rest)
      with (String "." (String " " (String "[" (String " " (String "]" (String " "
              (criteria +:+ rest))))))).
    cbn [str_in String.prefix]. cbn. by rewrite (open_free _ _ Hc). }
  induction lines as [|line [|next lines] IH]; intros Hall; [done| |].
  - apply Forall_inv in Hall as (number & criteria & -> & Hn & Hc).
    unfold join_lines. cbn [String.concat].
    rewrite <- (app_empty_r (number +:+ ". [ ] " +:+ criteria)).
    by rewrite Hline.
  - rewrite join_lines_cons.
    inversion Hall as [|? ? (number & criteria & -> & Hn & Hc) Hrest]; subst.
    rewrite Hline by done. cbn [str_in String.prefix]. cbn.
    by apply IH.
Qed.

(** X27. A checklist as the spawn stage writes it is not accepted by the
    commit stage: whatever the criteria are, as long as none of them holds
    an opening bracket, [validate_agent_completion] leaves with status 1. *)
Theorem fresh_checklist_is_rejected (so : SetOrder) (agent_context : AgentContext.t)
    (agent_data : list PlanAgent.t) :
  Forall (str_free "[") (sum_lists PlanAgent.validationCriteria agent_data) →
  validate_agent_completion
    (Some (read_text (AgentFiles.validation_checklist
                        (create_agent_files so agent_context agent_data))))
  = Exit 1.
Proof.
  intros Hfree. unfold create_agent_files. cbv zeta.
  cbn [AgentFiles.validation_checklist].
  set (criteria := set_to_list so (sum_lists PlanAgent.validationCriteria agent_data)).
  assert (Hcriteria : Forall (str_free "[") criteria).
  { apply Forall_forall. intros c Hc. subst criteria.
    apply set_to_list_elem in Hc. rewrite Forall_forall in Hfree. by apply Hfree. }
  clearbody criteria.
  set (content :=
         join_lines
           (imap (fun i criteria => pretty (i + 1)%nat +:+ ". [ ] " +:+ criteria)
              criteria)).
  assert (Hopen : str_in "[x" (read_text content) = false).
  { apply universal_newlines_open. subst content. apply open_join.
    apply Forall_forall. intros line Hline.
    apply elem_of_lookup_imap in Hline as (i & c & -> & Hi).
    exists (pretty (i + 1)%nat), c. split; [done|]. split; [apply pretty_nat_free|].
    rewrite Forall_forall in Hcriteria. apply Hcriteria.
    by apply list_elem_of_lookup_2 in Hi. }
  clearbody content. unfold validate_agent_completion. cbv zeta.
  set (lines := split_on newline (strip (read_text content))).
  assert (Hnone : filter (fun line => str_in "[x]" line = true) lines = []).
  { destruct (filter (fun line => str_in "[x]" line = true) lines)
      as [|line rest] eqn:Hfilter; [done|]. exfalso.
    assert (Hin : line ∈ filter (fun line => str_in "[x]" line = true) lines).
    { rewrite Hfilter. left. }
    apply list_elem_of_filter in Hin as [Hx Hline].
    apply str_in_closed in Hx.
    apply (str_in_split_on "[x" newline _ line) in Hline; [|done|done].
    unfold strip in Hline. apply str_in_rstrip, str_in_lstrip in Hline.
    by rewrite Hopen in Hline. }
  rewrite Hnone. cbn [length].
  destruct (length (filter _ lines)) as [|total]; done.
Qed.

Lemma fresh_checklist_is_rejected_witness :
  validate_agent_completion
    (Some (read_text (AgentFiles.validation_checklist
                        (create_agent_files first_seen_order
                           (create_agent_context first_seen_order "now"
                              (Plan.mk None None None) "ui_agent" "branch" "tree")
                           spawned_example))))
  = Exit 1.
Proof.
  apply (fresh_checklist_is_rejected first_seen_order).
  repeat constructor.
Defined.

(** ** Test contracts on the hybrid path *)

Lemma replace_go_free_prefix (old new base rest : string) (c : ascii) :
  str_free c base →
  replace_go (String c old) new 0 (base +:+ rest)
  = base +:+ replace_go (String c old) new 0 rest.
Proof.
  unfold str_free. induction base as [|c' base IH]; [done|].
  cbn [str_all]. intros [Hc Hbase]%andb_true_iff. rewrite !app_String.
  cbn [replace_go String.prefix].
  destruct (ascii_dec c c') as [->|]; [by rewrite bool_decide_eq_true_2 in Hc|].
  by rewrite (IH Hbase).
Qed.

(** X28. On the hybrid path every file to create has its test contract, made
    by the two replacements [.ts] to [.test.ts] and [.js] to [.test.js]: a
    TypeScript, TSX or JavaScript file with no other dot in its path gets
    [.test] before its extension, so does a JSON file, whose extension
    starts with [.js], and a file whose path holds neither [.ts] nor [.js]
    is its own test contract. *)
Theorem hybrid_test_contracts_by_replacement (agent_data : LlmAgent.t) :
  length (Agent.test_contracts (llm_agent agent_data))
  = length (Agent.files_to_create (llm_agent agent_data)) ∧
  ∀ i file,
    Agent.files_to_create (llm_agent agent_data) !! i = Some file →
    ∃ contract,
      Agent.test_contracts (llm_agent agent_data) !! i = Some contract ∧
      (∀ base, str_free "." base →
         (file = base +:+ ".ts" → contract = base +:+ ".test.ts") ∧
         (file = base +:+ ".tsx" → contract = base +:+ ".test.tsx") ∧
         (file = base +:+ ".js" → contract = base +:+ ".test.js") ∧
         (file = base +:+ ".json" → contract = base +:+ ".test.json")) ∧
      (str_in ".ts" file = false → str_in ".js" file = false → contract = file).
Proof.
  unfold llm_agent. cbv zeta. cbn [Agent.test_contracts Agent.files_to_create].
  split; [by rewrite length_fmap|].
  intros i file Hfile. eexists. split; [by rewrite list_lookup_fmap, Hfile|].
  split.
  - intros base Hbase. unfold str_replace.
    split; [|split; [|split]]; intros ->;
      rewrite (replace_go_free_prefix _ _ base _ "." Hbase);
      cbn [replace_go String.prefix String.length Nat.sub]; cbn;
      rewrite (replace_go_free_prefix _ _ base _ "." Hbase); reflexivity.
  - intros Hts Hjs. unfold str_replace.
    rewrite (replace_go_absent _ _ _ Hts). by rewrite (replace_go_absent _ _ _ Hjs).
Qed.
